(** * CUR selection of samples and features (rascal/utils/cur.py)

    A shallow embedding of [do_CUR] and of the [CURFilter] class, with the
    properties of the selection that the design document states.

    Conventions of the embedding.
    - A numpy float array is a list of rationals ([Q]): arithmetic is the
      exact one, rounding and NaN are left out.
    - A two-dimensional array is the list of its rows.
    - An index array (numpy intp) is a [list nat].
    - A Python [dict] is an association list in insertion order.
    - A Python exception is a value of [exn]; a call that may raise returns
      a [result].
    - numpy, scipy and the rascal helpers that [cur.py] only imports are the
      fields of the classes [NumPy] and [Rascal]; what their documentation
      promises is the class [NumPyContract]. *)

From Stdlib Require Import String Ascii.
From Stdlib Require Import List ZArith QArith Lia Bool.
From Stdlib Require Import Permutation Sorted.
Import ListNotations.

Close Scope Q_scope.
Local Open Scope nat_scope.

(** ** Exceptions and results *)

Inductive exn : Set :=
| ValueError
| KeyError
| IndexError
| TypeError
| AttributeError
| UnboundLocalError.

Definition result (A : Type) : Type := (exn + A)%type.

Definition Ok {A : Type} (a : A) : result A := inr a.
Definition Raise {A : Type} (e : exn) : result A := inl e.

Definition is_ok {A : Type} (r : result A) : bool :=
  match r with inr _ => true | inl _ => false end.

(** ** Arrays *)

Definition vector : Type := list Q.
Definition matrix : Type := list (list Q).
Definition index_array : Type := list nat.

(** [X.shape[0]] and [X.shape[1]]. *)
Definition nrows (X : matrix) : nat := length X.
Definition ncols (X : matrix) : nat :=
  match X with
  | [] => 0
  | r :: _ => length r
  end.

(** A two-dimensional array has rows of one length. *)
Definition is_matrix (X : matrix) : Prop :=
  Forall (fun r => length r = ncols X) X.

(** [a[:k]] for a Python integer [k]: a negative [k] counts from the end. *)
Definition slice_to {A : Type} (a : list A) (k : Z) : list A :=
  if (k <? 0)%Z
  then firstn (length a - Z.to_nat (- k)) a
  else firstn (Z.to_nat k) a.

(** [a[idx]] with an index array: every position must exist. *)
Fixpoint take {A : Type} (a : list A) (idx : index_array) : result (list A) :=
  match idx with
  | [] => Ok []
  | i :: rest =>
      match nth_error a i with
      | None => Raise IndexError
      | Some x =>
          match take a rest with
          | inl e => inl e
          | inr xs => Ok (x :: xs)
          end
      end
  end.

(** [X[:, idx]]: the same columns taken in every row. *)
Fixpoint take_columns (X : matrix) (idx : index_array) : result matrix :=
  match X with
  | [] => Ok []
  | r :: rest =>
      match take r idx with
      | inl e => inl e
      | inr r' =>
          match take_columns rest idx with
          | inl e => inl e
          | inr rs => Ok (r' :: rs)
          end
      end
  end.

Definition Qsum (v : vector) : Q := fold_right Qplus 0%Q v.

(** [np.mean] of a one-dimensional array. *)
Definition Qmean (v : vector) : Q :=
  (Qsum v / inject_Z (Z.of_nat (length v)))%Q.

(** [np.square(M)]. *)
Definition np_square (M : matrix) : matrix :=
  map (map (fun x => (x * x)%Q)) M.

Definition column (M : matrix) (j : nat) : vector :=
  map (fun r => nth j r 0%Q) M.

(** [np.mean(M, axis=1)]: one value per row. *)
Definition np_mean_axis1 (M : matrix) : vector := map Qmean M.

(** [np.mean(M, axis=0)]: one value per column. *)
Definition np_mean_axis0 (M : matrix) : vector :=
  map (fun j => Qmean (column M j)) (seq 0 (ncols M)).

(** [-v] and [u - v] on one-dimensional arrays of equal length. *)
Definition np_neg (v : vector) : vector := map Qopp v.

Fixpoint np_sub (u v : vector) : vector :=
  match u, v with
  | x :: u', y :: v' => (x - y)%Q :: np_sub u' v'
  | _, _ => []
  end.

(** [np.dot(A, B)], [A - B] and [np.sum(M ** 2)] on matrices. *)
Fixpoint dot_product (u v : vector) : Q :=
  match u, v with
  | x :: u', y :: v' => (x * y + dot_product u' v')%Q
  | _, _ => 0%Q
  end.

Definition np_dot (A B : matrix) : matrix :=
  map (fun ra => map (fun j => dot_product ra (column B j))
                     (seq 0 (ncols B)))
      A.

Fixpoint mat_sub (A B : matrix) : matrix :=
  match A, B with
  | ra :: A', rb :: B' => np_sub ra rb :: mat_sub A' B'
  | _, _ => []
  end.

Definition sum_squares (M : matrix) : Q :=
  Qsum (map (fun r => Qsum (map (fun x => (x * x)%Q) r)) M).

(** [np.sort] of an index array: ascending insertion sort (the sorted
    arrangement of integers does not depend on the algorithm). *)
Fixpoint insert_sorted (x : nat) (l : list nat) : list nat :=
  match l with
  | [] => [x]
  | y :: l' => if x <=? y then x :: l else y :: insert_sorted x l'
  end.

Definition np_sort (a : index_array) : index_array :=
  fold_right insert_sorted [] a.

(** An index array read as a float array, for [np.argsort] on indices. *)
Definition as_floats (a : index_array) : vector :=
  map (fun i => inject_Z (Z.of_nat i)) a.

(** ** Dictionaries *)

Section Dict.
Context {K V : Type} (eqb : K -> K -> bool).

Definition dict : Type := list (K * V).

Fixpoint dict_get (d : dict) (k : K) : option V :=
  match d with
  | [] => None
  | (k', v) :: d' => if eqb k k' then Some v else dict_get d' k
  end.

(** [d[k] = v]: an existing key keeps its place, a new key goes last. *)
Fixpoint dict_set (d : dict) (k : K) (v : V) : dict :=
  match d with
  | [] => [(k, v)]
  | (k', v') :: d' =>
      if eqb k k' then (k', v) :: d' else (k', v') :: dict_set d' k v
  end.

Definition dict_keys (d : dict) : list K := map fst d.
End Dict.

Arguments dict : clear implicits.

(** [sub in s] on Python strings. *)
Fixpoint contains (sub s : string) : bool :=
  String.prefix sub s ||
  match s with
  | EmptyString => false
  | String _ s' => contains sub s'
  end.

(** ** The numerical libraries

    The routines of numpy and scipy that [do_CUR] calls.  [rng_state] is the
    state of numpy's process-wide generator [np.random], from which the
    solver behind [svds] also takes its starting vector. *)

Class NumPy : Type := {
  rng_state : Type;
  (** [np.random.seed(s)]: the state in which the global generator is
      left, or the [ValueError] for a seed that it does not accept. *)
  np_random_seed : Z -> result rng_state;
  (** [np.random.rand(n)]: [n] variates and the advanced state. *)
  np_random_rand : nat -> rng_state -> vector * rng_state;
  (** [np.argsort(v)] with the default [kind]. *)
  np_argsort : vector -> index_array;
  (** [scipy.sparse.linalg.svds(X, k)] called in a state of the process:
      [(U, s, VT)] or the exception, and the state in which the call
      leaves the generator. *)
  svds : matrix -> Z -> rng_state ->
         result (matrix * vector * matrix) * rng_state;
  (** [np.linalg.pinv] and [np.sqrt]. *)
  np_linalg_pinv : matrix -> matrix;
  np_sqrt : Q -> Q
}.

(** [v] read at the positions of [idx]. *)
Definition key_of (v : vector) (i : nat) : Q := nth i v 0%Q.

(** What the documentation of these routines promises. *)
Class NumPyContract (N : NumPy) : Prop := {
  (** [rand(n)] has shape [(n,)]. *)
  rand_length : forall n g, length (fst (np_random_rand n g)) = n;
  (** The variates lie in the half-open interval from 0 to 1. *)
  rand_range : forall n g u,
      In u (fst (np_random_rand n g)) -> (0 <= u)%Q /\ (u < 1)%Q;
  (** [argsort] returns the indices that sort the array: a permutation of
      [range(len(v))] along which the values do not decrease. *)
  argsort_perm : forall v, Permutation (np_argsort v) (seq 0 (length v));
  argsort_sorted : forall v,
      StronglySorted (fun i j => (key_of v i <= key_of v j)%Q) (np_argsort v);
  (** [seed] accepts the integers from 0 to 2**32 - 1 and raises
      [ValueError] for the others. *)
  seed_accepts : forall s,
      (0 <= s < 4294967296)%Z -> exists g, np_random_seed s = Ok g;
  seed_rejects : forall s,
      ~ (0 <= s < 4294967296)%Z -> np_random_seed s = Raise ValueError;
  (** [svds] wants [1 <= k < min(X.shape)] and raises [ValueError]
      otherwise, before it draws anything. *)
  svds_rejects : forall X k g,
      ~ (1 <= k < Z.of_nat (Nat.min (nrows X) (ncols X)))%Z ->
      svds X k g = (Raise ValueError, g);
  (** With such a [k], [U] is [n x k] and [VT] is [k x m]. *)
  svds_shapes : forall X k g,
      (1 <= k < Z.of_nat (Nat.min (nrows X) (ncols X)))%Z ->
      exists U s VT g',
        svds X k g = (Ok (U, s, VT), g') /\
        nrows U = nrows X /\ ncols U = Z.to_nat k /\
        nrows VT = Z.to_nat k /\ ncols VT = ncols X
}.

(** ** The process state

    [do_CUR] decomposes, seeds and draws from the global generator, and
    prints. *)

Inductive line : Type :=
| ReconstructionRMSE (err : Q)
| NumberOfPseudoPoints (Nselect : dict Z Z)
| SelectingSpecies (sp : Z).

Record world {N : NumPy} : Type := {
  np_random : rng_state;
  stdout : list line
}.

(** A computation that may raise and that reads and writes the process
    state; the state reached when an exception is raised is kept. *)
Definition M {N : NumPy} (A : Type) : Type := world -> result A * world.

Section Monad.
Context {N : NumPy}.

Definition ret {A : Type} (a : A) : M A := fun w => (Ok a, w).

Definition raise {A : Type} (e : exn) : M A := fun w => (Raise e, w).

Definition bind {A B : Type} (m : M A) (k : A -> M B) : M B :=
  fun w =>
    match m w with
    | (inl e, w') => (inl e, w')
    | (inr a, w') => k a w'
    end.

Definition lift {A : Type} (r : result A) : M A := fun w => (r, w).

(** A local name that no branch has bound. *)
Definition bound {A : Type} (o : option A) : M A :=
  match o with
  | Some a => ret a
  | None => raise UnboundLocalError
  end.

Definition print (l : line) : M unit :=
  fun w => (Ok tt, {| np_random := np_random w; stdout := stdout w ++ [l] |}).

(** [np.random.seed(s)] replaces the state of the global generator. *)
Definition seed_global (s : Z) : M unit :=
  fun w =>
    match np_random_seed s with
    | inl e => (inl e, w)
    | inr g => (Ok tt, {| np_random := g; stdout := stdout w |})
    end.

(** [svds(X, k)] runs in the current state of the process. *)
Definition svds_global (X : matrix) (k : Z) : M (matrix * vector * matrix) :=
  fun w =>
    let (r, g) := svds X k (np_random w) in
    (r, {| np_random := g; stdout := stdout w |}).

(** [np.random.rand(n)] draws from the global generator and advances it. *)
Definition rand_global (n : nat) : M vector :=
  fun w =>
    let (u, g) := np_random_rand n (np_random w) in
    (Ok u, {| np_random := g; stdout := stdout w |}).
End Monad.

Notation "x <- m ;; k" := (bind m (fun x => k))
  (at level 61, m at next level, right associativity).
Notation "' pat <- m ;; k" := (bind m (fun x => match x with pat => k end))
  (at level 61, pat pattern, m at next level, right associativity).
Notation "m ;;; k" := (bind m (fun _ => k))
  (at level 61, right associativity).

(** ** do_CUR *)

Section DoCUR.
Context {N : NumPy}.
Local Open Scope string_scope.

(** Lines 21-24: the leverage weights, unbound when [act_on] names
    neither axis. *)
Definition leverage_weights (act_on : string) (U VT : matrix)
  : option vector :=
  if contains "sample" act_on then Some (np_mean_axis1 (np_square U))
  else if contains "feature" act_on then Some (np_mean_axis0 (np_square VT))
  else None.

(** Lines 34-41: the Frobenius norm of what the selected rows or columns
    do not reconstruct. *)
Definition reconstruction_error (act_on : string) (X : matrix)
           (sel : index_array) : M Q :=
  if contains "sample" act_on then
    C <- lift (take X sel) ;;
    let Cp := np_linalg_pinv C in
    ret (np_sqrt (sum_squares (mat_sub X (np_dot (np_dot X Cp) C))))
  else if contains "feature" act_on then
    C <- lift (take_columns X sel) ;;
    let Cp := np_linalg_pinv C in
    ret (np_sqrt (sum_squares (mat_sub X (np_dot C (np_dot Cp X)))))
  else raise UnboundLocalError.

Definition do_CUR (X : matrix) (Nsel : Z) (act_on : string)
           (is_deterministic : bool) (seed : Z) (verbose : bool)
  : M index_array :=
  ' (U, _, VT) <- svds_global X Nsel ;;
  let weights := leverage_weights act_on U VT in
  sel <- (if is_deterministic then
            w <- bound weights ;;
            ret (slice_to (np_argsort (np_neg w)) Nsel)
          else
            seed_global seed ;;;
            w <- bound weights ;;
            u <- rand_global (length w) ;;
            ret (slice_to (np_argsort (np_sub u w)) Nsel)) ;;
  (if verbose then
     err <- reconstruction_error act_on X sel ;;
     print (ReconstructionRMSE err)
   else ret tt) ;;;
  ret sel.

(** The number of candidates: rows for the sample axis, columns for the
    feature axis. *)
Definition axis_length (act_on : string) (X : matrix) : nat :=
  if contains "sample" act_on then nrows X else ncols X.

(** The stochastic selection as the design document words it: seed a
    generator, draw one uniform variate per candidate, sort the
    candidates ascending by uniform minus weight, where the weight is the
    mean of the squared entries of the candidate's row of [U] (sample
    axis) or column of [VT] (feature axis), and keep the first [budget].
    [g] is the state in which the decomposition runs.  It is compared
    with [do_CUR] below. *)
Definition reference_weight (act_on : string) (U VT : matrix) (c : nat) : Q :=
  if contains "sample" act_on
  then Qmean (map (fun x => (x * x)%Q) (nth c U []))
  else Qmean (map (fun x => (x * x)%Q) (column VT c)).

Definition sort_ascending_by (key : nat -> Q) (candidates : list nat)
  : list nat :=
  map (fun p => nth p candidates 0) (np_argsort (map key candidates)).

Definition reference_stochastic (X : matrix) (budget : Z) (act_on : string)
           (seed : Z) (g : rng_state) : result index_array :=
  match fst (svds X budget g) with
  | inl e => inl e
  | inr (U, _, VT) =>
      match np_random_seed seed with
      | inl e => inl e
      | inr generator =>
          let candidates := seq 0 (axis_length act_on X) in
          let uniform := fst (np_random_rand (length candidates) generator) in
          let key c := (nth c uniform 0 - reference_weight act_on U VT c)%Q in
          Ok (firstn (Z.to_nat budget) (sort_ascending_by key candidates))
      end
  end.
End DoCUR.

(** ** The rascal collaborators

    What [cur.py] imports from the rest of the package: the structure list
    ([managers]), the representation calculator, the index helpers of
    [filter_utils] and the sparse-point container.  Their results are opaque
    to the filter, except the matrix, [indices_by_sp] and the feature index
    mapping, which it reads. *)

Class Rascal : Type := {
  AtomsList : Type;
  Calculator : Type;
  SparsePoints : Type;
  rascal_ids : Type;
  strides_by_sp_t : Type;
  global_counter_by_sp_t : Type;
  map_by_manager_sp_t : Type;
  strides_t : Type;
  global_counter_t : Type;
  map_by_manager_t : Type;
  get_features : AtomsList -> Calculator -> result matrix;
  get_feature_index_mapping :
    Calculator -> AtomsList -> result (dict nat (dict string Z));
  get_index_mappings_sample_per_species :
    AtomsList -> list Z ->
    result (strides_by_sp_t * global_counter_by_sp_t * map_by_manager_sp_t
            * dict Z index_array);
  convert_selected_global_index2rascal_sample_per_species :
    AtomsList -> dict Z index_array -> strides_by_sp_t ->
    map_by_manager_sp_t -> list Z -> result rascal_ids;
  get_index_mappings_sample :
    AtomsList -> result (strides_t * global_counter_t * map_by_manager_t);
  convert_selected_global_index2rascal_sample :
    AtomsList -> index_array -> strides_t -> map_by_manager_t ->
    result rascal_ids;
  SparsePoints_init : Calculator -> SparsePoints;
  SparsePoints_extend :
    SparsePoints -> AtomsList -> rascal_ids -> result SparsePoints
}.

(** ** CURFilter *)

(** [Nselect]: an integer, or a dictionary from species to integer. *)
Inductive nselect : Type :=
| NInt (n : Z)
| NDict (d : dict Z Z).

(** [selected_ids]: what the sample helpers return, or an index array in
    feature mode. *)
Inductive ids {R : Rascal} : Type :=
| RascalIds (r : rascal_ids)
| FeatureIds (a : index_array).

(** The attributes of a filter; [None] is Python's [None], and for the
    last three (created by [fit]) an attribute that does not exist yet. *)
Record CURFilter {R : Rascal} : Type := {
  _representation : Calculator;
  Nselect : nselect;
  act_on : string;
  is_deterministic : bool;
  seed : Z;
  selected_ids : option ids;
  selected_sample_ids : option index_array;
  selected_sample_ids_by_sp : option (dict Z index_array);
  selected_feature_ids_global : option index_array;
  _XX : option (dict Z matrix);
  fps_minmax_d2_by_sp : option (dict Z vector);
  fps_hausforff_d2_by_sp : option (dict Z vector)
}.

(** The mapping that [_get_data] returns and [_set_data] reads. *)
Record state_data {R : Rascal} : Type := {
  data_selected_ids : option ids;
  data_selected_sample_ids : option index_array;
  data_selected_sample_ids_by_sp : option (dict Z index_array);
  data_selected_feature_ids_global : option index_array
}.

(** The keyword arguments that [_get_init_params] returns. *)
Record init_params {R : Rascal} : Type := {
  param_representation : Calculator;
  param_Nselect : nselect;
  param_act_on : string;
  param_is_deterministic : bool;
  param_seed : Z
}.

(** What [transform] returns in each mode; [ReturnsNone] when [act_on] is
    none of the three. *)
Inductive transformed {R : Rascal} : Type :=
| PseudoPoints (p : SparsePoints)
| SelectedIds (r : rascal_ids)
| CoefficientSubselection (selected_features : dict string (list Z))
| ReturnsNone.

Section Filter.
Context {N : NumPy} {R : Rascal}.
Local Open Scope string_scope.

(** Attribute assignments. *)
Definition set_selected_ids (self : CURFilter) (v : option ids) : CURFilter :=
  {| _representation := _representation self; Nselect := Nselect self;
     act_on := act_on self; is_deterministic := is_deterministic self;
     seed := seed self;
     selected_ids := v;
     selected_sample_ids := selected_sample_ids self;
     selected_sample_ids_by_sp := selected_sample_ids_by_sp self;
     selected_feature_ids_global := selected_feature_ids_global self;
     _XX := _XX self;
     fps_minmax_d2_by_sp := fps_minmax_d2_by_sp self;
     fps_hausforff_d2_by_sp := fps_hausforff_d2_by_sp self |}.

Definition set_selected_sample_ids (self : CURFilter)
           (v : option index_array) : CURFilter :=
  {| _representation := _representation self; Nselect := Nselect self;
     act_on := act_on self; is_deterministic := is_deterministic self;
     seed := seed self;
     selected_ids := selected_ids self;
     selected_sample_ids := v;
     selected_sample_ids_by_sp := selected_sample_ids_by_sp self;
     selected_feature_ids_global := selected_feature_ids_global self;
     _XX := _XX self;
     fps_minmax_d2_by_sp := fps_minmax_d2_by_sp self;
     fps_hausforff_d2_by_sp := fps_hausforff_d2_by_sp self |}.

Definition set_selected_sample_ids_by_sp (self : CURFilter)
           (v : option (dict Z index_array)) : CURFilter :=
  {| _representation := _representation self; Nselect := Nselect self;
     act_on := act_on self; is_deterministic := is_deterministic self;
     seed := seed self;
     selected_ids := selected_ids self;
     selected_sample_ids := selected_sample_ids self;
     selected_sample_ids_by_sp := v;
     selected_feature_ids_global := selected_feature_ids_global self;
     _XX := _XX self;
     fps_minmax_d2_by_sp := fps_minmax_d2_by_sp self;
     fps_hausforff_d2_by_sp := fps_hausforff_d2_by_sp self |}.

Definition set_selected_feature_ids_global (self : CURFilter)
           (v : option index_array) : CURFilter :=
  {| _representation := _representation self; Nselect := Nselect self;
     act_on := act_on self; is_deterministic := is_deterministic self;
     seed := seed self;
     selected_ids := selected_ids self;
     selected_sample_ids := selected_sample_ids self;
     selected_sample_ids_by_sp := selected_sample_ids_by_sp self;
     selected_feature_ids_global := v;
     _XX := _XX self;
     fps_minmax_d2_by_sp := fps_minmax_d2_by_sp self;
     fps_hausforff_d2_by_sp := fps_hausforff_d2_by_sp self |}.

(** Lines 136-141: [self._XX = X_by_sp] and the three empty
    dictionaries. *)
Definition start_species_fit (self : CURFilter) (X_by_sp : dict Z matrix)
  : CURFilter :=
  {| _representation := _representation self; Nselect := Nselect self;
     act_on := act_on self; is_deterministic := is_deterministic self;
     seed := seed self;
     selected_ids := selected_ids self;
     selected_sample_ids := selected_sample_ids self;
     selected_sample_ids_by_sp := Some [];
     selected_feature_ids_global := selected_feature_ids_global self;
     _XX := Some X_by_sp;
     fps_minmax_d2_by_sp := Some [];
     fps_hausforff_d2_by_sp := Some [] |}.

(** [__init__]. *)
Definition CURFilter_init (representation : Calculator) (Nselect : nselect)
           (act_on : string) (is_deterministic : bool) (seed : Z)
  : result CURFilter :=
  if existsb (String.eqb act_on) ["sample"; "sample per species"; "feature"]
  then Ok {| _representation := representation; Nselect := Nselect;
             act_on := act_on; is_deterministic := is_deterministic;
             seed := seed;
             selected_ids := None;
             selected_sample_ids := None;
             selected_sample_ids_by_sp := None;
             selected_feature_ids_global := None;
             _XX := None;
             fps_minmax_d2_by_sp := None;
             fps_hausforff_d2_by_sp := None |}
  else Raise ValueError.

(** Lines 133-135: [X_by_sp[sp] = X[indices_by_sp[sp]]] for each species. *)
Fixpoint split_by_species (X : matrix) (indices_by_sp : dict Z index_array)
         (sps : list Z) (X_by_sp : dict Z matrix) : result (dict Z matrix) :=
  match sps with
  | [] => Ok X_by_sp
  | sp :: rest =>
      match dict_get Z.eqb indices_by_sp sp with
      | None => Raise KeyError
      | Some rows =>
          match take X rows with
          | inl e => inl e
          | inr Xsp =>
              split_by_species X indices_by_sp rest
                               (dict_set Z.eqb X_by_sp sp Xsp)
          end
      end
  end.

(** Lines 142-145: one selection per species, stored as soon as it is
    made. *)
Fixpoint select_by_species (self : CURFilter) (X_by_sp : dict Z matrix)
         (sps : list Z) (w : world) : CURFilter * result unit * world :=
  match sps with
  | [] => (self, Ok tt, w)
  | sp :: rest =>
      let w1 := snd (print (SelectingSpecies sp) w) in
      match dict_get Z.eqb X_by_sp sp with
      | None => (self, Raise KeyError, w1)
      | Some Xsp =>
          match Nselect self with
          | NInt _ => (self, Raise TypeError, w1)
          | NDict d =>
              match dict_get Z.eqb d sp with
              | None => (self, Raise KeyError, w1)
              | Some n =>
                  match do_CUR Xsp n (act_on self) (is_deterministic self)
                               (seed self) true w1 with
                  | (inl e, w2) => (self, Raise e, w2)
                  | (inr sel, w2) =>
                      match selected_sample_ids_by_sp self with
                      | None => (self, Raise TypeError, w2)
                      | Some by_sp =>
                          select_by_species
                            (set_selected_sample_ids_by_sp
                               self (Some (dict_set Z.eqb by_sp sp sel)))
                            X_by_sp rest w2
                      end
                  end
              end
          end
      end
  end.

(** The budget of the modes that take one integer. *)
Definition int_budget (n : nselect) : result Z :=
  match n with
  | NInt k => Ok k
  | NDict _ => Raise TypeError
  end.

(** [fit]: the filter after the call (also when it raises), the outcome
    and the process state. *)
Definition fit (self : CURFilter) (managers : AtomsList) (w : world)
  : CURFilter * result unit * world :=
  match get_features managers (_representation self) with
  | inl e => (self, Raise e, w)
  | inr X =>
      if act_on self =? "sample per species" then
        match Nselect self with
        | NInt _ => (self, Raise AttributeError, w)
        | NDict d =>
            let sps := dict_keys d in
            match get_index_mappings_sample_per_species managers sps with
            | inl e => (self, Raise e, w)
            | inr (_, _, _, indices_by_sp) =>
                let w1 := snd (print (NumberOfPseudoPoints d) w) in
                match split_by_species X indices_by_sp sps [] with
                | inl e => (self, Raise e, w1)
                | inr X_by_sp =>
                    select_by_species (start_species_fit self X_by_sp)
                                      X_by_sp sps w1
                end
            end
        end
      else if act_on self =? "sample" then
        match int_budget (Nselect self) with
        | inl e => (self, Raise e, w)
        | inr n =>
            match do_CUR X n (act_on self) (is_deterministic self)
                         (seed self) true w with
            | (inl e, w') => (self, Raise e, w')
            | (inr sel, w') =>
                (set_selected_sample_ids self (Some sel), Ok tt, w')
            end
        end
      else if act_on self =? "feature" then
        match int_budget (Nselect self) with
        | inl e => (self, Raise e, w)
        | inr n =>
            match do_CUR X n (act_on self) (is_deterministic self)
                         (seed self) true w with
            | (inl e, w') => (self, Raise e, w')
            | (inr sel, w') =>
                (set_selected_feature_ids_global self (Some sel), Ok tt, w')
            end
        end
      else (self, Raise ValueError, w)
  end.
End Filter.

Section Transform.
Context {N : NumPy} {R : Rascal}.
Local Open Scope string_scope.

(** Lines 167-168: the dictionary comprehension
    [{key: np.sort(val[:n_select[key]]) for key, val in cached.items()}],
    one insertion per item of the cached selection. *)
Fixpoint truncate_by_species (n_select : dict Z Z)
         (items : list (Z * index_array)) (acc : dict Z index_array)
  : result (dict Z index_array) :=
  match items with
  | [] => Ok acc
  | (key, val) :: rest =>
      match dict_get Z.eqb n_select key with
      | None => Raise KeyError
      | Some k =>
          truncate_by_species n_select rest
            (dict_set Z.eqb acc key (np_sort (slice_to val k)))
      end
  end.

(** Line 178: [np.sort(self.selected_sample_ids[:n_select])]. *)
Definition truncate_samples (cached : option index_array) (n_select : nselect)
  : result index_array :=
  match cached, n_select with
  | Some sel, NInt k => Ok (np_sort (slice_to sel k))
  | _, _ => Raise TypeError
  end.

(** Lines 191-192: one empty list per key of [feat_idx2coeff_idx[0]]. *)
Definition empty_lists (keys : list string) : dict string (list Z) :=
  fold_left (fun d key => dict_set String.eqb d key []) keys [].

(** Lines 197-198: append [int(coef_idx[key])] under every key. *)
Fixpoint append_coefficients (coef_idx : dict string Z) (keys : list string)
         (selected_features : dict string (list Z))
  : result (dict string (list Z)) :=
  match keys with
  | [] => Ok selected_features
  | key :: rest =>
      match dict_get String.eqb coef_idx key,
            dict_get String.eqb selected_features key with
      | Some c, Some l =>
          append_coefficients coef_idx rest
            (dict_set String.eqb selected_features key (l ++ [c])%list)
      | _, _ => Raise KeyError
      end
  end.

(** Lines 195-198: the loop over the selected feature indices. *)
Fixpoint collect_coefficients (feat_idx2coeff_idx : dict nat (dict string Z))
         (selected : index_array) (selected_features : dict string (list Z))
  : result (dict string (list Z)) :=
  match selected with
  | [] => Ok selected_features
  | idx :: rest =>
      match dict_get Nat.eqb feat_idx2coeff_idx idx with
      | None => Raise KeyError
      | Some coef_idx =>
          match append_coefficients coef_idx (dict_keys selected_features)
                                    selected_features with
          | inl e => inl e
          | inr selected_features' =>
              collect_coefficients feat_idx2coeff_idx rest selected_features'
          end
      end
  end.

Definition tolist (a : index_array) : list Z := map Z.of_nat a.

(** Lines 169-175: the per-species selection handed to the index helper,
    then to the sparse points. *)
Definition remap_by_species (self : CURFilter) (managers : AtomsList)
           (sps : list Z) (strides_by_sp : strides_by_sp_t)
           (map_by_manager : map_by_manager_sp_t)
           (selected_ids_by_sp : dict Z index_array)
  : CURFilter * result transformed :=
  match convert_selected_global_index2rascal_sample_per_species
          managers selected_ids_by_sp strides_by_sp map_by_manager sps with
  | inl e => (self, Raise e)
  | inr r =>
      let self' := set_selected_ids self (Some (RascalIds r)) in
      match SparsePoints_extend (SparsePoints_init (_representation self'))
                                managers r with
      | inl e => (self', Raise e)
      | inr pseudo_points => (self', Ok (PseudoPoints pseudo_points))
      end
  end.

(** Lines 179-182: the global selection handed to the index helper. *)
Definition remap_samples (self : CURFilter) (managers : AtomsList)
           (selected_ids_global : index_array)
  : CURFilter * result transformed :=
  match get_index_mappings_sample managers with
  | inl e => (self, Raise e)
  | inr (strides, _, map_by_manager) =>
      match convert_selected_global_index2rascal_sample
              managers selected_ids_global strides map_by_manager with
      | inl e => (self, Raise e)
      | inr r =>
          (set_selected_ids self (Some (RascalIds r)), Ok (SelectedIds r))
      end
  end.

(** [transform]: the filter after the call (also when it raises) and what
    the call returns. *)
Definition transform (self : CURFilter) (managers : AtomsList)
           (n_select : option nselect) : CURFilter * result transformed :=
  let n_select :=
    match n_select with
    | None => Nselect self
    | Some n => n
    end in
  if act_on self =? "sample per species" then
    match n_select with
    | NInt _ => (self, Raise AttributeError)
    | NDict ns =>
        let sps := dict_keys ns in
        match get_index_mappings_sample_per_species managers sps with
        | inl e => (self, Raise e)
        | inr (strides_by_sp, _, map_by_manager, _) =>
            match selected_sample_ids_by_sp self with
            | None => (self, Raise AttributeError)
            | Some cached =>
                match truncate_by_species ns cached [] with
                | inl e => (self, Raise e)
                | inr selected_ids_by_sp =>
                    remap_by_species self managers sps strides_by_sp
                                     map_by_manager selected_ids_by_sp
                end
            end
        end
    end
  else if act_on self =? "sample" then
    match truncate_samples (selected_sample_ids self) n_select with
    | inl e => (self, Raise e)
    | inr selected_ids_global =>
        remap_samples self managers selected_ids_global
    end
  else if act_on self =? "feature" then
    match get_feature_index_mapping (_representation self) managers with
    | inl e => (self, Raise e)
    | inr feat_idx2coeff_idx =>
        match dict_get Nat.eqb feat_idx2coeff_idx 0 with
        | None => (self, Raise KeyError)
        | Some first =>
            let selected_features := empty_lists (dict_keys first) in
            match selected_feature_ids_global self, n_select with
            | Some cached, NInt k =>
                let selected_ids_sorting :=
                  np_argsort (as_floats (slice_to cached k)) in
                match take cached selected_ids_sorting with
                | inl e => (self, Raise e)
                | inr selected =>
                    let self' :=
                      set_selected_ids self (Some (FeatureIds selected)) in
                    match collect_coefficients feat_idx2coeff_idx selected
                                               selected_features with
                    | inl e => (self', Raise e)
                    | inr filled =>
                        (self',
                         Ok (CoefficientSubselection
                               (dict_set String.eqb
                                  (dict_set String.eqb filled
                                     "selected_features_global_ids"
                                     (tolist selected))
                                  "selected_features_global_ids_fps_ordering"
                                  (tolist selected_ids_sorting))))
                    end
                end
            | _, _ => (self, Raise TypeError)
            end
        end
    end
  else (self, Ok ReturnsNone).


(** [_get_data], [_set_data] and [_get_init_params]. *)
Definition _get_data (self : CURFilter) : state_data :=
  {| data_selected_ids := selected_ids self;
     data_selected_sample_ids := selected_sample_ids self;
     data_selected_sample_ids_by_sp := selected_sample_ids_by_sp self;
     data_selected_feature_ids_global := selected_feature_ids_global self |}.

Definition _set_data (self : CURFilter) (data : state_data) : CURFilter :=
  set_selected_feature_ids_global
    (set_selected_sample_ids_by_sp
       (set_selected_sample_ids
          (set_selected_ids self (data_selected_ids data))
          (data_selected_sample_ids data))
       (data_selected_sample_ids_by_sp data))
    (data_selected_feature_ids_global data).

Definition _get_init_params (self : CURFilter) : init_params :=
  {| param_representation := _representation self;
     param_Nselect := Nselect self;
     param_act_on := act_on self;
     param_is_deterministic := is_deterministic self;
     param_seed := seed self |}.

(** The constructor called with the keyword arguments [p]. *)
Definition construct (p : init_params) : result CURFilter :=
  CURFilter_init (param_representation p) (param_Nselect p)
                 (param_act_on p) (param_is_deterministic p) (param_seed p).

(** A filter built from the parameters of [x] and given the state
    extracted from [x]. *)
Definition restore_from (x : CURFilter) : result CURFilter :=
  match construct (_get_init_params x) with
  | inl e => inl e
  | inr fresh => Ok (_set_data fresh (_get_data x))
  end.

(** Successive [transform] calls on one instance. *)
Fixpoint transform_many (self : CURFilter)
         (calls : list (AtomsList * option nselect)) : CURFilter :=
  match calls with
  | [] => self
  | (managers, n_select) :: rest =>
      transform_many (fst (transform self managers n_select)) rest
  end.
End Transform.

(** ** Concrete libraries and data

    Small executable instances of [NumPy] and [Rascal] on which the
    definitions above can be run: a linear congruential generator, a
    stable insertion argsort and numpy's quicksort, a solver that knows the
    singular vectors of two matrices and returns the leading [k] columns
    and rows of the others, and a structure list that carries its own
    feature matrix. *)

Module Fixture.

(** Insertion of index [i] in front of the first [j] with
    [before v[i] v[j]]. *)
Fixpoint insert_index (before : Q -> Q -> bool) (v : vector) (i : nat)
         (l : index_array) : index_array :=
  match l with
  | [] => [i]
  | j :: l' =>
      if before (key_of v i) (key_of v j) then i :: l
      else j :: insert_index before v i l'
  end.

Fixpoint insert_all (before : Q -> Q -> bool) (v : vector)
         (todo acc : index_array) : index_array :=
  match todo with
  | [] => acc
  | i :: rest => insert_all before v rest (insert_index before v i acc)
  end.

Definition argsort_with (before : Q -> Q -> bool) (v : vector) : index_array :=
  insert_all before v (seq 0 (length v)) [].

(** Strictly smaller goes in front: equal values keep ascending index. *)
Definition Qlt_bool (x y : Q) : bool := negb (Qle_bool y x).
Definition argsort_stable : vector -> index_array := argsort_with Qlt_bool.

(** numpy's [aquicksort] (npysort/quicksort), the scalar routine behind
    the default [kind] of [argsort]: segments of more than 17 elements are
    partitioned around the median of three, the others are sorted by
    insertion.  [a] is the array of indices being permuted, [pl] and [pr]
    the ends of the segment. *)
Definition get (a : index_array) (i : nat) : nat := nth i a 0.

Definition put (a : index_array) (i x : nat) : index_array :=
  firstn i a ++ x :: skipn (S i) a.

Definition swap (a : index_array) (i j : nat) : index_array :=
  put (put a i (get a j)) j (get a i).

(** [do ++pi; while (v[*pi] < vp)] and [do --pj; while (vp < v[*pj])]. *)
Fixpoint scan_up (fuel : nat) (v : vector) (a : index_array) (vp : Q)
         (pi : nat) : nat :=
  match fuel with
  | O => pi
  | S fuel' =>
      if Qlt_bool (key_of v (get a (S pi))) vp
      then scan_up fuel' v a vp (S pi)
      else S pi
  end.

Fixpoint scan_down (fuel : nat) (v : vector) (a : index_array) (vp : Q)
         (pj : nat) : nat :=
  match fuel with
  | O => pj
  | S fuel' =>
      if Qlt_bool vp (key_of v (get a (pj - 1)))
      then scan_down fuel' v a vp (pj - 1)
      else pj - 1
  end.

Fixpoint partition_loop (fuel : nat) (v : vector) (a : index_array) (vp : Q)
         (pi pj : nat) : index_array * nat :=
  match fuel with
  | O => (a, pi)
  | S fuel' =>
      let pi' := scan_up (length a) v a vp pi in
      let pj' := scan_down (length a) v a vp pj in
      if pj' <=? pi' then (a, pi')
      else partition_loop fuel' v (swap a pi' pj') vp pi' pj'
  end.

(** The partition of the segment, and the place of the pivot. *)
Definition partition (v : vector) (a : index_array) (pl pr : nat)
  : index_array * nat :=
  let pm := pl + (pr - pl) / 2 in
  let a1 := if Qlt_bool (key_of v (get a pm)) (key_of v (get a pl))
            then swap a pm pl else a in
  let a2 := if Qlt_bool (key_of v (get a1 pr)) (key_of v (get a1 pm))
            then swap a1 pr pm else a1 in
  let a3 := if Qlt_bool (key_of v (get a2 pm)) (key_of v (get a2 pl))
            then swap a2 pm pl else a2 in
  let vp := key_of v (get a3 pm) in
  let a4 := swap a3 pm (pr - 1) in
  let (a5, pi) := partition_loop (length a) v a4 vp pl (pr - 1) in
  (swap a5 pi (pr - 1), pi).

(** The insertion sort of a segment. *)
Fixpoint shift_down (fuel : nat) (v : vector) (a : index_array) (vi pl pj : nat)
  : index_array :=
  match fuel with
  | O => put a pj vi
  | S fuel' =>
      if (pl <? pj) && Qlt_bool (key_of v vi) (key_of v (get a (pj - 1)))
      then shift_down fuel' v (put a pj (get a (pj - 1))) vi pl (pj - 1)
      else put a pj vi
  end.

Definition insertion_segment (v : vector) (a : index_array) (pl pr : nat)
  : index_array :=
  fold_left (fun a pi => shift_down (length a) v a (get a pi) pl pi)
            (seq (S pl) (pr - pl)) a.

(** The loop: the larger part of a partition is put aside with the
    decremented depth, the smaller one is taken up at once; a part taken
    from the stack with a negative depth goes to heapsort, which is not
    modelled ([None]). *)
Fixpoint quicksort_segment (fuel : nat) (v : vector) (a : index_array)
         (pl pr : nat) (cdepth : Z) (popped : bool) : option index_array :=
  match fuel with
  | O => None
  | S fuel' =>
      if popped && (cdepth <? 0)%Z then None
      else if 16 <? pr - pl then
        let (a', pi) := partition v a pl pr in
        if pi - pl <? pr - pi then
          match quicksort_segment fuel' v a' pl (pi - 1) (cdepth - 1) false with
          | None => None
          | Some a'' =>
              quicksort_segment fuel' v a'' (pi + 1) pr (cdepth - 1) true
          end
        else
          match quicksort_segment fuel' v a' (pi + 1) pr (cdepth - 1) false with
          | None => None
          | Some a'' =>
              quicksort_segment fuel' v a'' pl (pi - 1) (cdepth - 1) true
          end
      else Some (insertion_segment v a pl pr)
  end.

Definition aquicksort (v : vector) : option index_array :=
  quicksort_segment (S (length v)) v (seq 0 (length v)) 0 (length v - 1)
                    (2 * Z.log2 (Z.of_nat (length v))) false.

(** [argsort] with the default kind; the stable sort stands in where the
    model of quicksort gives up. *)
Definition argsort_quicksort (v : vector) : index_array :=
  match aquicksort v with
  | Some a => a
  | None => argsort_stable v
  end.

Definition lcg_modulus : Z := 2147483648.
Definition lcg_next (g : Z) : Z := ((1103515245 * g + 12345) mod lcg_modulus)%Z.

Fixpoint lcg_rand (n : nat) (g : Z) : vector * Z :=
  match n with
  | O => ([], g)
  | S n' =>
      let g' := lcg_next g in
      let (us, g'') := lcg_rand n' g' in
      (Qmake g' 2147483648 :: us, g'')
  end.

Definition lcg_seed (s : Z) : result Z :=
  if ((0 <=? s) && (s <? 4294967296))%Z then Ok s else Raise ValueError.

Definition pad_row (width : nat) (r : vector) : vector :=
  map (fun j => nth j r 0%Q) (seq 0 width).

(** The leading [k] columns and rows of [X]. *)
Definition truncation (X : matrix) (k : Z) : matrix * vector * matrix :=
  (map (pad_row (Z.to_nat k)) X,
   repeat 1%Q (Z.to_nat k),
   map (fun c => pad_row (ncols X) (nth c X [])) (seq 0 (Z.to_nat k))).

Definition transpose (M : matrix) : matrix :=
  map (column M) (seq 0 (ncols M)).

(** Equality of arrays, entry by entry. *)
Definition vector_eqb (u v : vector) : bool :=
  (length u =? length v) &&
  forallb (fun p => Qeq_bool (fst p) (snd p)) (combine u v).

Definition matrix_eqb (A B : matrix) : bool :=
  (length A =? length B) &&
  forallb (fun p => vector_eqb (fst p) (snd p)) (combine A B).

Definition identity (n : nat) : matrix :=
  map (fun i => map (fun j => if i =? j then 1%Q else 0%Q) (seq 0 n)) (seq 0 n).

Definition diag (s : vector) : matrix :=
  map (fun i => map (fun j => if i =? j then nth i s 0%Q else 0%Q)
                    (seq 0 (length s)))
      (seq 0 (length s)).

(** [U], [s], [VT] are singular triplets of [X]: orthonormal columns of [U]
    and rows of [VT] with [X V = U diag(s)] and [U^T X = diag(s) VT]. *)
Definition singular_triplets (X U : matrix) (s : vector) (VT : matrix) : bool :=
  matrix_eqb (np_dot (transpose U) U) (identity (length s)) &&
  matrix_eqb (np_dot VT (transpose VT)) (identity (length s)) &&
  matrix_eqb (np_dot X (transpose VT)) (np_dot U (diag s)) &&
  matrix_eqb (np_dot (transpose U) X) (np_dot (diag s) VT).

(** The 3 x 3 identity: its singular values are all 1, and every unit
    vector is a leading singular vector. *)
Definition I3 : matrix := [[1; 0; 0]; [0; 1; 0]; [0; 0; 1]]%Q.

(** A 25 x 2 matrix of rank one: the row (1, 0), then 24 rows (10, 0).
    Its singular value is 49, with left vector (1, 10, ..., 10) / 49. *)
Definition X25 : matrix := [1; 0]%Q :: repeat [10; 0]%Q 24.

(** The left singular vector of [X25]. *)
Definition U25 : matrix := [(1 # 49)%Q] :: repeat [(10 # 49)%Q] 24.

(** The triplets that the solver knows.  For the identity it returns the
    first or the second unit vector, by the parity of the state in which
    it starts. *)
Definition exact_triplets (X : matrix) (k : Z) (g : Z)
  : option (matrix * vector * matrix) :=
  if matrix_eqb X I3 && (k =? 1)%Z then
    Some (if Z.even g
          then ([[1]; [0]; [0]]%Q, [1%Q], [[1; 0; 0]]%Q)
          else ([[0]; [1]; [0]]%Q, [1%Q], [[0; 1; 0]]%Q))
  else if matrix_eqb X X25 && (k =? 1)%Z then
    Some (U25, [49%Q], [[1; 0]]%Q)
  else None.

(** [svds]: the check of the rank, then the triplets, with one step of
    the generator for the starting vector. *)
Definition solver (X : matrix) (k : Z) (g : Z)
  : result (matrix * vector * matrix) * Z :=
  if ((1 <=? k) && (k <? Z.of_nat (Nat.min (nrows X) (ncols X))))%Z
  then (Ok (match exact_triplets X k g with
            | Some t => t
            | None => truncation X k
            end),
        lcg_next g)
  else (Raise ValueError, g).

Definition numpy_with (argsort : vector -> index_array) : NumPy :=
  {| rng_state := Z;
     np_random_seed := lcg_seed;
     np_random_rand := lcg_rand;
     np_argsort := argsort;
     svds := solver;
     np_linalg_pinv := transpose;
     np_sqrt := fun x => x |}.

Definition numpy_stable : NumPy := numpy_with argsort_stable.
Definition numpy_quicksort : NumPy := numpy_with argsort_quicksort.

(** Structures: the species of every center, in row order, and the
    feature matrix. *)
Record atoms : Type := {
  center_species : list Z;
  features : matrix
}.

Fixpoint positions_of (sp : Z) (species : list Z) (from : nat) : index_array :=
  match species with
  | [] => []
  | s :: rest =>
      if Z.eqb s sp then from :: positions_of sp rest (S from)
      else positions_of sp rest (S from)
  end.

Definition indices_by_species (a : atoms) (sps : list Z) : dict Z index_array :=
  map (fun sp => (sp, positions_of sp (center_species a) 0)) sps.

(** Local indices of each species back to rows of the matrix. *)
Definition to_global (a : atoms) (by_sp : dict Z index_array) (sps : list Z)
  : index_array :=
  flat_map
    (fun sp =>
       match dict_get Z.eqb by_sp sp with
       | None => []
       | Some local =>
           map (fun i => nth i (positions_of sp (center_species a) 0) 0) local
       end)
    sps.

Definition rascal : Rascal :=
  {| AtomsList := atoms;
     Calculator := unit;
     SparsePoints := matrix;
     rascal_ids := index_array;
     strides_by_sp_t := unit;
     global_counter_by_sp_t := unit;
     map_by_manager_sp_t := unit;
     strides_t := unit;
     global_counter_t := unit;
     map_by_manager_t := unit;
     get_features := fun a _ => Ok (features a);
     get_feature_index_mapping := fun _ a =>
       Ok (map (fun j => (j, [("n"%string, Z.of_nat j)]))
               (seq 0 (ncols (features a))));
     get_index_mappings_sample_per_species := fun a sps =>
       Ok (tt, tt, tt, indices_by_species a sps);
     convert_selected_global_index2rascal_sample_per_species :=
       fun a by_sp _ _ sps => Ok (to_global a by_sp sps);
     get_index_mappings_sample := fun _ => Ok (tt, tt, tt);
     convert_selected_global_index2rascal_sample := fun _ sel _ _ => Ok sel;
     SparsePoints_init := fun _ => [];
     SparsePoints_extend := fun p a sel =>
       match take (features a) sel with
       | inl e => inl e
       | inr rows => Ok (p ++ rows)
       end |}.

Definition world0 : @world numpy_stable :=
  @Build_world numpy_stable 7%Z [].
Definition world_even : @world numpy_stable :=
  @Build_world numpy_stable 8%Z [].
Definition world_quicksort : @world numpy_quicksort :=
  @Build_world numpy_quicksort 7%Z [].

(** A 4 x 3 matrix. *)
Definition X43 : matrix :=
  [[1; 0; 2]; [3; 1; 0]; [0; 2; 1]; [2; 2; 2]]%Q.

(** A 3 x 3 matrix whose first two rows have the same leading entry. *)
Definition X33 : matrix :=
  [[1; 5; 0]; [1; 0; 4]; [0; 2; 2]]%Q.

(** Four centers of one species with the features [X43]. *)
Definition atoms43 : atoms :=
  {| center_species := [1; 1; 1; 1]%Z; features := X43 |}.

(** Three centers of species 1 with the features [X33]; no center of
    species 6. *)
Definition atoms_without_6 : atoms :=
  {| center_species := [1; 1; 1]%Z; features := X33 |}.

(** Species 1 and 6 alternate; the rows of each are those of the
    identity. *)
Definition atoms_identity_twins : atoms :=
  {| center_species := [1; 6; 1; 6; 1; 6]%Z;
     features := [[1; 0; 0]; [1; 0; 0]; [0; 1; 0]; [0; 1; 0];
                  [0; 0; 1]; [0; 0; 1]]%Q |}.

(** Species 1 and 6 alternate and carry the same rows: both
    sub-matrices are [X33]. *)
Definition atoms_twins : atoms :=
  {| center_species := [1; 6; 1; 6; 1; 6]%Z;
     features := [[1; 5; 0]; [1; 5; 0]; [1; 0; 4]; [1; 0; 4];
                  [0; 2; 2]; [0; 2; 2]]%Q |}.

(** A freshly constructed filter. *)
Definition new_filter (n : nselect) (mode : string) (deterministic : bool)
           (s : Z) : @CURFilter rascal :=
  {| _representation := tt : @Calculator rascal;
     Nselect := n;
     act_on := mode;
     is_deterministic := deterministic;
     seed := s;
     selected_ids := None;
     selected_sample_ids := None;
     selected_sample_ids_by_sp := None;
     selected_feature_ids_global := None;
     _XX := None;
     fps_minmax_d2_by_sp := None;
     fps_hausforff_d2_by_sp := None |}.

(** The same filter with cached selections, as [fit] or [_set_data]
    leaves them. *)
Definition fitted_filter (n : nselect) (mode : string)
           (samples : option index_array)
           (by_sp : option (dict Z index_array))
           (feature_ids : option index_array) : @CURFilter rascal :=
  {| _representation := tt : @Calculator rascal;
     Nselect := n;
     act_on := mode;
     is_deterministic := true;
     seed := 10%Z;
     selected_ids := None;
     selected_sample_ids := samples;
     selected_sample_ids_by_sp := by_sp;
     selected_feature_ids_global := feature_ids;
     _XX := None;
     fps_minmax_d2_by_sp := None;
     fps_hausforff_d2_by_sp := None |}.

(** An index helper that lists only the species it meets among the
    centers, and the collaborators with this helper. *)
Definition indices_of_present (a : atoms) (sps : list Z) : dict Z index_array :=
  indices_by_species
    a (filter (fun sp => existsb (Z.eqb sp) (center_species a)) sps).

Definition rascal_present_only : Rascal :=
  {| AtomsList := atoms;
     Calculator := unit;
     SparsePoints := matrix;
     rascal_ids := index_array;
     strides_by_sp_t := unit;
     global_counter_by_sp_t := unit;
     map_by_manager_sp_t := unit;
     strides_t := unit;
     global_counter_t := unit;
     map_by_manager_t := unit;
     get_features := fun a _ => Ok (features a);
     get_feature_index_mapping := fun _ a =>
       Ok (map (fun j => (j, [("n"%string, Z.of_nat j)]))
               (seq 0 (ncols (features a))));
     get_index_mappings_sample_per_species := fun a sps =>
       Ok (tt, tt, tt, indices_of_present a sps);
     convert_selected_global_index2rascal_sample_per_species :=
       fun a by_sp _ _ sps => Ok (to_global a by_sp sps);
     get_index_mappings_sample := fun _ => Ok (tt, tt, tt);
     convert_selected_global_index2rascal_sample := fun _ sel _ _ => Ok sel;
     SparsePoints_init := fun _ => [];
     SparsePoints_extend := fun p a sel =>
       match take (features a) sel with
       | inl e => inl e
       | inr rows => Ok (p ++ rows)
       end |}.

(** A filter of [rascal_present_only] for species 1 and 6 that has been
    fitted before. *)
Definition filter_present_only : @CURFilter rascal_present_only :=
  {| _representation := tt : @Calculator rascal_present_only;
     Nselect := NDict [(1, 1); (6, 2)]%Z;
     act_on := "sample per species"%string;
     is_deterministic := true;
     seed := 10%Z;
     selected_ids := None;
     selected_sample_ids := None;
     selected_sample_ids_by_sp := Some [(1%Z, [2; 1])];
     selected_feature_ids_global := None;
     _XX := None;
     fps_minmax_d2_by_sp := None;
     fps_hausforff_d2_by_sp := None |}.
End Fixture.


(** * Properties *)

(** ** Lists, slices and sorting permutations *)

Lemma slice_to_nonneg {A : Type} (a : list A) (k : Z) :
  (0 <= k)%Z -> slice_to a k = firstn (Z.to_nat k) a.
Proof.
  intros Hk. unfold slice_to.
  destruct (Z.ltb_spec k 0); [lia | reflexivity].
Qed.


Lemma firstn_incl {A : Type} (n : nat) (l : list A) (x : A) :
  In x (firstn n l) -> In x l.
Proof.
  intros Hin. rewrite <- (firstn_skipn n l).
  apply in_or_app. now left.
Qed.

Lemma firstn_NoDup {A : Type} (n : nat) (l : list A) :
  NoDup l -> NoDup (firstn n l).
Proof.
  intros Hnd. rewrite <- (firstn_skipn n l) in Hnd.
  now apply NoDup_app_remove_r in Hnd.
Qed.

Lemma StronglySorted_app_inv {A : Type} (R : A -> A -> Prop) (l1 l2 : list A) :
  StronglySorted R (l1 ++ l2) ->
  StronglySorted R l1 /\ forall a b, In a l1 -> In b l2 -> R a b.
Proof.
  induction l1 as [| x l1 IH]; simpl; intros Hs.
  - split; [constructor | intros a b []].
  - apply StronglySorted_inv in Hs. destruct Hs as [Hs Hall].
    destruct (IH Hs) as [Hs1 Hcross].
    rewrite Forall_forall in Hall.
    split.
    + constructor; [assumption |].
      apply Forall_forall. intros y Hy. apply Hall.
      apply in_or_app. now left.
    + intros a b [<- | Ha] Hb.
      * apply Hall. apply in_or_app. now right.
      * now apply Hcross.
Qed.

Lemma StronglySorted_firstn {A : Type} (R : A -> A -> Prop) (n : nat)
      (l : list A) :
  StronglySorted R l -> StronglySorted R (firstn n l).
Proof.
  intros Hs. rewrite <- (firstn_skipn n l) in Hs.
  now apply StronglySorted_app_inv in Hs.
Qed.

Lemma StronglySorted_impl {A : Type} (R R' : A -> A -> Prop) (l : list A) :
  (forall a b, R a b -> R' a b) ->
  StronglySorted R l -> StronglySorted R' l.
Proof.
  intros Himp Hs. induction Hs as [| a l Hs IH Hall]; constructor.
  - assumption.
  - eapply Forall_impl; [| exact Hall]. intros b. apply Himp.
Qed.

Section ArgsortFacts.
Context {N : NumPy} {C : NumPyContract N}.

Lemma argsort_length (v : vector) : length (np_argsort v) = length v.
Proof.
  rewrite (Permutation_length (argsort_perm v)). apply length_seq.
Qed.

Lemma argsort_NoDup (v : vector) : NoDup (np_argsort v).
Proof.
  eapply Permutation_NoDup.
  - apply Permutation_sym, argsort_perm.
  - apply seq_NoDup.
Qed.

Lemma argsort_In (v : vector) (i : nat) :
  In i (np_argsort v) <-> i < length v.
Proof.
  split; intros Hi.
  - apply (Permutation_in _ (argsort_perm v)) in Hi.
    apply in_seq in Hi. lia.
  - apply (Permutation_in _ (Permutation_sym (argsort_perm v))).
    apply in_seq. lia.
Qed.

(** The first [k] entries of an argsort: [k] distinct positions of the
    array, in non-decreasing order of value, none of them larger in value
    than a position left out. *)
Lemma argsort_prefix (v : vector) (k : nat) :
  k <= length v ->
  let sel := firstn k (np_argsort v) in
  length sel = k /\
  NoDup sel /\
  Forall (fun i => i < length v) sel /\
  StronglySorted (fun i j => (key_of v i <= key_of v j)%Q) sel /\
  (forall i j, In i sel -> j < length v -> ~ In j sel ->
               (key_of v i <= key_of v j)%Q).
Proof.
  intros Hk sel. subst sel.
  repeat split.
  - rewrite length_firstn, argsort_length. lia.
  - apply firstn_NoDup, argsort_NoDup.
  - apply Forall_forall. intros i Hi.
    apply argsort_In. eapply firstn_incl; eassumption.
  - apply StronglySorted_firstn, argsort_sorted.
  - intros i j Hi Hj Hnot.
    pose proof (argsort_sorted v) as Hs.
    rewrite <- (firstn_skipn k (np_argsort v)) in Hs.
    apply StronglySorted_app_inv in Hs. destruct Hs as [_ Hcross].
    apply Hcross; [assumption |].
    apply argsort_In in Hj.
    rewrite <- (firstn_skipn k (np_argsort v)) in Hj.
    apply in_app_or in Hj.
    destruct Hj as [Hj | Hj]; [contradiction | assumption].
Qed.
End ArgsortFacts.

(** ** Weights and diagnostics *)

Lemma np_square_ncols (M : matrix) : ncols (np_square M) = ncols M.
Proof. destruct M; simpl; [reflexivity | apply length_map]. Qed.

Lemma np_mean_axis1_length (M : matrix) :
  length (np_mean_axis1 (np_square M)) = nrows M.
Proof. unfold np_mean_axis1, np_square, nrows. now rewrite !length_map. Qed.

Lemma np_mean_axis0_length (M : matrix) :
  length (np_mean_axis0 (np_square M)) = ncols M.
Proof.
  unfold np_mean_axis0. now rewrite length_map, length_seq, np_square_ncols.
Qed.

Lemma np_neg_length (v : vector) : length (np_neg v) = length v.
Proof. apply length_map. Qed.

Lemma np_sub_length (u v : vector) :
  length u = length v -> length (np_sub u v) = length v.
Proof.
  revert v. induction u as [| x u IH]; intros [| y v]; simpl; intros H;
    try discriminate; [reflexivity |].
  f_equal. apply IH. now injection H.
Qed.

Lemma take_ok {A : Type} (a : list A) (idx : index_array) :
  Forall (fun i => i < length a) idx -> exists xs, take a idx = Ok xs.
Proof.
  induction idx as [| i idx IH]; intros Hall; simpl.
  - now exists [].
  - apply Forall_cons_iff in Hall. destruct Hall as [Hi Hall].
    destruct (nth_error a i) as [x |] eqn:Hx.
    + destruct (IH Hall) as [xs ->]. now exists (x :: xs).
    + apply nth_error_None in Hx. lia.
Qed.

Lemma take_columns_ok (X : matrix) (m : nat) (idx : index_array) :
  Forall (fun r => length r = m) X ->
  Forall (fun j => j < m) idx ->
  exists C, take_columns X idx = Ok C.
Proof.
  intros HX Hidx. induction HX as [| r X Hr HX IH]; simpl.
  - now exists [].
  - destruct (take_ok r idx) as [r' ->].
    { now rewrite Hr. }
    destruct IH as [C ->]. now exists (r' :: C).
Qed.

Section DoCURFacts.
Context {N : NumPy}.
Local Open Scope string_scope.

(** An axis is named when [act_on] mentions it. *)
Lemma leverage_weights_named (act_on : string) (U VT : matrix) :
  contains "sample" act_on = true \/ contains "feature" act_on = true ->
  exists ws, leverage_weights act_on U VT = Some ws /\
             length ws = if contains "sample" act_on then nrows U else ncols VT.
Proof.
  intros Haxis. unfold leverage_weights.
  destruct (contains "sample" act_on).
  - eexists. split; [reflexivity | apply np_mean_axis1_length].
  - destruct Haxis as [Habs | ->]; [discriminate |].
    eexists. split; [reflexivity | apply np_mean_axis0_length].
Qed.

(** The diagnostic succeeds on valid indices and leaves the process
    state alone. *)
Lemma reconstruction_error_ok (act_on : string) (X : matrix)
      (sel : index_array) (w : world) :
  contains "sample" act_on = true \/
  (contains "feature" act_on = true /\ is_matrix X) ->
  Forall (fun i => i < axis_length act_on X) sel ->
  exists err, reconstruction_error act_on X sel w = (Ok err, w).
Proof.
  intros Haxis Hsel. unfold reconstruction_error, axis_length in *.
  destruct (contains "sample" act_on).
  - destruct (take_ok X sel Hsel) as [C HC].
    unfold bind, lift, ret. rewrite HC. eexists. reflexivity.
  - destruct Haxis as [Habs | [-> HX]]; [discriminate |].
    destruct (take_columns_ok X (ncols X) sel HX Hsel) as [C HC].
    unfold bind, lift, ret. rewrite HC. eexists. reflexivity.
Qed.

(** What the diagnostic returns does not depend on the process state. *)
Lemma reconstruction_error_result (act_on : string) (X : matrix)
      (sel : index_array) (wa wb : world) :
  fst (reconstruction_error act_on X sel wa) =
  fst (reconstruction_error act_on X sel wb).
Proof.
  unfold reconstruction_error, bind, lift, ret, raise.
  destruct (contains "sample" act_on).
  - destruct (take X sel); reflexivity.
  - destruct (contains "feature" act_on); [| reflexivity].
    destruct (take_columns X sel); reflexivity.
Qed.

(** The keys that [do_CUR] sorts and the state of the generator after
    the selection: [keys] and [g_end] are those of line 27 after the
    decomposition, or those of lines 29-31 after an accepted seed. *)
Lemma do_CUR_unfold (X : matrix) (Nsel : Z) (act_on : string)
      (is_deterministic : bool) (seed : Z) (verbose : bool) (w : world)
      (U VT : matrix) (s ws keys : vector) (g1 g_end : rng_state) :
  svds X Nsel (np_random w) = (Ok (U, s, VT), g1) ->
  leverage_weights act_on U VT = Some ws ->
  (if is_deterministic
   then keys = np_neg ws /\ g_end = g1
   else exists gs,
       np_random_seed seed = Ok gs /\
       keys = np_sub (fst (np_random_rand (length ws) gs)) ws /\
       g_end = snd (np_random_rand (length ws) gs)) ->
  let sel := slice_to (np_argsort keys) Nsel in
  let w1 := {| np_random := g_end; stdout := stdout w |} in
  do_CUR X Nsel act_on is_deterministic seed verbose w =
  if verbose then
    match reconstruction_error act_on X sel w1 with
    | (inl e, w2) => (inl e, w2)
    | (inr err, w2) =>
        (Ok sel, {| np_random := np_random w2;
                    stdout := stdout w2 ++ [ReconstructionRMSE err] |})
    end
  else (Ok sel, w1).
Proof.
  intros Hsvd Hws Hkeys. cbv zeta.
  unfold do_CUR, bind, svds_global. rewrite Hsvd. unfold Ok at 1.
  rewrite Hws.
  destruct is_deterministic; simpl.
  - destruct Hkeys as [-> ->].
    destruct verbose; [| reflexivity].
    unfold ret, bind.
    destruct (reconstruction_error act_on X _ _) as [[e | err] w2];
      reflexivity.
  - destruct Hkeys as (gs & Hseed & -> & ->).
    unfold seed_global, rand_global, ret, bind. rewrite Hseed. simpl.
    destruct (np_random_rand (length ws) gs) as [u g] eqn:Hdraw. simpl.
    destruct verbose; [| reflexivity].
    destruct (reconstruction_error act_on X _ _) as [[e | err] w2];
      reflexivity.
Qed.

(** A stochastic call with a seed that the generator refuses raises
    after the decomposition. *)
Lemma do_CUR_seed_refused (X : matrix) (Nsel : Z) (act_on : string)
      (seed : Z) (verbose : bool) (w : world)
      (U VT : matrix) (s : vector) (g1 : rng_state) (e : exn) :
  svds X Nsel (np_random w) = (Ok (U, s, VT), g1) ->
  np_random_seed seed = inl e ->
  do_CUR X Nsel act_on false seed verbose w =
  (inl e, {| np_random := g1; stdout := stdout w |}).
Proof.
  intros Hsvd Hseed.
  unfold do_CUR, bind, svds_global. rewrite Hsvd. unfold Ok at 1.
  unfold seed_global. simpl. rewrite Hseed. reflexivity.
Qed.

(** What [do_CUR] returns is decided by the outcome of the decomposition:
    two calls whose decompositions give the same weights, or the same
    exception, return the same. *)
Lemma do_CUR_result_from_weights (X : matrix) (Nsel : Z) (act_on : string)
      (is_deterministic : bool) (seed : Z) (verbose : bool) (w1 w2 : world) :
  match fst (svds X Nsel (np_random w1)), fst (svds X Nsel (np_random w2)) with
  | inr (U1, _, VT1), inr (U2, _, VT2) =>
      leverage_weights act_on U1 VT1 = leverage_weights act_on U2 VT2
  | inl e1, inl e2 => e1 = e2
  | _, _ => False
  end ->
  fst (do_CUR X Nsel act_on is_deterministic seed verbose w1) =
  fst (do_CUR X Nsel act_on is_deterministic seed verbose w2).
Proof.
  unfold do_CUR, bind, svds_global.
  destruct (svds X Nsel (np_random w1)) as [[e1 | [[U1 s1] VT1]] g1];
    destruct (svds X Nsel (np_random w2)) as [[e2 | [[U2 s2] VT2]] g2];
    simpl; try contradiction.
  - now intros ->.
  - intros ->.
    set (tail := fun sel : index_array =>
                  (if verbose
                   then err <- reconstruction_error act_on X sel ;;
                        print (ReconstructionRMSE err)
                   else ret tt) ;;; ret sel).
    assert (Htail : forall sel (wa wb : world),
               fst (tail sel wa) = fst (tail sel wb)).
    { intros sel wa wb. subst tail. unfold bind. cbv beta.
      destruct verbose; [| reflexivity].
      pose proof (reconstruction_error_result act_on X sel wa wb) as Hd.
      destruct (reconstruction_error act_on X sel wa) as [[ea | erra] wa'];
        destruct (reconstruction_error act_on X sel wb) as [[eb | errb] wb'];
        simpl in Hd; try discriminate; try (injection Hd as ->); reflexivity. }
    destruct (leverage_weights act_on U2 VT2) as [ws |];
      destruct is_deterministic; simpl; unfold ret, raise, seed_global,
      rand_global; simpl; try reflexivity.
    + apply (Htail _ _ _).
    + destruct (np_random_seed seed) as [e | gs]; [reflexivity |].
      simpl. destruct (np_random_rand (length ws) gs) as [u g].
      apply (Htail _ _ _).
    + destruct (np_random_seed seed) as [e | gs]; reflexivity.
Qed.
End DoCURFacts.

Section Selection.
Context {N : NumPy} {C : NumPyContract N}.
Local Open Scope string_scope.

(** With a budget that [svds] accepts, an axis that [act_on] names and,
    in stochastic mode, a seed that the generator accepts, [do_CUR]
    returns the first [Nsel] entries of the argsort of its keys, and the
    generator is left as the decomposition, or the draw, left it. *)
Lemma do_CUR_selects (X : matrix) (Nsel : Z) (act_on : string)
      (is_deterministic : bool) (seed : Z) (verbose : bool) (w : world) :
  (1 <= Nsel < Z.of_nat (Nat.min (nrows X) (ncols X)))%Z ->
  contains "sample" act_on = true \/
  (contains "feature" act_on = true /\ is_matrix X) ->
  is_deterministic = true \/ (0 <= seed < 4294967296)%Z ->
  exists U s VT g1 ws keys g_end,
    svds X Nsel (np_random w) = (Ok (U, s, VT), g1) /\
    leverage_weights act_on U VT = Some ws /\
    length ws = axis_length act_on X /\
    (if is_deterministic
     then keys = np_neg ws /\ g_end = g1
     else exists gs,
         np_random_seed seed = Ok gs /\
         keys = np_sub (fst (np_random_rand (length ws) gs)) ws /\
         g_end = snd (np_random_rand (length ws) gs)) /\
    length keys = length ws /\
    Z.to_nat Nsel <= length keys /\
    exists w',
      do_CUR X Nsel act_on is_deterministic seed verbose w =
      (Ok (firstn (Z.to_nat Nsel) (np_argsort keys)), w') /\
      np_random w' = g_end.
Proof.
  intros Hk Haxis Hseed.
  destruct (svds_shapes X Nsel (np_random w) Hk)
    as (U & s & VT & g1 & Hsvd & HU & _ & _ & HVT).
  destruct (leverage_weights_named act_on U VT) as (ws & Hws & Hlen).
  { destruct Haxis as [H | [H _]]; auto. }
  assert (Hlen' : length ws = axis_length act_on X).
  { rewrite Hlen. unfold axis_length.
    destruct (contains "sample" act_on); congruence. }
  assert (Hpick : exists keys g_end,
             (if is_deterministic
              then keys = np_neg ws /\ g_end = g1
              else exists gs,
                  np_random_seed seed = Ok gs /\
                  keys = np_sub (fst (np_random_rand (length ws) gs)) ws /\
                  g_end = snd (np_random_rand (length ws) gs)) /\
             length keys = length ws).
  { destruct is_deterministic.
    - exists (np_neg ws), g1. split; [now split | apply np_neg_length].
    - destruct Hseed as [Habs | Hrange]; [discriminate |].
      destruct (seed_accepts seed Hrange) as [gs Hgs].
      exists (np_sub (fst (np_random_rand (length ws) gs)) ws),
             (snd (np_random_rand (length ws) gs)).
      split; [exists gs; now repeat split |].
      apply np_sub_length, rand_length. }
  destruct Hpick as (keys & g_end & Hkeys & Hklen).
  exists U, s, VT, g1, ws, keys, g_end.
  assert (Hle : Z.to_nat Nsel <= length keys).
  { rewrite Hklen, Hlen'. unfold axis_length.
    destruct (contains "sample" act_on); lia. }
  repeat (split; [assumption |]).
  pose proof (do_CUR_unfold X Nsel act_on is_deterministic seed verbose w
                U VT s ws keys g1 g_end Hsvd Hws Hkeys) as Hrun.
  cbv zeta in Hrun. rewrite slice_to_nonneg in Hrun by lia.
  destruct verbose.
  - destruct (argsort_prefix keys (Z.to_nat Nsel) Hle) as (_ & _ & Hvalid & _).
    assert (Hvalid' : Forall (fun i => i < axis_length act_on X)
                             (firstn (Z.to_nat Nsel) (np_argsort keys))).
    { eapply Forall_impl; [| exact Hvalid].
      intros i Hi. cbv beta in Hi. now rewrite Hklen, Hlen' in Hi. }
    match type of Hrun with
    | context [reconstruction_error ?a ?x ?sel ?w1] =>
        destruct (reconstruction_error_ok a x sel w1 Haxis Hvalid')
          as [err Herr]
    end.
    rewrite Herr in Hrun. eexists. split; [exact Hrun | reflexivity].
  - eexists. split; [exact Hrun | reflexivity].
Qed.

(** Outside that range the decomposition refuses its arguments, and
    nothing has been drawn, seeded or printed. *)
Lemma do_CUR_rejects (X : matrix) (Nsel : Z) (act_on : string)
      (is_deterministic : bool) (seed : Z) (verbose : bool) (w : world) :
  ~ (1 <= Nsel < Z.of_nat (Nat.min (nrows X) (ncols X)))%Z ->
  do_CUR X Nsel act_on is_deterministic seed verbose w = (Raise ValueError, w).
Proof.
  intros Hk. unfold do_CUR, bind, svds_global.
  rewrite (svds_rejects X Nsel (np_random w) Hk).
  destruct w. reflexivity.
Qed.

(** A call that returns had a rank that [svds] accepts. *)
Lemma do_CUR_ok_rank (X : matrix) (Nsel : Z) (act_on : string)
      (is_deterministic : bool) (seed : Z) (verbose : bool) (w w' : world)
      (sel : index_array) :
  do_CUR X Nsel act_on is_deterministic seed verbose w = (Ok sel, w') ->
  (1 <= Nsel < Z.of_nat (Nat.min (nrows X) (ncols X)))%Z.
Proof.
  intros Hrun.
  destruct (Z_le_dec 1 Nsel) as [H1 |];
    [destruct (Z_lt_dec Nsel (Z.of_nat (Nat.min (nrows X) (ncols X))))
      as [H2 |] |].
  - now split.
  - rewrite do_CUR_rejects in Hrun by lia. discriminate.
  - rewrite do_CUR_rejects in Hrun by lia. discriminate.
Qed.
End Selection.
(** ** The concrete libraries keep the contract *)

Module FixtureFacts.
Import Fixture.

Section Insertion.
Variable before : Q -> Q -> bool.
Variable v : vector.
Hypothesis before_le : forall x y, before x y = true -> (x <= y)%Q.
Hypothesis not_before_ge : forall x y, before x y = false -> (y <= x)%Q.

Lemma insert_index_perm (i : nat) (l : index_array) :
  Permutation (insert_index before v i l) (i :: l).
Proof.
  induction l as [| j l IH]; simpl.
  - apply Permutation_refl.
  - destruct (before (key_of v i) (key_of v j)).
    + apply Permutation_refl.
    + eapply Permutation_trans; [apply perm_skip, IH | apply perm_swap].
Qed.

Lemma insert_index_sorted (i : nat) (l : index_array) :
  StronglySorted (fun a b => (key_of v a <= key_of v b)%Q) l ->
  StronglySorted (fun a b => (key_of v a <= key_of v b)%Q)
                 (insert_index before v i l).
Proof.
  induction l as [| j l IH]; simpl; intros Hs.
  - repeat constructor.
  - apply StronglySorted_inv in Hs. destruct Hs as [Hs Hall].
    destruct (before (key_of v i) (key_of v j)) eqn:Hb.
    + constructor; [now constructor |].
      constructor; [now apply before_le |].
      eapply Forall_impl; [| exact Hall].
      intros a Ha. cbv beta in *.
      eapply Qle_trans; [apply before_le; eassumption | exact Ha].
    + constructor; [now apply IH |].
      apply Forall_forall. intros a Ha.
      apply (Permutation_in _ (insert_index_perm i l)) in Ha.
      destruct Ha as [<- | Ha].
      * now apply not_before_ge.
      * rewrite Forall_forall in Hall. now apply Hall.
Qed.

Lemma insert_all_perm (todo acc : index_array) :
  Permutation (insert_all before v todo acc) (acc ++ todo).
Proof.
  revert acc. induction todo as [| i todo IH]; intros acc; simpl.
  - rewrite app_nil_r. apply Permutation_refl.
  - eapply Permutation_trans; [apply IH |].
    eapply Permutation_trans.
    + apply Permutation_app_tail, insert_index_perm.
    + simpl. apply Permutation_middle.
Qed.

Lemma insert_all_sorted (todo acc : index_array) :
  StronglySorted (fun a b => (key_of v a <= key_of v b)%Q) acc ->
  StronglySorted (fun a b => (key_of v a <= key_of v b)%Q)
                 (insert_all before v todo acc).
Proof.
  revert acc. induction todo as [| i todo IH]; intros acc Hs; simpl.
  - assumption.
  - apply IH. now apply insert_index_sorted.
Qed.

Lemma argsort_with_perm :
  Permutation (argsort_with before v) (seq 0 (length v)).
Proof. unfold argsort_with. apply (insert_all_perm _ []). Qed.

Lemma argsort_with_sorted :
  StronglySorted (fun i j => (key_of v i <= key_of v j)%Q)
                 (argsort_with before v).
Proof. unfold argsort_with. apply insert_all_sorted. constructor. Qed.
End Insertion.

Lemma Qlt_bool_le (x y : Q) : Qlt_bool x y = true -> (x <= y)%Q.
Proof.
  unfold Qlt_bool. intros H. apply negb_true_iff in H.
  apply Qlt_le_weak, Qnot_le_lt. intros Hle.
  apply Qle_bool_iff in Hle. congruence.
Qed.

Lemma not_Qlt_bool_ge (x y : Q) : Qlt_bool x y = false -> (y <= x)%Q.
Proof.
  unfold Qlt_bool. intros H. apply negb_false_iff in H.
  now apply Qle_bool_iff.
Qed.

Lemma lcg_rand_length (n : nat) (g : Z) : length (fst (lcg_rand n g)) = n.
Proof.
  revert g. induction n as [| n IH]; intros g; simpl; [reflexivity |].
  specialize (IH (lcg_next g)).
  destruct (lcg_rand n (lcg_next g)). simpl in *. now f_equal.
Qed.

Lemma lcg_rand_range (n : nat) (g : Z) (u : Q) :
  In u (fst (lcg_rand n g)) -> (0 <= u)%Q /\ (u < 1)%Q.
Proof.
  revert g. induction n as [| n IH]; intros g; simpl; [intros [] |].
  specialize (IH (lcg_next g)).
  destruct (lcg_rand n (lcg_next g)) as [us g']. simpl in *.
  intros [<- | Hin]; [| now apply IH].
  assert (Hr : (0 <= lcg_next g < 2147483648)%Z).
  { unfold lcg_next, lcg_modulus. apply Z.mod_pos_bound. lia. }
  unfold Qle, Qlt. simpl. lia.
Qed.

Lemma lcg_seed_accepts (s : Z) :
  (0 <= s < 4294967296)%Z -> exists g, lcg_seed s = Ok g.
Proof.
  intros Hs. exists s. unfold lcg_seed.
  destruct (Z.leb_spec 0 s); [| lia].
  destruct (Z.ltb_spec s 4294967296); [reflexivity | lia].
Qed.

Lemma lcg_seed_rejects (s : Z) :
  ~ (0 <= s < 4294967296)%Z -> lcg_seed s = Raise ValueError.
Proof.
  intros Hs. unfold lcg_seed.
  destruct (Z.leb_spec 0 s); [| reflexivity].
  destruct (Z.ltb_spec s 4294967296); [lia | reflexivity].
Qed.

Lemma vector_eqb_length (u v : vector) :
  vector_eqb u v = true -> length u = length v.
Proof.
  unfold vector_eqb. intros H. apply andb_prop in H.
  now apply Nat.eqb_eq.
Qed.

Lemma matrix_eqb_shape (A B : matrix) :
  matrix_eqb A B = true -> nrows A = nrows B /\ ncols A = ncols B.
Proof.
  unfold matrix_eqb. intros H. apply andb_prop in H. destruct H as [Hl Hr].
  split; [now apply Nat.eqb_eq |].
  destruct A as [| a A], B as [| b B]; simpl in *; try reflexivity.
  - discriminate.
  - discriminate.
  - apply andb_prop in Hr. now apply vector_eqb_length.
Qed.

Lemma truncation_shapes (X : matrix) (k : Z) :
  (1 <= k < Z.of_nat (Nat.min (nrows X) (ncols X)))%Z ->
  let '(U, _, VT) := truncation X k in
  nrows U = nrows X /\ ncols U = Z.to_nat k /\
  nrows VT = Z.to_nat k /\ ncols VT = ncols X.
Proof.
  intros Hk. unfold truncation.
  unfold nrows. rewrite !length_map, length_seq.
  repeat split.
  - destruct X as [| r X]; simpl in *; [lia |].
    unfold pad_row. now rewrite length_map, length_seq.
  - destruct (Z.to_nat k) as [| k'] eqn:Hk'; [lia |].
    simpl. unfold pad_row. now rewrite length_map, length_seq.
Qed.

Lemma exact_triplets_shapes (X : matrix) (k g : Z) (U VT : matrix)
      (s : vector) :
  exact_triplets X k g = Some (U, s, VT) ->
  nrows U = nrows X /\ ncols U = Z.to_nat k /\
  nrows VT = Z.to_nat k /\ ncols VT = ncols X.
Proof.
  unfold exact_triplets.
  destruct (matrix_eqb X I3) eqn:HI; simpl.
  - destruct (Z.eqb_spec k 1) as [-> |]; simpl.
    + apply matrix_eqb_shape in HI. destruct HI as [-> ->].
      destruct (Z.even g); intros [= <- <- <-]; now repeat split.
    + destruct (matrix_eqb X X25) eqn:HX; simpl; discriminate.
  - destruct (matrix_eqb X X25) eqn:HX; simpl; [| discriminate].
    destruct (Z.eqb_spec k 1) as [-> |]; simpl; [| discriminate].
    apply matrix_eqb_shape in HX. destruct HX as [-> ->].
    intros [= <- <- <-]. now repeat split.
Qed.

Lemma solver_rejects (X : matrix) (k g : Z) :
  ~ (1 <= k < Z.of_nat (Nat.min (nrows X) (ncols X)))%Z ->
  solver X k g = (Raise ValueError, g).
Proof.
  intros Hk. unfold solver.
  destruct (Z.leb_spec 1 k); simpl; [| reflexivity].
  destruct (Z.ltb_spec k (Z.of_nat (Nat.min (nrows X) (ncols X))));
    [lia | reflexivity].
Qed.

Lemma solver_shapes (X : matrix) (k g : Z) :
  (1 <= k < Z.of_nat (Nat.min (nrows X) (ncols X)))%Z ->
  exists U s VT g',
    solver X k g = (Ok (U, s, VT), g') /\
    nrows U = nrows X /\ ncols U = Z.to_nat k /\
    nrows VT = Z.to_nat k /\ ncols VT = ncols X.
Proof.
  intros Hk. unfold solver.
  destruct (Z.leb_spec 1 k); [| lia].
  destruct (Z.ltb_spec k (Z.of_nat (Nat.min (nrows X) (ncols X)))); [| lia].
  simpl.
  destruct (exact_triplets X k g) as [[[U s] VT] |] eqn:Hexact.
  - exists U, s, VT, (lcg_next g). split; [reflexivity |].
    now apply (exact_triplets_shapes X k g U VT s).
  - pose proof (truncation_shapes X k Hk) as Hshape.
    destruct (truncation X k) as [[U s] VT].
    exists U, s, VT, (lcg_next g). now split.
Qed.

Lemma numpy_with_contract (before : Q -> Q -> bool) :
  (forall x y, before x y = true -> (x <= y)%Q) ->
  (forall x y, before x y = false -> (y <= x)%Q) ->
  NumPyContract (numpy_with (argsort_with before)).
Proof.
  intros Hle Hge. constructor; simpl.
  - apply lcg_rand_length.
  - apply lcg_rand_range.
  - intros v. now apply argsort_with_perm.
  - intros v. now apply argsort_with_sorted.
  - apply lcg_seed_accepts.
  - apply lcg_seed_rejects.
  - apply solver_rejects.
  - apply solver_shapes.
Qed.

Lemma numpy_stable_contract : NumPyContract numpy_stable.
Proof.
  apply numpy_with_contract; [apply Qlt_bool_le | apply not_Qlt_bool_ge].
Qed.
End FixtureFacts.

(** ** The selection of [do_CUR] *)

Section SelectionTheorems.
Context {N : NumPy} {C : NumPyContract N}.
Local Open Scope string_scope.

(** C1, as the code has it.  For a matrix [X], a budget with
    [1 <= Nsel < min(X.shape)] and, in stochastic mode, a seed that
    [np.random.seed] accepts ([0 <= seed < 2**32]), [do_CUR] returns,
    with or without diagnostics, exactly [Nsel] pairwise distinct
    indices, each of them a row index of [X] when [act_on] names the
    sample axis and a column index when it names the feature axis.  In
    deterministic mode the seed is not looked at. *)
Theorem do_CUR_returns_distinct_valid_indices
        (X : matrix) (Nsel : Z) (act_on : string) (is_deterministic : bool)
        (seed : Z) (verbose : bool) (w : world) :
  is_matrix X ->
  (1 <= Nsel < Z.of_nat (Nat.min (nrows X) (ncols X)))%Z ->
  contains "sample" act_on = true \/ contains "feature" act_on = true ->
  is_deterministic = true \/ (0 <= seed < 4294967296)%Z ->
  exists sel w',
    do_CUR X Nsel act_on is_deterministic seed verbose w = (Ok sel, w') /\
    length sel = Z.to_nat Nsel /\
    NoDup sel /\
    Forall (fun i => i < (if contains "sample" act_on
                          then nrows X else ncols X)) sel.
Proof.
  intros HX Hk Haxis Hseed.
  destruct (do_CUR_selects X Nsel act_on is_deterministic seed verbose w Hk)
    as (U & s & VT & g1 & ws & keys & g_end & _ & _ & Hlen & _ & Hkeys & Hle
        & w' & Hrun & _); [| exact Hseed |].
  { destruct Haxis as [H | H]; [now left | right; now split]. }
  destruct (argsort_prefix _ _ Hle) as (Hl & Hnd & Hvalid & _).
  eexists. exists w'. split; [exact Hrun |].
  split; [exact Hl |]. split; [exact Hnd |].
  eapply Forall_impl; [| exact Hvalid].
  intros i Hi. cbv beta in Hi. rewrite Hkeys, Hlen in Hi. exact Hi.
Qed.

(** C2, as the code has it.  The decomposition on line 20 runs before
    the generator is seeded on line 29, in whatever state the process
    is.  Two stochastic calls with the same matrix, budget, axis and
    seed return the same thing whenever the decompositions of the two
    calls give the same leverage weights: the result is a function of
    those weights, the budget, the axis and the seed, and the states of
    the generator and of the output do not enter it otherwise. *)
Theorem stochastic_selection_reproducible
        (X : matrix) (Nsel : Z) (act_on : string) (seed : Z) (verbose : bool)
        (w1 w2 : world) :
  (forall U1 s1 VT1 g1 U2 s2 VT2 g2,
      svds X Nsel (np_random w1) = (Ok (U1, s1, VT1), g1) ->
      svds X Nsel (np_random w2) = (Ok (U2, s2, VT2), g2) ->
      leverage_weights act_on U1 VT1 = leverage_weights act_on U2 VT2) ->
  fst (do_CUR X Nsel act_on false seed verbose w1) =
  fst (do_CUR X Nsel act_on false seed verbose w2).
Proof.
  intros Hweights. apply do_CUR_result_from_weights.
  destruct (Z_le_dec 1 Nsel) as [Hlo | Hlo];
    [destruct (Z_lt_dec Nsel (Z.of_nat (Nat.min (nrows X) (ncols X))))
      as [Hhi | Hhi] |].
  - destruct (svds_shapes X Nsel (np_random w1) (conj Hlo Hhi))
      as (U1 & s1 & VT1 & g1 & H1 & _).
    destruct (svds_shapes X Nsel (np_random w2) (conj Hlo Hhi))
      as (U2 & s2 & VT2 & g2 & H2 & _).
    rewrite H1, H2. simpl. exact (Hweights _ _ _ _ _ _ _ _ H1 H2).
  - rewrite !svds_rejects by lia. reflexivity.
  - rewrite !svds_rejects by lia. reflexivity.
Qed.
End SelectionTheorems.

(** ** The stochastic selection against its description *)

Lemma np_sub_pointwise (u v : vector) :
  length u = length v ->
  np_sub u v = map (fun c => (nth c u 0 - nth c v 0)%Q) (seq 0 (length v)).
Proof.
  revert v. induction u as [| x u IH]; intros [| y v]; simpl; intros H;
    try discriminate; [reflexivity |].
  f_equal. rewrite <- seq_shift, map_map. apply IH. now injection H.
Qed.

Lemma nth_np_mean_axis1 (U : matrix) (c : nat) :
  c < nrows U ->
  nth c (np_mean_axis1 (np_square U)) 0%Q =
  Qmean (map (fun x => (x * x)%Q) (nth c U [])).
Proof.
  intros Hc. unfold np_mean_axis1, np_square. rewrite map_map.
  rewrite (nth_indep _ 0%Q (Qmean (map (fun x => (x * x)%Q) []))).
  - apply (map_nth (fun r => Qmean (map (fun x => (x * x)%Q) r))).
  - now rewrite length_map.
Qed.

Lemma column_np_square (VT : matrix) (c : nat) :
  column (np_square VT) c = map (fun x => (x * x)%Q) (column VT c).
Proof.
  unfold column, np_square. rewrite !map_map.
  apply map_ext. intros r.
  exact (map_nth (fun x => (x * x)%Q) r 0%Q c).
Qed.

Lemma nth_np_mean_axis0 (VT : matrix) (c : nat) :
  c < ncols VT ->
  nth c (np_mean_axis0 (np_square VT)) 0%Q =
  Qmean (map (fun x => (x * x)%Q) (column VT c)).
Proof.
  intros Hc. unfold np_mean_axis0. rewrite np_square_ncols.
  rewrite (nth_indep _ 0%Q ((fun j => Qmean (column (np_square VT) j)) 0)).
  - rewrite (map_nth (fun j => Qmean (column (np_square VT) j))).
    rewrite seq_nth by assumption. simpl.
    now rewrite column_np_square.
  - now rewrite length_map, length_seq.
Qed.

Lemma leverage_weights_pointwise (act_on : string) (U VT : matrix)
      (ws : vector) (c : nat) :
  leverage_weights act_on U VT = Some ws ->
  c < length ws ->
  nth c ws 0%Q = reference_weight act_on U VT c.
Proof.
  unfold leverage_weights, reference_weight.
  destruct (contains "sample" act_on).
  - intros [= <-] Hc. rewrite np_mean_axis1_length in Hc.
    now apply nth_np_mean_axis1.
  - destruct (contains "feature" act_on); [| discriminate].
    intros [= <-] Hc. rewrite np_mean_axis0_length in Hc.
    now apply nth_np_mean_axis0.
Qed.

Section Refinement.
Context {N : NumPy} {C : NumPyContract N}.
Local Open Scope string_scope.

(** C3.  In stochastic mode [do_CUR] returns what the description
    computes: a generator seeded with [seed], one uniform variate per
    candidate, the candidates sorted ascending by uniform minus weight
    (the mean of the squared entries of the candidate's row of [U], or of
    its column of [VT], from the decomposition of rank [budget]), and
    the first [budget] of them. *)
Theorem stochastic_selection_matches_reference
        (X : matrix) (budget : Z) (act_on : string) (seed : Z)
        (verbose : bool) (w : world) :
  is_matrix X ->
  (1 <= budget < Z.of_nat (Nat.min (nrows X) (ncols X)))%Z ->
  contains "sample" act_on = true \/ contains "feature" act_on = true ->
  fst (do_CUR X budget act_on false seed verbose w) =
  reference_stochastic X budget act_on seed (np_random w).
Proof.
  intros HX Hk Haxis.
  assert (Haxis' : contains "sample" act_on = true \/
                   (contains "feature" act_on = true /\ is_matrix X)).
  { destruct Haxis as [H | H]; [now left | right; now split]. }
  destruct (Z_le_dec 0 seed) as [Hlo | Hlo];
    [destruct (Z_lt_dec seed 4294967296) as [Hhi | Hhi] |].
  - destruct (do_CUR_selects X budget act_on false seed verbose w Hk Haxis'
                (or_intror (conj Hlo Hhi)))
      as (U & s & VT & g1 & ws & keys & g_end & Hsvd & Hws & Hlen
          & (gs & Hgs & -> & _) & Hkeys & Hle & w' & Hrun & _).
    rewrite Hrun. simpl.
    unfold reference_stochastic. rewrite Hsvd. simpl. rewrite Hgs.
    unfold Ok. f_equal. f_equal.
    rewrite length_seq, <- Hlen.
    set (u := fst (np_random_rand (length ws) gs)) in *.
    assert (Hu : length u = length ws) by (subst u; apply rand_length).
    assert (Hk' : map (fun c => (nth c u 0
                                 - reference_weight act_on U VT c)%Q)
                      (seq 0 (length ws)) = np_sub u ws).
    { rewrite (np_sub_pointwise u ws Hu).
      apply map_ext_in. intros c Hc. apply in_seq in Hc.
      f_equal. f_equal. symmetry.
      apply leverage_weights_pointwise; [assumption | lia]. }
    unfold sort_ascending_by. rewrite Hk'.
    rewrite <- (map_id (np_argsort (np_sub u ws))) at 1.
    apply map_ext_in. intros p Hp.
    apply argsort_In in Hp. rewrite Hkeys in Hp.
    now rewrite seq_nth.
  - destruct (svds_shapes X budget (np_random w) Hk)
      as (U & s & VT & g1 & Hsvd & _).
    assert (Hseed : np_random_seed seed = Raise ValueError)
      by (apply seed_rejects; lia).
    rewrite (do_CUR_seed_refused X budget act_on seed verbose w U VT s g1
               ValueError Hsvd Hseed).
    unfold reference_stochastic. rewrite Hsvd. simpl. now rewrite Hseed.
  - destruct (svds_shapes X budget (np_random w) Hk)
      as (U & s & VT & g1 & Hsvd & _).
    assert (Hseed : np_random_seed seed = Raise ValueError)
      by (apply seed_rejects; lia).
    rewrite (do_CUR_seed_refused X budget act_on seed verbose w U VT s g1
               ValueError Hsvd Hseed).
    unfold reference_stochastic. rewrite Hsvd. simpl. now rewrite Hseed.
Qed.
End Refinement.

(** ** Deterministic selection and ties *)

Lemma key_of_np_neg (ws : vector) (i : nat) :
  key_of (np_neg ws) i = (- key_of ws i)%Q.
Proof. unfold key_of, np_neg. exact (map_nth Qopp ws 0%Q i). Qed.

Lemma neg_keys_le (ws : vector) (i j : nat) :
  (key_of (np_neg ws) i <= key_of (np_neg ws) j)%Q ->
  (key_of ws j <= key_of ws i)%Q.
Proof.
  rewrite !key_of_np_neg. intros H.
  apply Qopp_le_compat in H. now rewrite !Qopp_involutive in H.
Qed.

Section Deterministic.
Context {N : NumPy} {C : NumPyContract N}.
Local Open Scope string_scope.

(** C4, as the code has it.  In deterministic mode the selection is the
    first [Nsel] entries of [argsort(-weights)]: [Nsel] candidates in
    weight-descending order, none of them lighter than a candidate left
    out.  Which of several candidates of equal weight comes first is
    whatever the argsort of the library returns. *)
Theorem deterministic_selection_descending_weight
        (X : matrix) (Nsel : Z) (act_on : string) (seed : Z)
        (verbose : bool) (w : world) :
  is_matrix X ->
  (1 <= Nsel < Z.of_nat (Nat.min (nrows X) (ncols X)))%Z ->
  contains "sample" act_on = true \/ contains "feature" act_on = true ->
  exists U s VT g1 ws sel w',
    svds X Nsel (np_random w) = (Ok (U, s, VT), g1) /\
    leverage_weights act_on U VT = Some ws /\
    do_CUR X Nsel act_on true seed verbose w = (Ok sel, w') /\
    sel = firstn (Z.to_nat Nsel) (np_argsort (np_neg ws)) /\
    length sel = Z.to_nat Nsel /\
    StronglySorted (fun i j => (key_of ws j <= key_of ws i)%Q) sel /\
    (forall i j, In i sel -> j < length ws -> ~ In j sel ->
                 (key_of ws j <= key_of ws i)%Q).
Proof.
  intros HX Hk Haxis.
  destruct (do_CUR_selects X Nsel act_on true seed verbose w Hk)
    as (U & s & VT & g1 & ws & keys & g_end & Hsvd & Hws & Hlen
        & [-> _] & Hkeys & Hle & w' & Hrun & _); [| now left |].
  { destruct Haxis as [H | H]; [now left | right; now split]. }
  destruct (argsort_prefix _ _ Hle) as (Hl & _ & _ & Hsorted & Htop).
  exists U, s, VT, g1, ws. eexists. exists w'.
  split; [exact Hsvd |]. split; [exact Hws |]. split; [exact Hrun |].
  split; [reflexivity |]. split; [exact Hl |]. split.
  - eapply StronglySorted_impl; [| exact Hsorted].
    intros a b. apply neg_keys_le.
  - intros i j Hi Hj Hnot. apply neg_keys_le. apply Htop; try assumption.
    now rewrite Hkeys.
Qed.

(** C6, as the code has it.  A stochastic selection with a seed that
    [np.random.seed] accepts seeds numpy's process-wide generator and
    draws one variate per candidate from it: after the call that
    generator is in the state reached from the seed by this draw,
    whatever its state was before. *)
Theorem selection_leaves_generator_seeded
        (X : matrix) (Nsel : Z) (act_on : string)
        (seed : Z) (verbose : bool) (w : world) :
  is_matrix X ->
  (1 <= Nsel < Z.of_nat (Nat.min (nrows X) (ncols X)))%Z ->
  contains "sample" act_on = true \/ contains "feature" act_on = true ->
  (0 <= seed < 4294967296)%Z ->
  exists gs sel w',
    np_random_seed seed = Ok gs /\
    do_CUR X Nsel act_on false seed verbose w = (Ok sel, w') /\
    np_random w' = snd (np_random_rand (axis_length act_on X) gs).
Proof.
  intros HX Hk Haxis Hseed.
  destruct (do_CUR_selects X Nsel act_on false seed verbose w Hk)
    as (U & s & VT & g1 & ws & keys & g_end & _ & _ & Hlen
        & (gs & Hgs & _ & ->) & _ & _ & w' & Hrun & Hgen);
    [| now right |].
  { destruct Haxis as [H | H]; [now left | right; now split]. }
  exists gs. eexists. exists w'. split; [exact Hgs |].
  split; [exact Hrun |]. rewrite Hgen, Hlen. reflexivity.
Qed.
End Deterministic.

(** ** Dictionaries and sorted index arrays *)

Section DictFacts.
Context {K V : Type} (eqb : K -> K -> bool).
Hypothesis eqb_eq : forall a b, eqb a b = true <-> a = b.

Lemma eqb_refl' (k : K) : eqb k k = true.
Proof. now apply eqb_eq. Qed.

Lemma eqb_neq (a b : K) : a <> b -> eqb a b = false.
Proof.
  intros Hne. destruct (eqb a b) eqn:E; [| reflexivity].
  apply eqb_eq in E. contradiction.
Qed.

Lemma dict_get_set_same (d : dict K V) (k : K) (v : V) :
  dict_get eqb (dict_set eqb d k v) k = Some v.
Proof.
  induction d as [| [k' v'] d IH]; simpl.
  - now rewrite eqb_refl'.
  - destruct (eqb k k') eqn:E; simpl; rewrite E; [reflexivity | exact IH].
Qed.

Lemma dict_get_set_other (d : dict K V) (k k' : K) (v : V) :
  k' <> k ->
  dict_get eqb (dict_set eqb d k v) k' = dict_get eqb d k'.
Proof.
  intros Hne. induction d as [| [k0 v0] d IH]; simpl.
  - now rewrite eqb_neq.
  - destruct (eqb k k0) eqn:E; simpl.
    + apply eqb_eq in E. subst k0. now rewrite eqb_neq.
    + now rewrite IH.
Qed.

Lemma dict_set_new (d : dict K V) (k : K) (v : V) :
  ~ In k (dict_keys d) -> dict_set eqb d k v = d ++ [(k, v)].
Proof.
  induction d as [| [k' v'] d IH]; simpl; intros Hnot; [reflexivity |].
  rewrite eqb_neq by (intros ->; apply Hnot; now left).
  f_equal. apply IH. intros Hin. apply Hnot. now right.
Qed.

Lemma dict_keys_set (d : dict K V) (k k' : K) (v : V) :
  In k' (dict_keys (dict_set eqb d k v)) <-> k' = k \/ In k' (dict_keys d).
Proof.
  induction d as [| [k0 v0] d IH]; simpl.
  - intuition.
  - destruct (eqb k k0) eqn:E; simpl.
    + apply eqb_eq in E. subst k0. intuition.
    + rewrite IH. intuition.
Qed.

Lemma dict_get_In (d : dict K V) (k : K) (v : V) :
  NoDup (dict_keys d) -> In (k, v) d -> dict_get eqb d k = Some v.
Proof.
  induction d as [| [k' v'] d IH]; simpl; intros Hnd Hin; [contradiction |].
  apply NoDup_cons_iff in Hnd. destruct Hnd as [Hnot Hnd].
  destruct Hin as [[= -> ->] | Hin].
  - now rewrite eqb_refl'.
  - rewrite eqb_neq; [now apply IH |].
    intros ->. apply Hnot. apply (in_map fst) in Hin. exact Hin.
Qed.

End DictFacts.

Lemma insert_sorted_perm (x : nat) (l : list nat) :
  Permutation (insert_sorted x l) (x :: l).
Proof.
  induction l as [| y l IH]; simpl; [apply Permutation_refl |].
  destruct (x <=? y); [apply Permutation_refl |].
  eapply Permutation_trans; [apply perm_skip, IH | apply perm_swap].
Qed.

Lemma insert_sorted_sorted (x : nat) (l : list nat) :
  StronglySorted le l -> StronglySorted le (insert_sorted x l).
Proof.
  induction l as [| y l IH]; simpl; intros Hs; [repeat constructor |].
  apply StronglySorted_inv in Hs. destruct Hs as [Hs Hall].
  destruct (Nat.leb_spec x y).
  - constructor; [now constructor |].
    constructor; [assumption |].
    eapply Forall_impl; [| exact Hall]. intros a Ha. simpl in Ha. lia.
  - constructor; [now apply IH |].
    apply Forall_forall. intros a Ha.
    apply (Permutation_in _ (insert_sorted_perm x l)) in Ha.
    destruct Ha as [<- | Ha]; [lia |].
    rewrite Forall_forall in Hall. now apply Hall.
Qed.

(** [np_sort] is the ascending arrangement of its argument. *)
Lemma np_sort_ascending (a : index_array) :
  Permutation (np_sort a) a /\ StronglySorted le (np_sort a).
Proof.
  induction a as [| x a [IHp IHs]]; simpl.
  - split; constructor.
  - split.
    + eapply Permutation_trans; [apply insert_sorted_perm |].
      now apply perm_skip.
    + now apply insert_sorted_sorted.
Qed.

(** ** transform *)

Ltac destruct_matches :=
  repeat match goal with
         | |- context [match ?x with _ => _ end] => destruct x eqn:?
         end.

(** The comprehension of lines 167-168 on a cached dictionary: the same
    keys in the same order, every value cut and sorted. *)
Lemma truncate_by_species_run {N : NumPy} {R : Rascal}
      (ns : dict Z Z) (items acc : dict Z index_array) :
  NoDup (dict_keys acc ++ dict_keys items) ->
  (forall sp, In sp (dict_keys items) ->
              exists k, dict_get Z.eqb ns sp = Some k) ->
  exists tail,
    truncate_by_species ns items acc = Ok (acc ++ tail) /\
    dict_keys tail = dict_keys items /\
    forall sp val, In (sp, val) items ->
      exists k, dict_get Z.eqb ns sp = Some k /\
                In (sp, np_sort (slice_to val k)) tail.
Proof.
  revert acc. induction items as [| [sp val] items IH]; intros acc Hnd Hns.
  - exists []. simpl. rewrite app_nil_r.
    split; [reflexivity |]. split; [reflexivity |]. intros ? ? [].
  - simpl. destruct (Hns sp) as [k Hk]; [now left |]. rewrite Hk.
    assert (Hnew : ~ In sp (dict_keys acc)).
    { simpl in Hnd. apply NoDup_remove_2 in Hnd.
      intros Hin. apply Hnd. apply in_or_app. now left. }
    rewrite (dict_set_new Z.eqb Z.eqb_eq acc sp _ Hnew).
    destruct (IH (acc ++ [(sp, np_sort (slice_to val k))]))
      as (tail & Hrun & Hkeys & Hall).
    { unfold dict_keys. rewrite map_app. simpl.
      rewrite <- app_assoc. exact Hnd. }
    { intros sp' Hin. apply Hns. now right. }
    exists ((sp, np_sort (slice_to val k)) :: tail).
    split; [| split].
    + rewrite Hrun. now rewrite <- app_assoc.
    + simpl. now f_equal.
    + intros sp' val' [[= <- <-] | Hin].
      * exists k. split; [exact Hk | now left].
      * destruct (Hall sp' val' Hin) as (k' & Hk' & Hin').
        exists k'. split; [exact Hk' | now right].
Qed.

Section TransformFacts.
Context {N : NumPy} {R : Rascal}.
Local Open Scope string_scope.

(** [transform] assigns [selected_ids] and nothing else. *)
Lemma transform_keeps_cache (self : CURFilter) (managers : AtomsList)
      (n_select : option nselect) :
  let self' := fst (transform self managers n_select) in
  _representation self' = _representation self /\
  Nselect self' = Nselect self /\
  act_on self' = act_on self /\
  selected_sample_ids self' = selected_sample_ids self /\
  selected_sample_ids_by_sp self' = selected_sample_ids_by_sp self /\
  selected_feature_ids_global self' = selected_feature_ids_global self.
Proof.
  cbv zeta. unfold transform, remap_by_species, remap_samples.
  destruct_matches; simpl; repeat split; congruence.
Qed.

Lemma transform_many_keeps_cache (self : CURFilter)
      (calls : list (AtomsList * option nselect)) :
  let self' := transform_many self calls in
  _representation self' = _representation self /\
  Nselect self' = Nselect self /\
  act_on self' = act_on self /\
  selected_sample_ids self' = selected_sample_ids self /\
  selected_sample_ids_by_sp self' = selected_sample_ids_by_sp self /\
  selected_feature_ids_global self' = selected_feature_ids_global self.
Proof.
  cbv zeta. revert self.
  induction calls as [| [managers n_select] calls IH]; intros self; simpl.
  - repeat split; reflexivity.
  - destruct (IH (fst (transform self managers n_select)))
      as (H1 & H2 & H3 & H4 & H5 & H6).
    destruct (transform_keeps_cache self managers n_select)
      as (K1 & K2 & K3 & K4 & K5 & K6).
    cbv zeta in *.
    repeat split; congruence.
Qed.

(** What [transform] returns is decided by the constructor parameters
    and the three cached selections. *)
Lemma transform_output_congruence (x y : CURFilter) (managers : AtomsList)
      (n_select : option nselect) :
  _representation x = _representation y ->
  Nselect x = Nselect y ->
  act_on x = act_on y ->
  selected_sample_ids x = selected_sample_ids y ->
  selected_sample_ids_by_sp x = selected_sample_ids_by_sp y ->
  selected_feature_ids_global x = selected_feature_ids_global y ->
  snd (transform x managers n_select) = snd (transform y managers n_select).
Proof.
  intros H1 H2 H3 H4 H5 H6.
  unfold transform, remap_by_species, remap_samples. simpl.
  rewrite H1, H2, H3, H4, H5, H6.
  destruct_matches; simpl; congruence.
Qed.
End TransformFacts.

Lemma dict_get_Some_In {V : Type} (d : dict Z V) (k : Z) (v : V) :
  dict_get Z.eqb d k = Some v -> In (k, v) d.
Proof.
  induction d as [| [k' v'] d IH]; simpl; [discriminate |].
  destruct (Z.eqb_spec k k') as [-> | Hne].
  - intros [= ->]. now left.
  - intros H. right. now apply IH.
Qed.

Section TransformTheorems.
Context {N : NumPy} {R : Rascal}.
Local Open Scope string_scope.

(** The cut of line 178 with a budget that is not negative. *)
Lemma transform_sample_run (self : CURFilter) (managers : AtomsList)
      (cached : index_array) (k : Z) :
  act_on self = "sample" ->
  selected_sample_ids self = Some cached ->
  transform self managers (Some (NInt k)) =
  remap_samples self managers (np_sort (slice_to cached k)).
Proof.
  intros Hmode Hcache. unfold transform. rewrite Hmode, Hcache. reflexivity.
Qed.

(** The cut of lines 167-168 when every cached species has a budget. *)
Lemma transform_species_run (self : CURFilter) (managers : AtomsList)
      (cached : dict Z index_array) (ns : dict Z Z)
      (strides : strides_by_sp_t) (counter : global_counter_by_sp_t)
      (mbm : map_by_manager_sp_t) (idx : dict Z index_array) :
  act_on self = "sample per species" ->
  selected_sample_ids_by_sp self = Some cached ->
  NoDup (dict_keys cached) ->
  (forall sp, In sp (dict_keys cached) ->
              exists k, dict_get Z.eqb ns sp = Some k) ->
  get_index_mappings_sample_per_species managers (dict_keys ns) =
  Ok (strides, counter, mbm, idx) ->
  exists selected_ids_by_sp,
    transform self managers (Some (NDict ns)) =
    remap_by_species self managers (dict_keys ns) strides mbm
                     selected_ids_by_sp /\
    dict_keys selected_ids_by_sp = dict_keys cached /\
    forall sp val, dict_get Z.eqb cached sp = Some val ->
      exists k, dict_get Z.eqb ns sp = Some k /\
                dict_get Z.eqb selected_ids_by_sp sp =
                Some (np_sort (slice_to val k)).
Proof.
  intros Hmode Hcache Hnd Hns Hmap.
  destruct (truncate_by_species_run ns cached [] Hnd Hns)
    as (out & Hrun & Hkeys & Hall).
  simpl in Hrun.
  exists out. split; [| split].
  - unfold transform. rewrite Hmode. simpl. rewrite Hmap. unfold Ok.
    rewrite Hcache, Hrun. reflexivity.
  - exact Hkeys.
  - intros sp val Hget. apply dict_get_Some_In in Hget.
    destruct (Hall sp val Hget) as (k & Hk & Hin).
    exists k. split; [exact Hk |].
    apply (dict_get_In Z.eqb Z.eqb_eq); [| exact Hin].
    now rewrite Hkeys.
Qed.

(** C7.  On a filter in mode 'sample' or 'sample per species', after any
    sequence of earlier [transform] calls, [transform] with a budget [k]
    per group hands to the index helper, for each group, the ascending
    sort of the first [k] elements of that group's selection as [fit]
    cached it; the selection algorithm is not run again.  [np_sort] is
    the ascending arrangement of its argument. *)
Theorem transform_truncates_cached_selection
        (self : CURFilter) (calls : list (AtomsList * option nselect))
        (managers : AtomsList) :
  (forall cached k,
      act_on self = "sample" ->
      selected_sample_ids self = Some cached ->
      (0 <= k)%Z ->
      transform (transform_many self calls) managers (Some (NInt k)) =
      remap_samples (transform_many self calls) managers
                    (np_sort (firstn (Z.to_nat k) cached))) /\
  (forall cached ns strides counter mbm idx,
      act_on self = "sample per species" ->
      selected_sample_ids_by_sp self = Some cached ->
      NoDup (dict_keys cached) ->
      (forall sp, In sp (dict_keys cached) ->
                  exists k, dict_get Z.eqb ns sp = Some k /\ (0 <= k)%Z) ->
      get_index_mappings_sample_per_species managers (dict_keys ns) =
      Ok (strides, counter, mbm, idx) ->
      exists selected_ids_by_sp,
        transform (transform_many self calls) managers (Some (NDict ns)) =
        remap_by_species (transform_many self calls) managers (dict_keys ns)
                         strides mbm selected_ids_by_sp /\
        dict_keys selected_ids_by_sp = dict_keys cached /\
        forall sp val, dict_get Z.eqb cached sp = Some val ->
          exists k, dict_get Z.eqb ns sp = Some k /\
                    dict_get Z.eqb selected_ids_by_sp sp =
                    Some (np_sort (firstn (Z.to_nat k) val))) /\
  (forall a, Permutation (np_sort a) a /\ StronglySorted le (np_sort a)).
Proof.
  destruct (transform_many_keeps_cache self calls)
    as (_ & _ & Hact & Hs & Hsp & _).
  cbv zeta in *.
  split; [| split].
  - intros cached k Hmode Hcache Hk.
    rewrite <- (slice_to_nonneg cached k Hk).
    apply transform_sample_run; congruence.
  - intros cached ns strides counter mbm idx Hmode Hcache Hnd Hns Hmap.
    destruct (transform_species_run (transform_many self calls) managers
                cached ns strides counter mbm idx)
      as (out & Hrun & Hkeys & Hall); try congruence.
    { intros sp Hin. destruct (Hns sp Hin) as (k & Hk & _). eauto. }
    exists out. split; [exact Hrun |]. split; [exact Hkeys |].
    intros sp val Hget.
    destruct (Hall sp val Hget) as (k & Hk & Hout).
    exists k. split; [exact Hk |].
    destruct (Hns sp) as (k' & Hk' & Hpos).
    { apply dict_get_Some_In in Hget.
      apply (in_map fst) in Hget. exact Hget. }
    assert (k' = k) by congruence. subst k'.
    now rewrite <- (slice_to_nonneg val k Hpos).
  - apply np_sort_ascending.
Qed.

(** C8.  For a filter [x] in any of the three modes, a filter built with
    the parameters of [x] and given the state extracted from [x] returns
    from [transform], on the same arguments, what [x] returns; [fit] is
    not called. *)
Theorem restored_filter_transforms_alike (x : CURFilter) :
  In (act_on x) ["sample"; "sample per species"; "feature"] ->
  exists y,
    restore_from x = Ok y /\
    _get_data y = _get_data x /\
    forall managers n_select,
      snd (transform y managers n_select) =
      snd (transform x managers n_select).
Proof.
  intros Hmode.
  assert (Hin : existsb (String.eqb (act_on x))
                        ["sample"; "sample per species"; "feature"] = true).
  { apply existsb_exists. exists (act_on x).
    split; [exact Hmode | apply String.eqb_refl]. }
  unfold restore_from, construct, CURFilter_init, _get_init_params.
  cbn [param_act_on param_representation param_Nselect
       param_is_deterministic param_seed].
  rewrite Hin. eexists. split; [reflexivity |]. split; [reflexivity |].
  intros managers n_select.
  apply transform_output_congruence; reflexivity.
Qed.
End TransformTheorems.

(** ** fit *)

Lemma dict_get_keys {V : Type} (d : dict Z V) (k : Z) :
  In k (dict_keys d) <-> dict_get Z.eqb d k <> None.
Proof.
  induction d as [| [k' v'] d IH]; simpl.
  - split; [intros [] | congruence].
  - destruct (Z.eqb_spec k k') as [-> | Hne].
    + split; [discriminate | now left].
    + rewrite <- IH. split; [intros [H | H]; congruence || assumption | now right].
Qed.

Lemma take_rows {A : Type} (a : list A) (idx : index_array) (xs : list A) :
  take a idx = Ok xs -> Forall2 (fun i x => nth_error a i = Some x) idx xs.
Proof.
  revert xs. induction idx as [| i idx IH]; intros xs; simpl.
  - intros [= <-]. constructor.
  - destruct (nth_error a i) as [x |] eqn:Hx; [| discriminate].
    destruct (take a idx) as [e | xs'] eqn:Ht; [discriminate |].
    intros [= <-]. constructor; [exact Hx | now apply IH].
Qed.

Section SplitFacts.
Context {R : Rascal}.

Lemma split_by_species_rows (X : matrix) (idx : dict Z index_array)
      (sps : list Z) :
  forall acc out,
    split_by_species X idx sps acc = Ok out ->
    (forall sp, In sp sps ->
       exists rows Xsp,
         dict_get Z.eqb idx sp = Some rows /\
         take X rows = Ok Xsp /\
         dict_get Z.eqb out sp = Some Xsp) /\
    (forall sp, ~ In sp sps -> dict_get Z.eqb out sp = dict_get Z.eqb acc sp).
Proof.
  induction sps as [| sp sps IH]; intros acc out Hrun.
  - simpl in Hrun. injection Hrun as <-. split; [intros ? [] | reflexivity].
  - simpl in Hrun.
    destruct (dict_get Z.eqb idx sp) as [rows |] eqn:Hrows; [| discriminate].
    destruct (take X rows) as [e | Xsp] eqn:Htake; [discriminate |].
    destruct (IH _ _ Hrun) as (Hin & Hout).
    split.
    + intros sp' [<- | Hmem]; [| now apply Hin].
      destruct (in_dec Z.eq_dec sp sps) as [Hmem | Hnot]; [now apply Hin |].
      exists rows, Xsp. split; [exact Hrows |]. split; [exact Htake |].
      rewrite (Hout sp Hnot). apply (dict_get_set_same Z.eqb Z.eqb_eq).
    + intros sp' Hnot. rewrite Hout.
      * apply (dict_get_set_other Z.eqb Z.eqb_eq).
        intros ->. apply Hnot. now left.
      * intros Hmem. apply Hnot. now right.
Qed.

Lemma split_by_species_missing (X : matrix) (idx : dict Z index_array)
      (sp : Z) (sps : list Z) :
  (forall sp' rows, dict_get Z.eqb idx sp' = Some rows ->
                    Forall (fun i => i < nrows X) rows) ->
  In sp sps ->
  dict_get Z.eqb idx sp = None ->
  forall acc, split_by_species X idx sps acc = Raise KeyError.
Proof.
  intros Hrange Hmem Hnone.
  induction sps as [| sp' sps IH]; intros acc; [destruct Hmem |].
  simpl. destruct (dict_get Z.eqb idx sp') as [rows |] eqn:Hrows;
    [| reflexivity].
  destruct (take_ok X rows (Hrange sp' rows Hrows)) as [Xsp ->].
  apply IH. destruct Hmem as [-> | Hmem]; [congruence | exact Hmem].
Qed.
End SplitFacts.

Section FitFacts.
Context {N : NumPy} {R : Rascal}.
Local Open Scope string_scope.

(** A stochastic call that returns has decomposed, seeded and drawn, in
    this order, and returns the first entries of the argsort of the
    variates minus the weights. *)
Lemma do_CUR_stochastic_inv (X : matrix) (Nsel : Z) (act_on : string)
      (seed : Z) (verbose : bool) (w w' : world) (sel : index_array) :
  do_CUR X Nsel act_on false seed verbose w = (Ok sel, w') ->
  exists U s VT g1 gs ws,
    svds X Nsel (np_random w) = (Ok (U, s, VT), g1) /\
    np_random_seed seed = Ok gs /\
    leverage_weights act_on U VT = Some ws /\
    sel = slice_to (np_argsort (np_sub (fst (np_random_rand (length ws) gs))
                                       ws)) Nsel /\
    np_random w' = snd (np_random_rand (length ws) gs).
Proof.
  intros Hrun.
  destruct (svds X Nsel (np_random w)) as [[e | [[U s] VT]] g1] eqn:Hsvd.
  - unfold do_CUR, bind, svds_global in Hrun. rewrite Hsvd in Hrun.
    discriminate.
  - destruct (np_random_seed seed) as [e | gs] eqn:Hseed.
    + rewrite (do_CUR_seed_refused X Nsel act_on seed verbose w U VT s g1 e
                 Hsvd Hseed) in Hrun. discriminate.
    + destruct (leverage_weights act_on U VT) as [ws |] eqn:Hws.
      * exists U, s, VT, g1, gs, ws.
        pose proof (do_CUR_unfold X Nsel act_on false seed verbose w
                      U VT s ws _ g1 _ Hsvd Hws
                      (ex_intro _ gs (conj Hseed (conj eq_refl eq_refl))))
          as Hunfold.
        cbv zeta in Hunfold. rewrite Hunfold in Hrun.
        repeat (split; [reflexivity || assumption |]).
        destruct verbose.
        -- destruct (reconstruction_error act_on X _ _)
             as [[e | err] w2] eqn:Herr; [discriminate |].
           injection Hrun as <- <-. split; [reflexivity |]. simpl.
           unfold reconstruction_error, bind, lift, ret, raise in Herr.
           destruct (contains "sample" act_on).
           ++ destruct (take X _); [discriminate |].
              now injection Herr as _ <-.
           ++ destruct (contains "feature" act_on); [| discriminate].
              destruct (take_columns X _); [discriminate |].
              now injection Herr as _ <-.
        -- injection Hrun as <- <-. now split.
      * unfold do_CUR, bind, svds_global in Hrun. rewrite Hsvd in Hrun.
        unfold Ok at 1 in Hrun. rewrite Hws in Hrun.
        unfold seed_global in Hrun. simpl in Hrun. rewrite Hseed in Hrun.
        discriminate.
Qed.

(** A successful pass over the species stores, for each of them, the
    selection that a call of [do_CUR] on that species' rows returned,
    and leaves the process as the last of these calls left it. *)
Lemma select_by_species_cached (X_by_sp : dict Z matrix) (d : dict Z Z)
      (sps : list Z) :
  forall (self self' : CURFilter) (w w' : world) (by0 : dict Z index_array),
    Nselect self = NDict d ->
    selected_sample_ids_by_sp self = Some by0 ->
    select_by_species self X_by_sp sps w = (self', Ok tt, w') ->
    exists by',
      selected_sample_ids_by_sp self' = Some by' /\
      _XX self' = _XX self /\
      (forall sp, In sp sps ->
         exists Xsp n sel w0 w1,
           dict_get Z.eqb X_by_sp sp = Some Xsp /\
           dict_get Z.eqb d sp = Some n /\
           dict_get Z.eqb by' sp = Some sel /\
           do_CUR Xsp n (act_on self) (is_deterministic self)
                  (seed self) true w0 = (Ok sel, w1)) /\
      (forall sp, ~ In sp sps ->
                  dict_get Z.eqb by' sp = dict_get Z.eqb by0 sp) /\
      (sps <> [] ->
       exists Xsp n sel w0,
         do_CUR Xsp n (act_on self) (is_deterministic self)
                (seed self) true w0 = (Ok sel, w')).
Proof.
  induction sps as [| sp rest IH]; intros self self' w w' by0 HN Hby Hrun.
  - simpl in Hrun. injection Hrun as <- <-.
    exists by0. repeat split; try assumption; [intros sp [] | congruence].
  - cbn [select_by_species] in Hrun.
    destruct (dict_get Z.eqb X_by_sp sp) as [Xsp |] eqn:HX;
      [| discriminate].
    rewrite HN in Hrun.
    destruct (dict_get Z.eqb d sp) as [n |] eqn:Hn; [| discriminate].
    destruct (do_CUR Xsp n (act_on self) (is_deterministic self)
                     (seed self) true _) as [[e | sel] w2] eqn:Hsel;
      [discriminate |].
    rewrite Hby in Hrun.
    pose proof Hrun as Hrest.
    apply IH with (by0 := dict_set Z.eqb by0 sp sel) in Hrun;
      [| exact HN | reflexivity].
    destruct Hrun as (by' & Hby' & HXX & Hin & Hout & Hlast).
    simpl in HXX, Hin, Hlast.
    exists by'. split; [exact Hby' |]. split; [exact HXX |].
    split; [| split].
    + intros sp' [<- | Hmem]; [| now apply Hin].
      destruct (in_dec Z.eq_dec sp rest) as [Hmem | Hnot];
        [now apply Hin |].
      exists Xsp, n, sel. do 2 eexists.
      split; [exact HX |]. split; [exact Hn |]. split; [| exact Hsel].
      rewrite (Hout sp Hnot).
      apply (dict_get_set_same Z.eqb Z.eqb_eq).
    + intros sp' Hnot. rewrite Hout.
      * apply (dict_get_set_other Z.eqb Z.eqb_eq).
        intros ->. apply Hnot. now left.
      * intros Hin'. apply Hnot. now right.
    + intros _. destruct rest as [| sp' rest'].
      * simpl in Hrest. injection Hrest as _ <-.
        exists Xsp, n, sel. eexists. exact Hsel.
      * apply Hlast. discriminate.
Qed.

End FitFacts.

Section FitTheorems.
Context {N : NumPy} {R : Rascal}.
Local Open Scope string_scope.

(** C9, as the code has it.  In a stochastic 'sample per species' [fit]
    every species' selection is made by a call of [do_CUR] that first
    decomposes the species' own rows, in the state in which the process
    then is, then seeds the generator with the configured seed and draws
    one variate per row: the cached selection is the first [n] entries
    of the argsort of these variates minus the weights of that
    decomposition.  Two species with the same rows and the same budget
    have the same selection whenever the decomposition of these rows
    gives the same weights in every state.  After the last species the
    generator is the one seeded with the configured seed, advanced by
    one draw. *)
Theorem species_selection_from_seed_and_own_weights
        {C : NumPyContract N}
        (self self' : CURFilter) (managers : AtomsList) (w w' : world)
        (d : dict Z Z) :
  act_on self = "sample per species" ->
  is_deterministic self = false ->
  Nselect self = NDict d ->
  fit self managers w = (self', Ok tt, w') ->
  exists X_by_sp by_sp,
    _XX self' = Some X_by_sp /\
    selected_sample_ids_by_sp self' = Some by_sp /\
    (forall sp, In sp (dict_keys d) ->
       exists Xsp n sel g g1 U s VT gs,
         dict_get Z.eqb X_by_sp sp = Some Xsp /\
         dict_get Z.eqb d sp = Some n /\
         dict_get Z.eqb by_sp sp = Some sel /\
         svds Xsp n g = (Ok (U, s, VT), g1) /\
         np_random_seed (seed self) = Ok gs /\
         sel = firstn (Z.to_nat n)
                      (np_argsort
                         (np_sub (fst (np_random_rand (nrows Xsp) gs))
                                 (np_mean_axis1 (np_square U))))) /\
    (forall sp1 sp2 Xsp n,
        In sp1 (dict_keys d) -> In sp2 (dict_keys d) ->
        dict_get Z.eqb X_by_sp sp1 = Some Xsp ->
        dict_get Z.eqb X_by_sp sp2 = Some Xsp ->
        dict_get Z.eqb d sp1 = Some n ->
        dict_get Z.eqb d sp2 = Some n ->
        (forall ga ga' Ua sa VTa gb gb' Ub sb VTb,
            svds Xsp n ga = (Ok (Ua, sa, VTa), ga') ->
            svds Xsp n gb = (Ok (Ub, sb, VTb), gb') ->
            np_mean_axis1 (np_square Ua) = np_mean_axis1 (np_square Ub)) ->
        dict_get Z.eqb by_sp sp1 = dict_get Z.eqb by_sp sp2) /\
    (dict_keys d <> [] ->
     exists gs n,
       np_random_seed (seed self) = Ok gs /\
       np_random w' = snd (np_random_rand n gs)).
Proof.
  intros Hmode Hdet HN Hfit.
  unfold fit in Hfit.
  destruct (get_features managers (_representation self)) as [e | X];
    [discriminate |].
  rewrite Hmode, String.eqb_refl, HN in Hfit.
  destruct (get_index_mappings_sample_per_species managers (dict_keys d))
    as [e | [[[strides counter] mbm] idx]]; [discriminate |].
  destruct (split_by_species X idx (dict_keys d) []) as [e | X_by_sp];
    [discriminate |].
  apply select_by_species_cached with (d := d) (by0 := []) in Hfit;
    [| exact HN | reflexivity].
  destruct Hfit as (by_sp & Hby & HXX & Hin & _ & Hlast).
  simpl in HXX, Hin, Hlast. rewrite Hmode, Hdet in Hin, Hlast.
  assert (Hsel : forall sp, In sp (dict_keys d) ->
            exists Xsp n sel g g1 U s VT gs,
              dict_get Z.eqb X_by_sp sp = Some Xsp /\
              dict_get Z.eqb d sp = Some n /\
              dict_get Z.eqb by_sp sp = Some sel /\
              svds Xsp n g = (Ok (U, s, VT), g1) /\
              np_random_seed (seed self) = Ok gs /\
              sel = firstn (Z.to_nat n)
                           (np_argsort
                              (np_sub (fst (np_random_rand (nrows Xsp) gs))
                                      (np_mean_axis1 (np_square U))))).
  { intros sp Hsp.
    destruct (Hin sp Hsp) as (Xsp & n & sel & w0 & w1 & HX & Hn & Hs & Hrun).
    pose proof (do_CUR_ok_rank _ _ _ _ _ _ _ _ _ Hrun) as Hrank.
    destruct (do_CUR_stochastic_inv _ _ _ _ _ _ _ _ Hrun)
      as (U & s & VT & g1 & gs & ws & Hsvd & Hseed & Hws & Hsel & _).
    destruct (svds_shapes Xsp n (np_random w0) Hrank)
      as (U' & s' & VT' & g1' & Hsvd' & HU & _).
    rewrite Hsvd in Hsvd'. injection Hsvd' as <- <- <- <-.
    unfold leverage_weights in Hws. simpl in Hws. injection Hws as <-.
    rewrite np_mean_axis1_length, HU in Hsel.
    rewrite slice_to_nonneg in Hsel by lia.
    exists Xsp, n, sel, (np_random w0), g1, U, s, VT, gs.
    now repeat split. }
  exists X_by_sp, by_sp.
  split; [exact HXX |]. split; [exact Hby |]. split; [exact Hsel |]. split.
  - intros sp1 sp2 Xsp n H1 H2 HX1 HX2 Hn1 Hn2 Hweights.
    destruct (Hsel sp1 H1)
      as (X1 & n1 & sel1 & ga & ga' & Ua & sa & VTa & gsa
          & HXa & Hna & Hsa & Hsvda & Hseeda & ->).
    destruct (Hsel sp2 H2)
      as (X2 & n2 & sel2 & gb & gb' & Ub & sb & VTb & gsb
          & HXb & Hnb & Hsb & Hsvdb & Hseedb & ->).
    assert (X1 = Xsp) by congruence. assert (X2 = Xsp) by congruence.
    assert (n1 = n) by congruence. assert (n2 = n) by congruence.
    assert (gsb = gsa) by (unfold Ok in *; congruence).
    subst X1 X2 n1 n2 gsb.
    rewrite Hsa, Hsb.
    now rewrite (Hweights _ _ _ _ _ _ _ _ _ _ Hsvda Hsvdb).
  - intros Hne. destruct (Hlast Hne) as (Xsp & n & sel & w0 & Hrun).
    destruct (do_CUR_stochastic_inv _ _ _ _ _ _ _ _ Hrun)
      as (U & s & VT & g1 & gs & ws & _ & Hseed & _ & _ & Hgen).
    exists gs, (length ws). now split.
Qed.

End FitTheorems.

(** ** The theorems on concrete data *)

Section Instances.
Import Fixture FixtureFacts.
Local Open Scope string_scope.

Lemma X43_is_matrix : is_matrix X43.
Proof. repeat constructor. Defined.

Lemma X43_budget_2 :
  (1 <= 2 < Z.of_nat (Nat.min (nrows X43) (ncols X43)))%Z.
Proof. simpl. lia. Defined.

(** The feature axis of [X43], budget 2, stochastic, with diagnostics. *)
Lemma do_CUR_returns_distinct_valid_indices_witness :
  exists sel w',
    @do_CUR numpy_stable X43 2 "feature" false 10 true world0 = (Ok sel, w') /\
    length sel = Z.to_nat 2 /\
    NoDup sel /\
    Forall (fun i => i < (if contains "sample" "feature"
                          then nrows X43 else ncols X43)) sel.
Proof.
  apply (@do_CUR_returns_distinct_valid_indices
           numpy_stable numpy_stable_contract
           X43 2 "feature" false 10 true world0).
  - exact X43_is_matrix.
  - exact X43_budget_2.
  - right. reflexivity.
  - right. lia.
Defined.

(** C1, the seed.  [np.random.seed] refuses a negative seed: the
    stochastic call on [X43] with budget 2 and seed -1 raises
    [ValueError] and returns no indices. *)
Lemma do_CUR_refused_seed_raises :
  is_matrix X43 /\
  (1 <= 2 < Z.of_nat (Nat.min (nrows X43) (ncols X43)))%Z /\
  fst (@do_CUR numpy_stable X43 2 "sample" false (-1) true world0) =
  Raise ValueError.
Proof.
  split; [exact X43_is_matrix |]. split; [exact X43_budget_2 |].
  reflexivity.
Qed.

(** The decomposition of [X43] by the solver is the same in the states
    7 and 8. *)
Lemma stochastic_selection_reproducible_witness :
  fst (@do_CUR numpy_stable X43 2 "sample" false 10 true world0) =
  fst (@do_CUR numpy_stable X43 2 "sample" false 10 true world_even).
Proof.
  apply (@stochastic_selection_reproducible
           numpy_stable numpy_stable_contract
           X43 2 "sample" 10 true world0 world_even).
  intros U1 s1 VT1 g1 U2 s2 VT2 g2 H1 H2.
  vm_compute in H1. vm_compute in H2.
  injection H1 as <- <- <- <-. injection H2 as <- <- <- <-.
  reflexivity.
Defined.

(** C2, the state of the solver.  All singular values of the identity
    are 1, and each unit vector is a leading left singular vector.  The
    solver, which starts from the state of the process, returns the
    first one in state 8 and the second one in state 7; the stochastic
    selection with budget 1 and seed 10 is row 0 in the one and row 1 in
    the other. *)
Lemma stochastic_selection_follows_solver_state :
  singular_triplets I3 [[1]; [0]; [0]]%Q [1%Q] [[1; 0; 0]]%Q = true /\
  singular_triplets I3 [[0]; [1]; [0]]%Q [1%Q] [[0; 1; 0]]%Q = true /\
  fst (@svds numpy_stable I3 1 (np_random world_even)) =
  Ok ([[1]; [0]; [0]]%Q, [1%Q], [[1; 0; 0]]%Q) /\
  fst (@svds numpy_stable I3 1 (np_random world0)) =
  Ok ([[0]; [1]; [0]]%Q, [1%Q], [[0; 1; 0]]%Q) /\
  fst (@do_CUR numpy_stable I3 1 "sample" false 10 true world_even) =
  Ok [0] /\
  fst (@do_CUR numpy_stable I3 1 "sample" false 10 true world0) = Ok [1].
Proof. repeat split; vm_compute; reflexivity. Qed.

Lemma stochastic_selection_matches_reference_witness :
  fst (@do_CUR numpy_stable X43 2 "sample" false 10 true world0) =
  @reference_stochastic numpy_stable X43 2 "sample" 10 (np_random world0).
Proof.
  apply (@stochastic_selection_matches_reference
           numpy_stable numpy_stable_contract
           X43 2 "sample" 10 true world0).
  - exact X43_is_matrix.
  - exact X43_budget_2.
  - left. reflexivity.
Defined.

Lemma deterministic_selection_descending_weight_witness :
  exists U s VT g1 ws sel w',
    @svds numpy_stable X43 2 (np_random world0) = (Ok (U, s, VT), g1) /\
    leverage_weights "sample" U VT = Some ws /\
    @do_CUR numpy_stable X43 2 "sample" true 10 true world0 =
    (Ok sel, w') /\
    sel = firstn (Z.to_nat 2) (@np_argsort numpy_stable (np_neg ws)) /\
    length sel = Z.to_nat 2 /\
    StronglySorted (fun i j => (key_of ws j <= key_of ws i)%Q) sel /\
    (forall i j, In i sel -> j < length ws -> ~ In j sel ->
                 (key_of ws j <= key_of ws i)%Q).
Proof.
  apply (@deterministic_selection_descending_weight
           numpy_stable numpy_stable_contract
           X43 2 "sample" 10 true world0).
  - exact X43_is_matrix.
  - exact X43_budget_2.
  - left. reflexivity.
Defined.

(** C4, the tie order.  [X25] has rank one; its singular value is 49
    and its left singular vector has the entry 1/49 for row 0 and 10/49
    for each of the rows 1 to 24, which therefore have the same, and the
    largest, weight.  [np.argsort] with the default kind is numpy's
    quicksort; on the 25 negated weights its first median-of-three
    partition brings index 12 to the front, and with budget 1 the
    deterministic selection is row 12, not row 1. *)
Lemma deterministic_ties_follow_quicksort :
  singular_triplets X25 U25 [49%Q] [[1; 0]]%Q = true /\
  fst (@svds numpy_quicksort X25 1 (np_random world_quicksort)) =
  Ok (U25, [49%Q], [[1; 0]]%Q) /\
  (exists ws,
      leverage_weights "sample" U25 [[1; 0]]%Q = Some ws /\
      key_of ws 1 = key_of ws 12 /\
      (key_of ws 0 < key_of ws 1)%Q) /\
  fst (@do_CUR numpy_quicksort X25 1 "sample" true 10 true world_quicksort) =
  Ok [12].
Proof.
  split; [vm_compute; reflexivity |].
  split; [vm_compute; reflexivity |].
  split; [| vm_compute; reflexivity].
  eexists. split; [reflexivity |]. split; vm_compute; reflexivity.
Qed.

Lemma selection_leaves_generator_seeded_witness :
  exists gs sel w',
    @np_random_seed numpy_stable 10 = Ok gs /\
    @do_CUR numpy_stable X43 2 "sample" false 10 true world0 = (Ok sel, w') /\
    np_random w' =
    snd (@np_random_rand numpy_stable (axis_length "sample" X43) gs).
Proof.
  apply (@selection_leaves_generator_seeded
           numpy_stable numpy_stable_contract
           X43 2 "sample" 10 true world0).
  - exact X43_is_matrix.
  - exact X43_budget_2.
  - left. reflexivity.
  - lia.
Defined.

(** C6, the global generator.  A stochastic selection on [X43] with
    seed 10 leaves the process-wide generator in the state that four
    draws from the seed 10 lead to, which is another state than it found
    it in, and the next variate drawn from it elsewhere is another
    one. *)
Lemma stochastic_selection_moves_global_generator :
  @np_random_seed numpy_stable 10 = Ok 10%Z /\
  np_random (snd (@do_CUR numpy_stable X43 2 "sample" false 10 false world0))
  = snd (@np_random_rand numpy_stable 4 10%Z) /\
  np_random (snd (@do_CUR numpy_stable X43 2 "sample" false 10 false world0))
  <> np_random world0 /\
  fst (@np_random_rand numpy_stable 1
         (np_random
            (snd (@do_CUR numpy_stable X43 2 "sample" false 10 false world0))))
  <> fst (@np_random_rand numpy_stable 1 (np_random world0)).
Proof.
  split; [reflexivity |]. split; [vm_compute; reflexivity |].
  split; vm_compute; discriminate.
Qed.
End Instances.

Section FilterInstances.
Import Fixture FixtureFacts.
Local Open Scope string_scope.
Local Open Scope Z_scope.



(** Two species with the rows of [X33], budget 1 each, seed 10. *)
Lemma species_selection_from_seed_and_own_weights_witness :
  exists X_by_sp by_sp,
    _XX (fst (fst (@fit numpy_stable rascal
                        (new_filter (NDict [(1, 1); (6, 1)])
                                    "sample per species" false 10)
                        atoms_twins world0))) = Some X_by_sp /\
    selected_sample_ids_by_sp
      (fst (fst (@fit numpy_stable rascal
                      (new_filter (NDict [(1, 1); (6, 1)])
                                  "sample per species" false 10)
                      atoms_twins world0))) = Some by_sp /\
    (forall sp, In sp (dict_keys [(1, 1); (6, 1)]) ->
       exists Xsp n sel g g1 U s VT gs,
         dict_get Z.eqb X_by_sp sp = Some Xsp /\
         dict_get Z.eqb [(1, 1); (6, 1)] sp = Some n /\
         dict_get Z.eqb by_sp sp = Some sel /\
         @svds numpy_stable Xsp n g = (Ok (U, s, VT), g1) /\
         @np_random_seed numpy_stable 10 = Ok gs /\
         sel = firstn (Z.to_nat n)
                      (@np_argsort numpy_stable
                         (np_sub (fst (@np_random_rand numpy_stable
                                         (nrows Xsp) gs))
                                 (np_mean_axis1 (np_square U))))) /\
    (forall sp1 sp2 Xsp n,
        In sp1 (dict_keys [(1, 1); (6, 1)]) ->
        In sp2 (dict_keys [(1, 1); (6, 1)]) ->
        dict_get Z.eqb X_by_sp sp1 = Some Xsp ->
        dict_get Z.eqb X_by_sp sp2 = Some Xsp ->
        dict_get Z.eqb [(1, 1); (6, 1)] sp1 = Some n ->
        dict_get Z.eqb [(1, 1); (6, 1)] sp2 = Some n ->
        (forall ga ga' Ua sa VTa gb gb' Ub sb VTb,
            @svds numpy_stable Xsp n ga = (Ok (Ua, sa, VTa), ga') ->
            @svds numpy_stable Xsp n gb = (Ok (Ub, sb, VTb), gb') ->
            np_mean_axis1 (np_square Ua) = np_mean_axis1 (np_square Ub)) ->
        dict_get Z.eqb by_sp sp1 = dict_get Z.eqb by_sp sp2) /\
    (dict_keys [(1, 1); (6, 1)] <> [] ->
     exists gs n,
       @np_random_seed numpy_stable 10 = Ok gs /\
       np_random
         (snd (@fit numpy_stable rascal
                    (new_filter (NDict [(1, 1); (6, 1)])
                                "sample per species" false 10)
                    atoms_twins world0)) =
       snd (@np_random_rand numpy_stable n gs)).
Proof.
  apply (@species_selection_from_seed_and_own_weights
           numpy_stable rascal numpy_stable_contract
           (new_filter (NDict [(1, 1); (6, 1)]) "sample per species" false 10)
           _ atoms_twins world0
           (snd (@fit numpy_stable rascal
                      (new_filter (NDict [(1, 1); (6, 1)])
                                  "sample per species" false 10)
                      atoms_twins world0))
           [(1, 1); (6, 1)]).
  - reflexivity.
  - reflexivity.
  - reflexivity.
  - reflexivity.
Defined.

(** C9, species with equal rows.  The rows of species 1 and of species
    6 are those of the identity, and both budgets are 1.  The
    decomposition for species 1 runs in the state in which [fit] was
    called, the one for species 6 in the state that the selection of
    species 1 left; the solver returns the first unit vector in the one
    and the second in the other, both of them singular vectors, and the
    two species get different selections. *)
Lemma species_with_equal_rows_selected_differently :
  snd (fst (@fit numpy_stable rascal
              (new_filter (NDict [(1, 1); (6, 1)]) "sample per species"
                          false 10)
              atoms_identity_twins world_even)) = Ok tt /\
  _XX (fst (fst (@fit numpy_stable rascal
                   (new_filter (NDict [(1, 1); (6, 1)])
                               "sample per species" false 10)
                   atoms_identity_twins world_even))) =
  Some [(1, I3); (6, I3)] /\
  selected_sample_ids_by_sp
    (fst (fst (@fit numpy_stable rascal
                 (new_filter (NDict [(1, 1); (6, 1)])
                             "sample per species" false 10)
                 atoms_identity_twins world_even))) =
  Some [(1, [0%nat]); (6, [1%nat])] /\
  singular_triplets I3 [[1]; [0]; [0]]%Q [1%Q] [[1; 0; 0]]%Q = true /\
  singular_triplets I3 [[0]; [1]; [0]]%Q [1%Q] [[0; 1; 0]]%Q = true.
Proof. repeat split; vm_compute; reflexivity. Qed.

Lemma restored_filter_transforms_alike_witness :
  exists y,
    @restore_from rascal
      (fitted_filter (NInt 2) "feature" None None (Some [2; 0]%nat)) = Ok y /\
    _get_data y =
    _get_data (fitted_filter (NInt 2) "feature" None None (Some [2; 0]%nat)) /\
    forall managers n_select,
      snd (@transform numpy_stable rascal y managers n_select) =
      snd (@transform numpy_stable rascal
             (fitted_filter (NInt 2) "feature" None None (Some [2; 0]%nat))
             managers n_select).
Proof.
  apply (@restored_filter_transforms_alike numpy_stable rascal
           (fitted_filter (NInt 2) "feature" None None (Some [2; 0]%nat))).
  simpl. right. right. left. reflexivity.
Defined.
End FilterInstances.

Section TransformInstances.
Import Fixture FixtureFacts.
#[local] Existing Instance numpy_stable.
#[local] Existing Instance rascal.
Local Open Scope string_scope.
Local Open Scope Z_scope.

Lemma twins_keys_NoDup :
  NoDup (dict_keys [(1, [2; 0]%nat); (6, [1; 0]%nat)]).
Proof. repeat constructor; simpl; intuition discriminate. Defined.

(** Mode 'sample' with budget 1 after an earlier call, and mode
    'sample per species' with budgets 1 and 2. *)
Lemma transform_truncates_cached_selection_witness :
  @transform numpy_stable rascal
    (transform_many
       (fitted_filter (NInt 2) "sample" (Some [3; 1]%nat) None None)
       [(atoms43, Some (NInt 2))])
    atoms43 (Some (NInt 1)) =
  remap_samples
    (transform_many
       (fitted_filter (NInt 2) "sample" (Some [3; 1]%nat) None None)
       [(atoms43, Some (NInt 2))])
    atoms43 (np_sort (firstn (Z.to_nat 1) [3; 1]%nat)) /\
  exists selected_ids_by_sp,
    @transform numpy_stable rascal
      (transform_many
         (fitted_filter (NDict [(1, 2); (6, 2)]) "sample per species" None
                        (Some [(1, [2; 0]%nat); (6, [1; 0]%nat)]) None)
         [])
      atoms_twins (Some (NDict [(1, 1); (6, 2)])) =
    remap_by_species
      (transform_many
         (fitted_filter (NDict [(1, 2); (6, 2)]) "sample per species" None
                        (Some [(1, [2; 0]%nat); (6, [1; 0]%nat)]) None)
         [])
      atoms_twins (dict_keys [(1, 1); (6, 2)]) tt tt selected_ids_by_sp /\
    dict_keys selected_ids_by_sp =
    dict_keys [(1, [2; 0]%nat); (6, [1; 0]%nat)] /\
    forall sp val,
      dict_get Z.eqb [(1, [2; 0]%nat); (6, [1; 0]%nat)] sp = Some val ->
      exists k, dict_get Z.eqb [(1, 1); (6, 2)] sp = Some k /\
                dict_get Z.eqb selected_ids_by_sp sp =
                Some (np_sort (firstn (Z.to_nat k) val)).
Proof.
  split.
  - apply (proj1 (@transform_truncates_cached_selection
                    numpy_stable rascal
                    (fitted_filter (NInt 2) "sample" (Some [3; 1]%nat)
                                   None None)
                    [(atoms43, Some (NInt 2))] atoms43)
                 [3; 1]%nat 1).
    + reflexivity.
    + reflexivity.
    + lia.
  - apply (proj1 (proj2 (@transform_truncates_cached_selection
                           numpy_stable rascal
                           (fitted_filter (NDict [(1, 2); (6, 2)])
                                          "sample per species" None
                                          (Some [(1, [2; 0]%nat);
                                                 (6, [1; 0]%nat)]) None)
                           [] atoms_twins))
                 [(1, [2; 0]%nat); (6, [1; 0]%nat)] [(1, 1); (6, 2)]
                 tt tt tt (indices_by_species atoms_twins [1; 6])).
    + reflexivity.
    + reflexivity.
    + exact twins_keys_NoDup.
    + intros sp [<- | [<- | []]]; eexists; (split; [reflexivity | lia]).
    + reflexivity.
Defined.

End TransformInstances.
(** * Further properties of the code *)

(** ** The constructor and the axes of [do_CUR] *)

(** [__init__] accepts exactly the three modes, raises [ValueError] for
    any other [act_on], and leaves all four selections unset. *)
Theorem CURFilter_init_validates {R : Rascal}
        (representation : Calculator) (n : nselect) (mode : string)
        (deterministic : bool) (s : Z) :
  match CURFilter_init representation n mode deterministic s with
  | inr self =>
      In mode ["sample"; "sample per species"; "feature"]%string /\
      _representation self = representation /\
      Nselect self = n /\ act_on self = mode /\
      is_deterministic self = deterministic /\ seed self = s /\
      selected_ids self = None /\
      selected_sample_ids self = None /\
      selected_sample_ids_by_sp self = None /\
      selected_feature_ids_global self = None
  | inl e =>
      e = ValueError /\
      ~ In mode ["sample"; "sample per species"; "feature"]%string
  end.
Proof.
  unfold CURFilter_init.
  destruct (existsb (String.eqb mode)
                    ["sample"; "sample per species"; "feature"]%string)
    eqn:Hmode.
  - apply existsb_exists in Hmode. destruct Hmode as (m & Hin & Heq).
    apply String.eqb_eq in Heq. subst m.
    simpl. repeat split; try reflexivity. exact Hin.
  - split; [reflexivity |]. intros Hin.
    assert (Htrue : existsb (String.eqb mode)
                      ["sample"; "sample per species"; "feature"]%string
                    = true).
    { apply existsb_exists. exists mode.
      split; [exact Hin | apply String.eqb_refl]. }
    congruence.
Qed.

Section AxisTheorems.
Context {N : NumPy}.
Local Open Scope string_scope.

(** An [act_on] that mentions 'sample' anywhere selects on the sample
    axis, also when it mentions 'feature' as well: the call does what it
    does for 'sample', result and process state alike.  This is how
    'sample per species' reaches the row selection. *)
Theorem do_CUR_sample_by_substring
        (X : matrix) (Nsel : Z) (act_on : string) (is_deterministic : bool)
        (seed : Z) (verbose : bool) (w : world) :
  contains "sample" act_on = true ->
  do_CUR X Nsel act_on is_deterministic seed verbose w =
  do_CUR X Nsel "sample" is_deterministic seed verbose w.
Proof.
  intros Hs. unfold do_CUR, leverage_weights, reconstruction_error.
  rewrite Hs.
  change (contains "sample" "sample") with true.
  reflexivity.
Qed.

(** When [act_on] names neither axis and the rank is one that [svds]
    accepts, [do_CUR] fails after the decomposition.  In deterministic
    mode it fails on the unbound [weights], with the generator as the
    decomposition left it.  In stochastic mode the generator is seeded
    first: when [np.random.seed] raises, the call fails with that
    exception, and otherwise it fails on the unbound [weights] with the
    generator seeded. *)
Theorem do_CUR_unknown_axis {C : NumPyContract N}
        (X : matrix) (Nsel : Z) (act_on : string)
        (seed : Z) (verbose : bool) (w : world) :
  (1 <= Nsel < Z.of_nat (Nat.min (nrows X) (ncols X)))%Z ->
  contains "sample" act_on = false ->
  contains "feature" act_on = false ->
  exists U s VT g1,
    svds X Nsel (np_random w) = (Ok (U, s, VT), g1) /\
    do_CUR X Nsel act_on true seed verbose w =
    (Raise UnboundLocalError, {| np_random := g1; stdout := stdout w |}) /\
    do_CUR X Nsel act_on false seed verbose w =
    match np_random_seed seed with
    | inl e => (Raise e, {| np_random := g1; stdout := stdout w |})
    | inr gs =>
        (Raise UnboundLocalError, {| np_random := gs; stdout := stdout w |})
    end.
Proof.
  intros Hk Hs Hf.
  destruct (svds_shapes X Nsel (np_random w) Hk)
    as (U & s & VT & g1 & Hsvd & _).
  exists U, s, VT, g1. split; [exact Hsvd |]. split.
  - unfold do_CUR, bind, svds_global, leverage_weights.
    rewrite Hsvd, Hs, Hf. reflexivity.
  - unfold do_CUR, bind, svds_global, leverage_weights, seed_global.
    rewrite Hsvd, Hs, Hf. simpl.
    destruct (np_random_seed seed); reflexivity.
Qed.

(** The diagnostic is computed after the selection and only printed:
    with [verbose] the call returns the same indices and leaves the
    generator in the same state as without, and the output has one more
    line, the reconstruction error. *)
Theorem diagnostics_leave_selection {C : NumPyContract N}
        (X : matrix) (Nsel : Z) (act_on : string) (is_deterministic : bool)
        (seed : Z) (w : world) :
  is_matrix X ->
  (1 <= Nsel < Z.of_nat (Nat.min (nrows X) (ncols X)))%Z ->
  contains "sample" act_on = true \/ contains "feature" act_on = true ->
  is_deterministic = true \/ (0 <= seed < 4294967296)%Z ->
  exists sel w0 err,
    do_CUR X Nsel act_on is_deterministic seed false w = (Ok sel, w0) /\
    do_CUR X Nsel act_on is_deterministic seed true w =
    (Ok sel, {| np_random := np_random w0;
                stdout := stdout w0 ++ [ReconstructionRMSE err] |}).
Proof.
  intros HX Hk Haxis Hseed.
  assert (Haxis' : contains "sample" act_on = true \/
                   (contains "feature" act_on = true /\ is_matrix X)).
  { destruct Haxis as [H | H]; [now left | right; now split]. }
  destruct (do_CUR_selects X Nsel act_on is_deterministic seed false w Hk
                           Haxis' Hseed)
    as (U & s & VT & g1 & ws & keys & g_end & Hsvd & Hws & Hlen & Hkeysdef
        & Hkeys & Hle & _).
  pose proof (do_CUR_unfold X Nsel act_on is_deterministic seed false w
                            U VT s ws keys g1 g_end Hsvd Hws Hkeysdef)
    as Hoff.
  pose proof (do_CUR_unfold X Nsel act_on is_deterministic seed true w
                            U VT s ws keys g1 g_end Hsvd Hws Hkeysdef)
    as Hon.
  cbv zeta in Hoff, Hon. cbv iota in Hoff, Hon.
  rewrite slice_to_nonneg in Hoff, Hon by lia.
  destruct (argsort_prefix _ _ Hle) as (_ & _ & Hvalid & _).
  assert (Hvalid' : Forall (fun i => i < axis_length act_on X)
                           (firstn (Z.to_nat Nsel) (np_argsort keys))).
  { eapply Forall_impl; [| exact Hvalid].
    intros i Hi. cbv beta in Hi. rewrite Hkeys, Hlen in Hi. exact Hi. }
  match type of Hon with
  | context [reconstruction_error ?a ?x ?sel ?w1] =>
      destruct (reconstruction_error_ok a x sel w1 Haxis' Hvalid')
        as [err Herr]
  end.
  rewrite Herr in Hon.
  do 3 eexists. split; [exact Hoff | exact Hon].
Qed.
End AxisTheorems.

(** ** More on [fit] *)

Section MoreFit.
Context {N : NumPy} {R : Rascal}.
Local Open Scope string_scope.

(** What a call that returns has returned: as many distinct candidates
    as the budget. *)
Lemma do_CUR_ok_shape {C : NumPyContract N}
      (X : matrix) (Nsel : Z) (act_on : string) (is_deterministic : bool)
      (seed : Z) (verbose : bool) (w w' : world) (sel : index_array) :
  contains "sample" act_on = true \/
  (contains "feature" act_on = true /\ is_matrix X) ->
  do_CUR X Nsel act_on is_deterministic seed verbose w = (Ok sel, w') ->
  length sel = Z.to_nat Nsel /\
  NoDup sel /\
  Forall (fun i => i < axis_length act_on X) sel.
Proof.
  intros Haxis Hrun.
  pose proof (do_CUR_ok_rank _ _ _ _ _ _ _ _ _ Hrun) as Hk.
  assert (Hseed : is_deterministic = true \/ (0 <= seed < 4294967296)%Z).
  { destruct is_deterministic; [now left | right].
    destruct (do_CUR_stochastic_inv _ _ _ _ _ _ _ _ Hrun)
      as (_ & _ & _ & _ & gs & _ & _ & Hgs & _).
    destruct (Z_le_dec 0 seed) as [Hlo | Hlo];
      [destruct (Z_lt_dec seed 4294967296) as [Hhi | Hhi] |].
    - now split.
    - rewrite seed_rejects in Hgs by lia. discriminate.
    - rewrite seed_rejects in Hgs by lia. discriminate. }
  destruct (do_CUR_selects X Nsel act_on is_deterministic seed verbose w
              Hk Haxis Hseed)
    as (U & s & VT & g1 & ws & keys & g_end & _ & _ & Hlen & _ & Hkeys & Hle
        & w2 & Hsel & _).
  rewrite Hsel in Hrun. injection Hrun as <- _.
  destruct (argsort_prefix _ _ Hle) as (Hl & Hnd & Hvalid & _).
  split; [exact Hl |]. split; [exact Hnd |].
  eapply Forall_impl; [| exact Hvalid].
  intros i Hi. cbv beta in Hi. now rewrite Hkeys, Hlen in Hi.
Qed.

(** The pass over the species succeeds when [svds] accepts every
    budget. *)
Lemma select_by_species_runs {C : NumPyContract N}
      (X_by_sp : dict Z matrix) (d : dict Z Z) (sps : list Z) :
  (forall sp, In sp sps ->
     exists Xsp n,
       dict_get Z.eqb X_by_sp sp = Some Xsp /\
       dict_get Z.eqb d sp = Some n /\
       (1 <= n < Z.of_nat (Nat.min (nrows Xsp) (ncols Xsp)))%Z) ->
  forall (self : CURFilter) (w : world) (by0 : dict Z index_array),
    Nselect self = NDict d ->
    selected_sample_ids_by_sp self = Some by0 ->
    contains "sample" (act_on self) = true ->
    is_deterministic self = true \/ (0 <= seed self < 4294967296)%Z ->
    exists self' w', select_by_species self X_by_sp sps w = (self', Ok tt, w').
Proof.
  induction sps as [| sp sps IH]; intros Hall self w by0 HN Hby Hact Hseed.
  - simpl. eauto.
  - cbn [select_by_species].
    destruct (Hall sp) as (Xsp & n & HX & Hn & Hvalid); [now left |].
    rewrite HX, HN, Hn.
    destruct (do_CUR_selects Xsp n (act_on self) (is_deterministic self)
                (seed self) true (snd (print (SelectingSpecies sp) w))
                Hvalid (or_introl Hact) Hseed)
      as (U & s & VT & g1 & ws & keys & g_end & _ & _ & _ & _ & _ & _
          & w2 & Hsel & _).
    rewrite Hsel. unfold Ok at 1. rewrite Hby.
    eapply IH; try reflexivity; try assumption.
    intros sp' Hin. apply Hall. now right.
Qed.

(** In modes 'sample' and 'feature', with a budget that [svds] accepts
    and, in stochastic mode, a seed that the generator accepts, [fit]
    succeeds and assigns the attribute of its mode, and only that one:
    [Nselect] distinct indices of rows, or of columns, of the feature
    matrix. *)
Theorem fit_stores_selection {C : NumPyContract N}
        (self : CURFilter) (managers : AtomsList) (w : world)
        (X : matrix) (n : Z) :
  get_features managers (_representation self) = Ok X ->
  is_matrix X ->
  act_on self = "sample" \/ act_on self = "feature" ->
  Nselect self = NInt n ->
  (1 <= n < Z.of_nat (Nat.min (nrows X) (ncols X)))%Z ->
  is_deterministic self = true \/ (0 <= seed self < 4294967296)%Z ->
  exists sel w',
    fit self managers w =
    ((if act_on self =? "sample"
      then set_selected_sample_ids self (Some sel)
      else set_selected_feature_ids_global self (Some sel)), Ok tt, w') /\
    length sel = Z.to_nat n /\
    NoDup sel /\
    Forall (fun i => i < (if act_on self =? "sample"
                          then nrows X else ncols X)) sel.
Proof.
  intros HX Hm Hmode HN Hk Hseed.
  assert (Haxis : contains "sample" (act_on self) = true \/
                  (contains "feature" (act_on self) = true /\ is_matrix X)).
  { destruct Hmode as [-> | ->]; [now left | right; now split]. }
  destruct (do_CUR_selects X n (act_on self) (is_deterministic self)
              (seed self) true w Hk Haxis Hseed)
    as (U & s & VT & g1 & ws & keys & g_end & _ & _ & Hlen & _ & Hkeys & Hle
        & w' & Hrun & _).
  destruct (argsort_prefix _ _ Hle) as (Hl & Hnd & Hvalid & _).
  eexists. exists w'. split; [| split; [exact Hl | split; [exact Hnd |]]].
  - unfold fit. rewrite HX. unfold Ok at 1.
    destruct Hmode as [Hmode | Hmode]; rewrite Hmode in *;
      simpl String.eqb; cbv iota; rewrite HN; simpl int_budget;
      unfold Ok at 1; rewrite Hrun; reflexivity.
  - eapply Forall_impl; [| exact Hvalid].
    intros i Hi. cbv beta in Hi. rewrite Hkeys, Hlen in Hi.
    unfold axis_length in Hi.
    destruct Hmode as [Hmode | Hmode]; rewrite Hmode in *; exact Hi.
Qed.

(** In mode 'sample per species', when [svds] accepts the budget of every
    species on that species' rows and, in stochastic mode, the generator
    accepts the seed, [fit] succeeds; the cache then holds exactly the
    species of the budget mapping, and for each of them as many distinct
    row indices of its own sub-matrix as its budget. *)
Theorem fit_per_species_selects {C : NumPyContract N}
        (self : CURFilter) (managers : AtomsList) (w : world)
        (X : matrix) (d : dict Z Z)
        (strides : strides_by_sp_t) (counter : global_counter_by_sp_t)
        (mbm : map_by_manager_sp_t) (idx : dict Z index_array)
        (X_by_sp : dict Z matrix) :
  act_on self = "sample per species" ->
  Nselect self = NDict d ->
  get_features managers (_representation self) = Ok X ->
  get_index_mappings_sample_per_species managers (dict_keys d) =
  Ok (strides, counter, mbm, idx) ->
  split_by_species X idx (dict_keys d) [] = Ok X_by_sp ->
  (forall sp, In sp (dict_keys d) ->
     exists Xsp n,
       dict_get Z.eqb X_by_sp sp = Some Xsp /\
       dict_get Z.eqb d sp = Some n /\
       (1 <= n < Z.of_nat (Nat.min (nrows Xsp) (ncols Xsp)))%Z) ->
  is_deterministic self = true \/ (0 <= seed self < 4294967296)%Z ->
  exists self' w' by_sp,
    fit self managers w = (self', Ok tt, w') /\
    selected_sample_ids_by_sp self' = Some by_sp /\
    _XX self' = Some X_by_sp /\
    (forall k, In k (dict_keys by_sp) <-> In k (dict_keys d)) /\
    (forall sp Xsp n,
        In sp (dict_keys d) ->
        dict_get Z.eqb X_by_sp sp = Some Xsp ->
        dict_get Z.eqb d sp = Some n ->
        exists sel,
          dict_get Z.eqb by_sp sp = Some sel /\
          length sel = Z.to_nat n /\
          NoDup sel /\
          Forall (fun i => i < nrows Xsp) sel).
Proof.
  intros Hmode HN HX Hmap Hsplit Hall Hseed.
  assert (Hact : contains "sample" (act_on (start_species_fit self X_by_sp))
                 = true).
  { simpl. now rewrite Hmode. }
  destruct (select_by_species_runs X_by_sp d (dict_keys d) Hall
              (start_species_fit self X_by_sp)
              (snd (print (NumberOfPseudoPoints d) w)) [] HN eq_refl Hact
              Hseed)
    as (self' & w' & Hrun).
  destruct (select_by_species_cached X_by_sp d (dict_keys d)
              (start_species_fit self X_by_sp) self'
              (snd (print (NumberOfPseudoPoints d) w)) w' []
              HN eq_refl Hrun)
    as (by_sp & Hby & HXX & Hin & Hout & _).
  exists self', w', by_sp.
  split; [| split; [exact Hby | split; [exact HXX | split]]].
  - unfold fit. rewrite HX. unfold Ok at 1.
    rewrite Hmode, String.eqb_refl, HN, Hmap. unfold Ok at 1.
    rewrite Hsplit. unfold Ok at 1. exact Hrun.
  - intros k. split; intros Hk.
    + destruct (in_dec Z.eq_dec k (dict_keys d)) as [Hmem | Hnot];
        [exact Hmem |].
      apply dict_get_keys in Hk. rewrite (Hout k Hnot) in Hk.
      simpl in Hk. congruence.
    + apply dict_get_keys.
      destruct (Hin k Hk) as (Xsp & n & sel & _ & _ & _ & _ & Hsel & _).
      congruence.
  - intros sp Xsp n Hmem HXsp Hn.
    destruct (Hin sp Hmem)
      as (Xsp' & n' & sel & w0 & w1 & HXsp' & Hn' & Hsel & Hdo).
    assert (Xsp' = Xsp) by congruence. assert (n' = n) by congruence.
    subst Xsp' n'.
    destruct (do_CUR_ok_shape _ _ _ _ _ _ _ _ _ (or_introl Hact) Hdo)
      as (Hl & Hnd & Hvalid).
    exists sel. split; [exact Hsel |]. split; [exact Hl |].
    split; [exact Hnd |].
    unfold axis_length in Hvalid. rewrite Hact in Hvalid. exact Hvalid.
Qed.
End MoreFit.

(** ** [fit_transform] and the modes *)

Section ModeTheorems.
Context {N : NumPy} {R : Rascal}.
Local Open Scope string_scope.

(** After a successful 'sample per species' [fit], [_XX] holds for each
    species of the budget mapping the rows of the feature matrix at the
    positions the index helper lists for it, in that order. *)
Theorem fit_splits_matrix_by_species
        (self self' : CURFilter) (managers : AtomsList) (w w' : world)
        (X : matrix) (d : dict Z Z)
        (strides : strides_by_sp_t) (counter : global_counter_by_sp_t)
        (mbm : map_by_manager_sp_t) (idx : dict Z index_array) :
  act_on self = "sample per species" ->
  Nselect self = NDict d ->
  get_features managers (_representation self) = Ok X ->
  get_index_mappings_sample_per_species managers (dict_keys d) =
  Ok (strides, counter, mbm, idx) ->
  fit self managers w = (self', Ok tt, w') ->
  exists X_by_sp,
    _XX self' = Some X_by_sp /\
    forall sp, In sp (dict_keys d) ->
      exists rows Xsp,
        dict_get Z.eqb idx sp = Some rows /\
        dict_get Z.eqb X_by_sp sp = Some Xsp /\
        Forall2 (fun i row => nth_error X i = Some row) rows Xsp.
Proof.
  intros Hmode HN HX Hmap Hfit.
  unfold fit in Hfit. rewrite HX in Hfit. unfold Ok at 1 in Hfit.
  rewrite Hmode, String.eqb_refl, HN, Hmap in Hfit. unfold Ok at 1 in Hfit.
  destruct (split_by_species X idx (dict_keys d) []) as [e | X_by_sp]
    eqn:Hsplit; [discriminate |].
  apply select_by_species_cached with (d := d) (by0 := []) in Hfit;
    [| exact HN | reflexivity].
  destruct Hfit as (by_sp & _ & HXX & _).
  exists X_by_sp. split; [exact HXX |].
  intros sp Hmem.
  destruct (split_by_species_rows X idx (dict_keys d) [] X_by_sp Hsplit)
    as (Hin & _).
  destruct (Hin sp Hmem) as (rows & Xsp & Hrows & Htake & Hget).
  exists rows, Xsp. split; [exact Hrows |]. split; [exact Hget |].
  now apply take_rows.
Qed.

(** A species of the budget mapping for which the index helper lists no
    entry makes [fit] fail with [KeyError] while the matrix is split: the
    filter is as before the call, its cache is not reset, and only the
    headline has been printed. *)
Theorem fit_unlisted_species_KeyError
        (self : CURFilter) (managers : AtomsList) (w : world)
        (X : matrix) (d : dict Z Z) (sp : Z)
        (strides : strides_by_sp_t) (counter : global_counter_by_sp_t)
        (mbm : map_by_manager_sp_t) (idx : dict Z index_array) :
  act_on self = "sample per species" ->
  Nselect self = NDict d ->
  get_features managers (_representation self) = Ok X ->
  get_index_mappings_sample_per_species managers (dict_keys d) =
  Ok (strides, counter, mbm, idx) ->
  (forall sp' rows, dict_get Z.eqb idx sp' = Some rows ->
                    Forall (fun i => i < nrows X) rows) ->
  In sp (dict_keys d) ->
  dict_get Z.eqb idx sp = None ->
  fit self managers w =
  (self, Raise KeyError, snd (print (NumberOfPseudoPoints d) w)).
Proof.
  intros Hmode HN HX Hmap Hrange Hmem Hnone.
  unfold fit. rewrite HX. unfold Ok at 1.
  rewrite Hmode, String.eqb_refl, HN, Hmap. unfold Ok at 1.
  now rewrite (split_by_species_missing X idx sp (dict_keys d)
                 Hrange Hmem Hnone []).
Qed.


(** With an [act_on] that is none of the three modes (the attribute
    changed after construction), [fit] raises [ValueError] once it has the
    features, whereas [transform] has no such branch: it returns [None],
    raises nothing and leaves the filter as it is. *)
Theorem unknown_mode_fit_raises_transform_returns_None
        (self : CURFilter) (managers : AtomsList) (w : world) (X : matrix)
        (n_select : option nselect) :
  ~ In (act_on self) ["sample"; "sample per species"; "feature"] ->
  get_features managers (_representation self) = Ok X ->
  fit self managers w = (self, Raise ValueError, w) /\
  transform self managers n_select = (self, Ok ReturnsNone).
Proof.
  intros Hmode HX.
  assert (H1 : (act_on self =? "sample") = false).
  { apply String.eqb_neq. intros E. apply Hmode. rewrite E. simpl. tauto. }
  assert (H2 : (act_on self =? "sample per species") = false).
  { apply String.eqb_neq. intros E. apply Hmode. rewrite E. simpl. tauto. }
  assert (H3 : (act_on self =? "feature") = false).
  { apply String.eqb_neq. intros E. apply Hmode. rewrite E. simpl. tauto. }
  split.
  - unfold fit. rewrite HX. unfold Ok at 1. now rewrite H1, H2, H3.
  - unfold transform. now rewrite H1, H2, H3.
Qed.

(** [transform] on a filter without cached selections (no [fit], no
    [_set_data]) raises in each of the three modes, whatever the budget
    and whatever the helpers return, and leaves the filter as it is. *)
Theorem transform_unfitted_raises
        (self : CURFilter) (managers : AtomsList) (n_select : option nselect) :
  In (act_on self) ["sample"; "sample per species"; "feature"] ->
  selected_sample_ids self = None ->
  selected_sample_ids_by_sp self = None ->
  selected_feature_ids_global self = None ->
  exists e, transform self managers n_select = (self, Raise e).
Proof.
  intros Hmode Hs Hsp Hf. unfold transform.
  rewrite Hs, Hsp, Hf.
  destruct Hmode as [<- | [<- | [<- | []]]]; simpl String.eqb; cbv iota.
  - unfold truncate_samples. eexists. reflexivity.
  - destruct_matches; eexists; reflexivity.
  - destruct_matches; eexists; reflexivity.
Qed.

(** In mode 'sample per species' an override that has no budget for a
    cached species raises [KeyError] (the comprehension reads
    [n_select[key]] for every cached key); the filter is unchanged. *)
Theorem transform_override_must_cover_cache
        (self : CURFilter) (managers : AtomsList)
        (cached : dict Z index_array) (ns : dict Z Z) (sp : Z)
        (strides : strides_by_sp_t) (counter : global_counter_by_sp_t)
        (mbm : map_by_manager_sp_t) (idx : dict Z index_array) :
  act_on self = "sample per species" ->
  selected_sample_ids_by_sp self = Some cached ->
  get_index_mappings_sample_per_species managers (dict_keys ns) =
  Ok (strides, counter, mbm, idx) ->
  In sp (dict_keys cached) ->
  dict_get Z.eqb ns sp = None ->
  transform self managers (Some (NDict ns)) = (self, Raise KeyError).
Proof.
  intros Hmode Hcache Hmap Hmem Hnone.
  assert (Hrun : forall acc, truncate_by_species ns cached acc = Raise KeyError).
  { clear Hcache. induction cached as [| [key val] cached IH]; intros acc;
      [destruct Hmem |].
    simpl. destruct (dict_get Z.eqb ns key) as [k |] eqn:Hk; [| reflexivity].
    apply IH. destruct Hmem as [E | Hmem]; [| exact Hmem].
    simpl in E. subst key. congruence. }
  unfold transform. rewrite Hmode. simpl String.eqb. cbv iota.
  rewrite Hmap. unfold Ok at 1. rewrite Hcache, Hrun. reflexivity.
Qed.

(** [_get_data] and [_set_data] are inverse to each other: the state
    written is the state read back, and writing a filter's own state
    changes nothing. *)
Theorem data_round_trip (self : CURFilter) (data : state_data) :
  _get_data (_set_data self data) = data /\
  _set_data self (_get_data self) = self /\
  _get_init_params (_set_data self data) = _get_init_params self.
Proof.
  destruct self, data. repeat split; reflexivity.
Qed.
End ModeTheorems.

(** ** [transform] in mode 'feature' *)

Section DictFacts2.
Context {K V : Type} (eqb : K -> K -> bool).
Hypothesis eqb_eq : forall a b, eqb a b = true <-> a = b.

Lemma dict_get_in_keys (d : dict K V) (k : K) :
  In k (dict_keys d) <-> dict_get eqb d k <> None.
Proof.
  induction d as [| [k' v'] d IH]; simpl.
  - split; [intros [] | congruence].
  - destruct (eqb k k') eqn:E.
    + apply eqb_eq in E. subst k'. split; [discriminate | now left].
    + rewrite <- IH. split; [| now right].
      intros [H | H]; [| exact H].
      subst k'. rewrite (eqb_refl' eqb eqb_eq) in E. discriminate.
Qed.

Lemma dict_set_keys_existing (d : dict K V) (k : K) (v : V) :
  In k (dict_keys d) -> dict_keys (dict_set eqb d k v) = dict_keys d.
Proof.
  induction d as [| [k' v'] d IH]; simpl; intros Hin; [destruct Hin |].
  destruct (eqb k k') eqn:E; simpl; [reflexivity |].
  f_equal. apply IH. destruct Hin as [H | H]; [| exact H].
  subst k'. rewrite (eqb_refl' eqb eqb_eq) in E. discriminate.
Qed.

Lemma dict_set_NoDup (d : dict K V) (k : K) (v : V) :
  NoDup (dict_keys d) -> NoDup (dict_keys (dict_set eqb d k v)).
Proof.
  intros Hnd.
  destruct (dict_get eqb d k) as [v0 |] eqn:Hget.
  - rewrite dict_set_keys_existing; [exact Hnd |].
    apply dict_get_in_keys. congruence.
  - assert (Hnot : ~ In k (dict_keys d)).
    { intros Hin. apply dict_get_in_keys in Hin. congruence. }
    rewrite (dict_set_new eqb eqb_eq d k v Hnot).
    unfold dict_keys. rewrite map_app. simpl.
    apply NoDup_app; [exact Hnd | repeat constructor; intros [] |].
    intros x Hx [<- | []]. contradiction.
Qed.
End DictFacts2.

Lemma sorted_permutation_unique (l1 l2 : list nat) :
  StronglySorted le l1 -> StronglySorted le l2 -> Permutation l1 l2 ->
  l1 = l2.
Proof.
  revert l2. induction l1 as [| a l1 IH]; intros l2 H1 H2 Hp.
  - apply Permutation_nil in Hp. now subst.
  - destruct l2 as [| b l2].
    { apply Permutation_sym, Permutation_nil in Hp. discriminate. }
    apply StronglySorted_inv in H1. destruct H1 as [H1 Ha].
    apply StronglySorted_inv in H2. destruct H2 as [H2 Hb].
    rewrite Forall_forall in Ha, Hb.
    assert (a = b).
    { assert (Hba : In b (a :: l1)).
      { apply (Permutation_in _ (Permutation_sym Hp)). now left. }
      assert (Hab : In a (b :: l2)).
      { apply (Permutation_in _ Hp). now left. }
      destruct Hba as [E | Hba]; [exact E |].
      destruct Hab as [E | Hab]; [now symmetry |].
      specialize (Ha b Hba). specialize (Hb a Hab). lia. }
    subst b. f_equal. apply IH; try assumption.
    eapply Permutation_cons_inv. exact Hp.
Qed.

Lemma take_as_map {A : Type} (d : A) (a : list A) (idx : index_array) :
  Forall (fun i => i < length a) idx ->
  take a idx = Ok (map (fun i => nth i a d) idx).
Proof.
  induction idx as [| i idx IH]; intros Hall; simpl; [reflexivity |].
  apply Forall_cons_iff in Hall. destruct Hall as [Hi Hall].
  rewrite (nth_error_nth' a d Hi), (IH Hall). reflexivity.
Qed.

Lemma nth_firstn_lt {A : Type} (d : A) (k i : nat) (a : list A) :
  i < length (firstn k a) -> nth i (firstn k a) d = nth i a d.
Proof.
  revert i a. induction k as [| k IH]; intros i a Hi; simpl in *; [lia |].
  destruct a as [| x a]; simpl in *; [lia |].
  destruct i as [| i]; [reflexivity |]. apply IH. lia.
Qed.

Lemma map_nth_seq {A : Type} (d : A) (a : list A) :
  map (fun i => nth i a d) (seq 0 (length a)) = a.
Proof.
  induction a as [| x a IH]; simpl; [reflexivity |].
  f_equal. rewrite <- seq_shift, map_map. exact IH.
Qed.

Lemma key_of_as_floats (p : index_array) (i : nat) :
  key_of (as_floats p) i = inject_Z (Z.of_nat (nth i p 0)).
Proof.
  unfold key_of, as_floats.
  exact (map_nth (fun i => inject_Z (Z.of_nat i)) p 0 i).
Qed.

(** The argsort of a prefix of an index array, applied to the array:
    the ascending sort of the prefix. *)
Lemma argsort_prefix_sorts {N : NumPy} {C : NumPyContract N}
      (cached : index_array) (k : nat) :
  let prefix := firstn k cached in
  let ordering := np_argsort (as_floats prefix) in
  Permutation ordering (seq 0 (length prefix)) /\
  take cached ordering = Ok (np_sort prefix) /\
  map (fun i => nth i cached 0) ordering = np_sort prefix.
Proof.
  cbv zeta.
  set (prefix := firstn k cached).
  set (ordering := np_argsort (as_floats prefix)).
  assert (Hperm : Permutation ordering (seq 0 (length prefix))).
  { subst ordering. rewrite <- (length_map (fun i => inject_Z (Z.of_nat i))).
    apply argsort_perm. }
  assert (Hlt : Forall (fun i => i < length prefix) ordering).
  { apply Forall_forall. intros i Hi.
    apply (Permutation_in _ Hperm) in Hi. apply in_seq in Hi. lia. }
  assert (Hmap : map (fun i => nth i cached 0) ordering =
                 map (fun i => nth i prefix 0) ordering).
  { apply map_ext_in. intros i Hi. rewrite Forall_forall in Hlt.
    symmetry. apply nth_firstn_lt. now apply Hlt. }
  assert (Hsorted : map (fun i => nth i prefix 0) ordering = np_sort prefix).
  { apply sorted_permutation_unique.
    - pose proof (argsort_sorted (as_floats prefix)) as Hs.
      fold ordering in Hs. clearbody ordering. clear - Hs.
      induction Hs as [| a l Hs IH Hall]; simpl; constructor.
      + exact IH.
      + apply Forall_forall. intros y Hy. apply in_map_iff in Hy.
        destruct Hy as (j & <- & Hj).
        rewrite Forall_forall in Hall. specialize (Hall j Hj).
        rewrite !key_of_as_floats in Hall.
        rewrite <- Zle_Qle in Hall. lia.
    - apply (proj2 (np_sort_ascending prefix)).
    - eapply Permutation_trans;
        [| apply Permutation_sym, (proj1 (np_sort_ascending prefix))].
      eapply Permutation_trans; [apply Permutation_map, Hperm |].
      rewrite map_nth_seq. apply Permutation_refl. }
  split; [exact Hperm |]. split.
  - rewrite (take_as_map 0).
    + now rewrite Hmap, Hsorted.
    + eapply Forall_impl; [| exact Hlt].
      intros i Hi. cbv beta in Hi. subst prefix.
      rewrite length_firstn in Hi. lia.
  - now rewrite Hmap.
Qed.

(** Lines 191-192: one empty list under each key, each key once. *)
Lemma empty_lists_spec (keys : list string) :
  NoDup (dict_keys (empty_lists keys)) /\
  (forall key, In key (dict_keys (empty_lists keys)) <-> In key keys) /\
  (forall key l, dict_get String.eqb (empty_lists keys) key = Some l -> l = []).
Proof.
  unfold empty_lists.
  assert (Hgen : forall acc : dict string (list Z),
             NoDup (dict_keys acc) ->
             (forall key l, dict_get String.eqb acc key = Some l -> l = []) ->
             let out := fold_left (fun d key => dict_set String.eqb d key [])
                                  keys acc in
             NoDup (dict_keys out) /\
             (forall key, In key (dict_keys out) <->
                          In key (dict_keys acc) \/ In key keys) /\
             (forall key l, dict_get String.eqb out key = Some l -> l = [])).
  { induction keys as [| k keys IH]; intros acc Hnd Hempty; cbv zeta; simpl.
    - split; [exact Hnd |]. split; [intros key; tauto | exact Hempty].
    - destruct (IH (dict_set String.eqb acc k [])) as (H1 & H2 & H3).
      + now apply (dict_set_NoDup String.eqb String.eqb_eq).
      + intros key l.
        destruct (string_dec key k) as [-> | Hne].
        * rewrite (dict_get_set_same String.eqb String.eqb_eq).
          now intros [= <-].
        * rewrite (dict_get_set_other String.eqb String.eqb_eq) by exact Hne.
          apply Hempty.
      + split; [exact H1 |]. split; [| exact H3].
        intros key. rewrite H2.
        rewrite (dict_keys_set String.eqb String.eqb_eq).
        intuition. }
  destruct (Hgen [] (NoDup_nil _)) as (H1 & H2 & H3).
  { intros key l. discriminate. }
  split; [exact H1 |]. split; [| exact H3].
  intros key. rewrite H2. simpl. tauto.
Qed.

Section CoefficientFacts.
Context {R : Rascal}.

(** Lines 197-198: every listed key gets the coefficient of this feature
    at its end; the keys of the dictionary stay. *)
Lemma append_coefficients_spec (coef_idx : dict string Z) (keys : list string) :
  NoDup keys ->
  forall sf sf',
    append_coefficients coef_idx keys sf = Ok sf' ->
    dict_keys sf' = dict_keys sf /\
    (forall key, In key keys ->
       exists c l,
         dict_get String.eqb coef_idx key = Some c /\
         dict_get String.eqb sf key = Some l /\
         dict_get String.eqb sf' key = Some (l ++ [c])) /\
    (forall key, ~ In key keys ->
                 dict_get String.eqb sf' key = dict_get String.eqb sf key).
Proof.
  induction keys as [| k keys IH]; intros Hnd sf sf' Hrun.
  - simpl in Hrun. injection Hrun as <-.
    split; [reflexivity |]. split; [intros ? [] | reflexivity].
  - simpl in Hrun.
    destruct (dict_get String.eqb coef_idx k) as [c |] eqn:Hc;
      [| discriminate].
    destruct (dict_get String.eqb sf k) as [l |] eqn:Hl; [| discriminate].
    apply NoDup_cons_iff in Hnd. destruct Hnd as [Hnot Hnd].
    destruct (IH Hnd _ _ Hrun) as (Hkeys & Hin & Hout).
    split; [| split].
    + rewrite Hkeys.
      apply (dict_set_keys_existing String.eqb String.eqb_eq).
      apply (dict_get_in_keys String.eqb String.eqb_eq). congruence.
    + intros key [<- | Hmem].
      * exists c, l. split; [exact Hc |]. split; [exact Hl |].
        rewrite (Hout k Hnot).
        apply (dict_get_set_same String.eqb String.eqb_eq).
      * destruct (Hin key Hmem) as (c' & l' & Hc' & Hl' & Hget).
        exists c', l'. split; [exact Hc' |]. split; [| exact Hget].
        rewrite <- Hl'. symmetry.
        apply (dict_get_set_other String.eqb String.eqb_eq).
        intros ->. contradiction.
    + intros key Hnot'. rewrite Hout.
      * apply (dict_get_set_other String.eqb String.eqb_eq).
        intros ->. apply Hnot'. now left.
      * intros Hmem. apply Hnot'. now right.
Qed.

(** Lines 195-198: after the loop each list has grown by one coefficient
    per selected feature, in the order of the selection. *)
Lemma collect_coefficients_spec (feat : dict nat (dict string Z))
      (selected : index_array) :
  forall sf out,
    NoDup (dict_keys sf) ->
    collect_coefficients feat selected sf = Ok out ->
    dict_keys out = dict_keys sf /\
    forall key l,
      dict_get String.eqb sf key = Some l ->
      exists cs,
        dict_get String.eqb out key = Some (l ++ cs) /\
        Forall2 (fun idx c =>
                   exists coef_idx,
                     dict_get Nat.eqb feat idx = Some coef_idx /\
                     dict_get String.eqb coef_idx key = Some c)
                selected cs.
Proof.
  induction selected as [| idx selected IH]; intros sf out Hnd Hrun.
  - simpl in Hrun. injection Hrun as <-. split; [reflexivity |].
    intros key l Hl. exists []. rewrite app_nil_r. split; [exact Hl | constructor].
  - simpl in Hrun.
    destruct (dict_get Nat.eqb feat idx) as [coef_idx |] eqn:Hidx;
      [| discriminate].
    destruct (append_coefficients coef_idx (dict_keys sf) sf)
      as [e | sf1] eqn:Happ; [discriminate |].
    destruct (append_coefficients_spec coef_idx (dict_keys sf) Hnd sf sf1 Happ)
      as (Hkeys1 & Hin1 & _).
    destruct (IH sf1 out) as (Hkeys & Hall); [now rewrite Hkeys1 | exact Hrun |].
    split; [now rewrite Hkeys, Hkeys1 |].
    intros key l Hl.
    destruct (Hin1 key) as (c & l' & Hc & Hl' & Hget1).
    { apply (dict_get_in_keys String.eqb String.eqb_eq). congruence. }
    assert (l' = l) by congruence. subst l'.
    destruct (Hall key _ Hget1) as (cs & Hout & Hcs).
    exists (c :: cs). split.
    + rewrite Hout. now rewrite <- app_assoc.
    + constructor; [| exact Hcs]. exists coef_idx. now split.
Qed.

(** The loop raises nothing but [KeyError], and raises it when a selected
    feature has no entry in the mapping. *)
Lemma collect_coefficients_missing (feat : dict nat (dict string Z))
      (selected : index_array) (idx : nat) :
  In idx selected ->
  dict_get Nat.eqb feat idx = None ->
  forall sf, collect_coefficients feat selected sf = Raise KeyError.
Proof.
  intros Hmem Hnone.
  assert (Happ : forall coef keys sf e,
             append_coefficients coef keys sf = inl e -> e = KeyError).
  { intros coef keys. induction keys as [| k keys IH]; intros sf e; simpl.
    - discriminate.
    - destruct (dict_get String.eqb coef k); [| now intros [= <-]].
      destruct (dict_get String.eqb sf k); [apply IH | now intros [= <-]]. }
  induction selected as [| i selected IH]; intros sf; [destruct Hmem |].
  simpl. destruct (dict_get Nat.eqb feat i) as [coef_idx |] eqn:Hi;
    [| reflexivity].
  destruct (append_coefficients coef_idx (dict_keys sf) sf) as [e | sf1]
    eqn:Hrun.
  - now rewrite (Happ _ _ _ _ Hrun).
  - apply IH. destruct Hmem as [-> | Hmem]; [congruence | exact Hmem].
Qed.
End CoefficientFacts.

Section FeatureTheorems.
Context {N : NumPy} {C : NumPyContract N} {R : Rascal}.
Local Open Scope string_scope.

(** Lines 188-202 with a budget that is not negative, a mapping that the
    representation returns and its entry for feature 0. *)
Lemma transform_feature_run (self : CURFilter) (managers : AtomsList)
      (cached : index_array) (k : Z)
      (feat : dict nat (dict string Z)) (first : dict string Z) :
  act_on self = "feature" ->
  selected_feature_ids_global self = Some cached ->
  (0 <= k)%Z ->
  get_feature_index_mapping (_representation self) managers = Ok feat ->
  dict_get Nat.eqb feat 0 = Some first ->
  transform self managers (Some (NInt k)) =
  match collect_coefficients feat (np_sort (firstn (Z.to_nat k) cached))
                             (empty_lists (dict_keys first)) with
  | inl e =>
      (set_selected_ids
         self (Some (FeatureIds (np_sort (firstn (Z.to_nat k) cached)))),
       Raise e)
  | inr filled =>
      (set_selected_ids
         self (Some (FeatureIds (np_sort (firstn (Z.to_nat k) cached)))),
       Ok (CoefficientSubselection
             (dict_set String.eqb
                (dict_set String.eqb filled "selected_features_global_ids"
                          (tolist (np_sort (firstn (Z.to_nat k) cached))))
                "selected_features_global_ids_fps_ordering"
                (tolist (np_argsort
                           (as_floats (firstn (Z.to_nat k) cached)))))))
  end.
Proof.
  intros Hmode Hcache Hk Hfeat Hfirst.
  destruct (argsort_prefix_sorts cached (Z.to_nat k)) as (_ & Htake & _).
  cbv zeta in Htake.
  unfold transform. rewrite Hmode. simpl String.eqb. cbv iota.
  rewrite Hfeat. unfold Ok at 1. rewrite Hfirst, Hcache.
  rewrite (slice_to_nonneg cached k Hk), Htake. unfold Ok at 1.
  reflexivity.
Qed.

(** In mode 'feature' [transform] assigns to [selected_ids] the ascending
    sort of the first [k] cached feature indices, before the coefficient
    loop and so also when that loop raises.  When the call returns, the
    entry 'selected_features_global_ids' is that sorted list, and
    'selected_features_global_ids_fps_ordering' is the permutation of the
    positions [0 .. k-1] that sorts the cached prefix. *)
Theorem transform_feature_sorts_selection
        (self : CURFilter) (managers : AtomsList)
        (cached : index_array) (k : Z)
        (feat : dict nat (dict string Z)) (first : dict string Z) :
  act_on self = "feature" ->
  selected_feature_ids_global self = Some cached ->
  (0 <= k)%Z ->
  get_feature_index_mapping (_representation self) managers = Ok feat ->
  dict_get Nat.eqb feat 0 = Some first ->
  selected_ids (fst (transform self managers (Some (NInt k)))) =
  Some (FeatureIds (np_sort (firstn (Z.to_nat k) cached))) /\
  forall d,
    snd (transform self managers (Some (NInt k))) =
    Ok (CoefficientSubselection d) ->
    dict_get String.eqb d "selected_features_global_ids" =
    Some (tolist (np_sort (firstn (Z.to_nat k) cached))) /\
    exists ordering,
      dict_get String.eqb d "selected_features_global_ids_fps_ordering" =
      Some (tolist ordering) /\
      Permutation ordering (seq 0 (length (firstn (Z.to_nat k) cached))) /\
      map (fun i => nth i cached 0) ordering =
      np_sort (firstn (Z.to_nat k) cached).
Proof.
  intros Hmode Hcache Hk Hfeat Hfirst.
  rewrite (transform_feature_run self managers cached k feat first
             Hmode Hcache Hk Hfeat Hfirst).
  destruct (argsort_prefix_sorts cached (Z.to_nat k)) as (Hperm & _ & Hmap).
  cbv zeta in Hperm, Hmap.
  destruct (collect_coefficients feat _ _) as [e | filled].
  - split; [reflexivity |]. intros d Hd. discriminate.
  - split; [reflexivity |]. intros d Hd. simpl in Hd.
    injection Hd as <-. split.
    + rewrite (dict_get_set_other String.eqb String.eqb_eq) by discriminate.
      apply (dict_get_set_same String.eqb String.eqb_eq).
    + eexists. split; [| split; [exact Hperm | exact Hmap]].
      apply (dict_get_set_same String.eqb String.eqb_eq).
Qed.

(** When the call returns, each component name of the mapping (other than
    the two names added at the end) heads a list with one entry per
    selected feature, in the order of [selected_ids]: that feature's
    coefficient index under that name. *)
Theorem transform_feature_coefficients
        (self : CURFilter) (managers : AtomsList)
        (cached : index_array) (k : Z)
        (feat : dict nat (dict string Z)) (first : dict string Z)
        (d : dict string (list Z)) (key : string) :
  act_on self = "feature" ->
  selected_feature_ids_global self = Some cached ->
  (0 <= k)%Z ->
  get_feature_index_mapping (_representation self) managers = Ok feat ->
  dict_get Nat.eqb feat 0 = Some first ->
  snd (transform self managers (Some (NInt k))) =
  Ok (CoefficientSubselection d) ->
  In key (dict_keys first) ->
  key <> "selected_features_global_ids" ->
  key <> "selected_features_global_ids_fps_ordering" ->
  exists cs,
    dict_get String.eqb d key = Some cs /\
    Forall2 (fun idx c =>
               exists coef_idx,
                 dict_get Nat.eqb feat idx = Some coef_idx /\
                 dict_get String.eqb coef_idx key = Some c)
            (np_sort (firstn (Z.to_nat k) cached)) cs.
Proof.
  intros Hmode Hcache Hk Hfeat Hfirst Hd Hkey Hne1 Hne2.
  rewrite (transform_feature_run self managers cached k feat first
             Hmode Hcache Hk Hfeat Hfirst) in Hd.
  destruct (collect_coefficients feat _ _) as [e | filled] eqn:Hrun;
    [discriminate |].
  simpl in Hd. injection Hd as <-.
  destruct (empty_lists_spec (dict_keys first)) as (Hnd & Hkeys & Hempty).
  destruct (collect_coefficients_spec feat _ _ _ Hnd Hrun) as (_ & Hall).
  destruct (dict_get String.eqb (empty_lists (dict_keys first)) key)
    as [l |] eqn:Hl.
  - pose proof (Hempty key l Hl) as ->.
    destruct (Hall key [] Hl) as (cs & Hget & Hcs).
    exists cs. split; [| exact Hcs].
    rewrite !(dict_get_set_other String.eqb String.eqb_eq) by assumption.
    exact Hget.
  - exfalso. apply Hkeys in Hkey.
    apply (dict_get_in_keys String.eqb String.eqb_eq) in Hkey. congruence.
Qed.

(** A selected feature index without entry in the mapping makes the call
    raise [KeyError] in the coefficient loop, after [selected_ids] has
    been assigned: the filter is not as it was before the call. *)
Theorem transform_feature_missing_index
        (self : CURFilter) (managers : AtomsList)
        (cached : index_array) (k : Z)
        (feat : dict nat (dict string Z)) (first : dict string Z)
        (idx : nat) :
  act_on self = "feature" ->
  selected_feature_ids_global self = Some cached ->
  (0 <= k)%Z ->
  get_feature_index_mapping (_representation self) managers = Ok feat ->
  dict_get Nat.eqb feat 0 = Some first ->
  In idx (firstn (Z.to_nat k) cached) ->
  dict_get Nat.eqb feat idx = None ->
  transform self managers (Some (NInt k)) =
  (set_selected_ids
     self (Some (FeatureIds (np_sort (firstn (Z.to_nat k) cached)))),
   Raise KeyError).
Proof.
  intros Hmode Hcache Hk Hfeat Hfirst Hmem Hnone.
  rewrite (transform_feature_run self managers cached k feat first
             Hmode Hcache Hk Hfeat Hfirst).
  rewrite (collect_coefficients_missing feat _ idx); [reflexivity | | exact Hnone].
  apply (Permutation_in _
           (Permutation_sym (proj1 (np_sort_ascending _)))).
  exact Hmem.
Qed.
End FeatureTheorems.

(** ** The further properties on concrete data *)

Section MoreInstances.
Import Fixture FixtureFacts.
#[local] Existing Instance numpy_stable.
Local Open Scope string_scope.
Local Open Scope Z_scope.

Lemma do_CUR_sample_by_substring_witness :
  do_CUR X43 2 "sample per species" false 10 true world0 =
  do_CUR X43 2 "sample" false 10 true world0.
Proof.
  apply (@do_CUR_sample_by_substring numpy_stable X43 2 "sample per species"
           false 10 true world0).
  reflexivity.
Defined.

Lemma do_CUR_unknown_axis_witness :
  exists U s VT g1,
    svds X43 2 (np_random world0) = (Ok (U, s, VT), g1) /\
    do_CUR X43 2 "rows" true 10 true world0 =
    (Raise UnboundLocalError,
     {| np_random := g1; stdout := stdout world0 |}) /\
    do_CUR X43 2 "rows" false 10 true world0 =
    match np_random_seed 10 with
    | inl e => (Raise e, {| np_random := g1; stdout := stdout world0 |})
    | inr gs =>
        (Raise UnboundLocalError,
         {| np_random := gs; stdout := stdout world0 |})
    end.
Proof.
  apply (@do_CUR_unknown_axis numpy_stable numpy_stable_contract
           X43 2 "rows" 10 true world0).
  - exact X43_budget_2.
  - reflexivity.
  - reflexivity.
Defined.

Lemma diagnostics_leave_selection_witness :
  exists sel w0 err,
    do_CUR X43 2 "feature" false 10 false world0 = (Ok sel, w0) /\
    do_CUR X43 2 "feature" false 10 true world0 =
    (Ok sel, {| np_random := np_random w0;
                stdout := stdout w0 ++ [ReconstructionRMSE err] |}).
Proof.
  apply (@diagnostics_leave_selection numpy_stable numpy_stable_contract
           X43 2 "feature" false 10 world0).
  - exact X43_is_matrix.
  - exact X43_budget_2.
  - right. reflexivity.
  - right. lia.
Defined.

Lemma fit_stores_selection_witness :
  exists sel w',
    @fit numpy_stable rascal (new_filter (NInt 2) "feature" true 10)
         atoms43 world0 =
    ((if (act_on (new_filter (NInt 2) "feature" true 10) =? "sample")%string
      then set_selected_sample_ids
             (new_filter (NInt 2) "feature" true 10) (Some sel)
      else set_selected_feature_ids_global
             (new_filter (NInt 2) "feature" true 10) (Some sel)),
     Ok tt, w') /\
    length sel = Z.to_nat 2 /\
    NoDup sel /\
    Forall (fun i =>
              (i < (if (act_on (new_filter (NInt 2) "feature" true 10)
                        =? "sample")%string
                    then nrows X43 else ncols X43))%nat) sel.
Proof.
  apply (@fit_stores_selection numpy_stable rascal numpy_stable_contract
           (new_filter (NInt 2) "feature" true 10) atoms43 world0 X43 2).
  - reflexivity.
  - exact X43_is_matrix.
  - right. reflexivity.
  - reflexivity.
  - exact X43_budget_2.
  - left. reflexivity.
Defined.

Lemma twins_budgets_valid :
  forall sp, In sp (dict_keys [(1, 1); (6, 2)]) ->
    exists Xsp n,
      dict_get Z.eqb [(1, X33); (6, X33)] sp = Some Xsp /\
      dict_get Z.eqb [(1, 1); (6, 2)] sp = Some n /\
      1 <= n < Z.of_nat (Nat.min (nrows Xsp) (ncols Xsp)).
Proof.
  intros sp [<- | [<- | []]]; do 2 eexists;
    (split; [reflexivity | split; [reflexivity | simpl; lia]]).
Defined.

Lemma fit_per_species_selects_witness :
  exists self' w' by_sp,
    @fit numpy_stable rascal
         (new_filter (NDict [(1, 1); (6, 2)]) "sample per species" false 10)
         atoms_twins world0 = (self', Ok tt, w') /\
    selected_sample_ids_by_sp self' = Some by_sp /\
    _XX self' = Some [(1, X33); (6, X33)] /\
    (forall k, In k (dict_keys by_sp) <-> In k (dict_keys [(1, 1); (6, 2)])) /\
    (forall sp Xsp n,
        In sp (dict_keys [(1, 1); (6, 2)]) ->
        dict_get Z.eqb [(1, X33); (6, X33)] sp = Some Xsp ->
        dict_get Z.eqb [(1, 1); (6, 2)] sp = Some n ->
        exists sel,
          dict_get Z.eqb by_sp sp = Some sel /\
          length sel = Z.to_nat n /\
          NoDup sel /\
          Forall (fun i => (i < nrows Xsp)%nat) sel).
Proof.
  apply (@fit_per_species_selects numpy_stable rascal numpy_stable_contract
           (new_filter (NDict [(1, 1); (6, 2)]) "sample per species" false 10)
           atoms_twins world0 (features atoms_twins) [(1, 1); (6, 2)]
           tt tt tt (indices_by_species atoms_twins [1; 6])
           [(1, X33); (6, X33)]).
  - reflexivity.
  - reflexivity.
  - reflexivity.
  - reflexivity.
  - reflexivity.
  - exact twins_budgets_valid.
  - right. simpl. lia.
Defined.

Lemma fit_splits_matrix_by_species_witness :
  exists X_by_sp,
    _XX (fst (fst (@fit numpy_stable rascal
                        (new_filter (NDict [(1, 1); (6, 2)])
                                    "sample per species" false 10)
                        atoms_twins world0))) = Some X_by_sp /\
    forall sp, In sp (dict_keys [(1, 1); (6, 2)]) ->
      exists rows Xsp,
        dict_get Z.eqb (indices_by_species atoms_twins [1; 6]) sp = Some rows /\
        dict_get Z.eqb X_by_sp sp = Some Xsp /\
        Forall2 (fun i row => nth_error (features atoms_twins) i = Some row)
                rows Xsp.
Proof.
  apply (@fit_splits_matrix_by_species numpy_stable rascal
           (new_filter (NDict [(1, 1); (6, 2)]) "sample per species" false 10)
           _ atoms_twins world0
           (snd (@fit numpy_stable rascal
                      (new_filter (NDict [(1, 1); (6, 2)])
                                  "sample per species" false 10)
                      atoms_twins world0))
           (features atoms_twins) [(1, 1); (6, 2)] tt tt tt
           (indices_by_species atoms_twins [1; 6])).
  - reflexivity.
  - reflexivity.
  - reflexivity.
  - reflexivity.
  - reflexivity.
Defined.

Lemma fit_unlisted_species_KeyError_witness :
  @fit numpy_stable rascal_present_only filter_present_only
       atoms_without_6 world0 =
  (filter_present_only, Raise KeyError,
   snd (print (NumberOfPseudoPoints [(1, 1); (6, 2)]) world0)).
Proof.
  apply (@fit_unlisted_species_KeyError numpy_stable rascal_present_only
           filter_present_only atoms_without_6 world0 X33
           [(1, 1); (6, 2)] 6 tt tt tt
           (indices_of_present atoms_without_6 [1; 6])).
  - reflexivity.
  - reflexivity.
  - reflexivity.
  - reflexivity.
  - intros sp' rows. unfold indices_of_present. simpl.
    destruct (Z.eqb sp' 1); [| discriminate].
    intros [= <-]. repeat constructor.
  - simpl. right. left. reflexivity.
  - reflexivity.
Defined.


Lemma unknown_mode_fit_raises_transform_returns_None_witness :
  @fit numpy_stable rascal (new_filter (NInt 2) "rows" true 10)
       atoms43 world0 =
  (new_filter (NInt 2) "rows" true 10, Raise ValueError, world0) /\
  @transform numpy_stable rascal (new_filter (NInt 2) "rows" true 10)
             atoms43 None =
  (new_filter (NInt 2) "rows" true 10, Ok ReturnsNone).
Proof.
  apply (@unknown_mode_fit_raises_transform_returns_None numpy_stable rascal
           (new_filter (NInt 2) "rows" true 10) atoms43 world0 X43 None).
  - simpl. intros [H | [H | [H | []]]]; discriminate.
  - reflexivity.
Defined.

Lemma transform_unfitted_raises_witness :
  exists e,
    @transform numpy_stable rascal
      (new_filter (NDict [(1, 1); (6, 2)]) "sample per species" true 10)
      atoms_twins None =
    (new_filter (NDict [(1, 1); (6, 2)]) "sample per species" true 10,
     Raise e).
Proof.
  apply (@transform_unfitted_raises numpy_stable rascal
           (new_filter (NDict [(1, 1); (6, 2)]) "sample per species" true 10)
           atoms_twins None).
  - simpl. right. left. reflexivity.
  - reflexivity.
  - reflexivity.
  - reflexivity.
Defined.

Lemma transform_override_must_cover_cache_witness :
  @transform numpy_stable rascal
    (fitted_filter (NDict [(1, 2); (6, 2)]) "sample per species" None
                   (Some [(1, [2; 0]%nat); (6, [1; 0]%nat)]) None)
    atoms_twins (Some (NDict [(1, 1)])) =
  (fitted_filter (NDict [(1, 2); (6, 2)]) "sample per species" None
                 (Some [(1, [2; 0]%nat); (6, [1; 0]%nat)]) None,
   Raise KeyError).
Proof.
  apply (@transform_override_must_cover_cache numpy_stable rascal
           (fitted_filter (NDict [(1, 2); (6, 2)]) "sample per species" None
                          (Some [(1, [2; 0]%nat); (6, [1; 0]%nat)]) None)
           atoms_twins [(1, [2; 0]%nat); (6, [1; 0]%nat)] [(1, 1)] 6
           tt tt tt (indices_by_species atoms_twins [1])).
  - reflexivity.
  - reflexivity.
  - reflexivity.
  - simpl. right. left. reflexivity.
  - reflexivity.
Defined.

Lemma transform_feature_sorts_selection_witness :
  selected_ids
    (fst (@transform numpy_stable rascal
            (fitted_filter (NInt 2) "feature" None None (Some [2; 0]%nat))
            atoms43 (Some (NInt 2)))) =
  Some (FeatureIds (np_sort (firstn (Z.to_nat 2) [2; 0]%nat))) /\
  forall d,
    snd (@transform numpy_stable rascal
           (fitted_filter (NInt 2) "feature" None None (Some [2; 0]%nat))
           atoms43 (Some (NInt 2))) = Ok (CoefficientSubselection d) ->
    dict_get String.eqb d "selected_features_global_ids" =
    Some (tolist (np_sort (firstn (Z.to_nat 2) [2; 0]%nat))) /\
    exists ordering,
      dict_get String.eqb d "selected_features_global_ids_fps_ordering" =
      Some (tolist ordering) /\
      Permutation ordering
                  (seq 0 (length (firstn (Z.to_nat 2) [2; 0]%nat))) /\
      map (fun i => nth i [2; 0]%nat 0%nat) ordering =
      np_sort (firstn (Z.to_nat 2) [2; 0]%nat).
Proof.
  apply (@transform_feature_sorts_selection
           numpy_stable numpy_stable_contract rascal
           (fitted_filter (NInt 2) "feature" None None (Some [2; 0]%nat))
           atoms43 [2; 0]%nat 2
           [(0%nat, [("n", 0)]); (1%nat, [("n", 1)]); (2%nat, [("n", 2)])]
           [("n", 0)]).
  - reflexivity.
  - reflexivity.
  - lia.
  - reflexivity.
  - reflexivity.
Defined.

Lemma transform_feature_coefficients_witness :
  exists cs,
    dict_get String.eqb
      [("n", [0; 2]); ("selected_features_global_ids", [0; 2]);
       ("selected_features_global_ids_fps_ordering", [1; 0])] "n" = Some cs /\
    Forall2 (fun idx c =>
               exists coef_idx,
                 dict_get Nat.eqb
                   [(0%nat, [("n", 0)]); (1%nat, [("n", 1)]);
                    (2%nat, [("n", 2)])] idx = Some coef_idx /\
                 dict_get String.eqb coef_idx "n" = Some c)
            (np_sort (firstn (Z.to_nat 2) [2; 0]%nat)) cs.
Proof.
  apply (@transform_feature_coefficients
           numpy_stable numpy_stable_contract rascal
           (fitted_filter (NInt 2) "feature" None None (Some [2; 0]%nat))
           atoms43 [2; 0]%nat 2
           [(0%nat, [("n", 0)]); (1%nat, [("n", 1)]); (2%nat, [("n", 2)])]
           [("n", 0)]
           [("n", [0; 2]); ("selected_features_global_ids", [0; 2]);
            ("selected_features_global_ids_fps_ordering", [1; 0])] "n").
  - reflexivity.
  - reflexivity.
  - lia.
  - reflexivity.
  - reflexivity.
  - reflexivity.
  - simpl. left. reflexivity.
  - discriminate.
  - discriminate.
Defined.

Lemma transform_feature_missing_index_witness :
  @transform numpy_stable rascal
    (fitted_filter (NInt 2) "feature" None None (Some [7; 0]%nat))
    atoms43 (Some (NInt 2)) =
  (set_selected_ids
     (fitted_filter (NInt 2) "feature" None None (Some [7; 0]%nat))
     (Some (FeatureIds (np_sort (firstn (Z.to_nat 2) [7; 0]%nat)))),
   Raise KeyError).
Proof.
  apply (@transform_feature_missing_index
           numpy_stable numpy_stable_contract rascal
           (fitted_filter (NInt 2) "feature" None None (Some [7; 0]%nat))
           atoms43 [7; 0]%nat 2
           [(0%nat, [("n", 0)]); (1%nat, [("n", 1)]); (2%nat, [("n", 2)])]
           [("n", 0)] 7%nat).
  - reflexivity.
  - reflexivity.
  - lia.
  - reflexivity.
  - reflexivity.
  - simpl. left. reflexivity.
  - reflexivity.
Defined.
End MoreInstances.
